(** * open_excel / search_excel: a shallow embedding and its properties

    The two Ansible modules [open_excel.py] and [search_excel.py] read,
    update and search a spreadsheet through the openpyxl API.  This file
    embeds their three workers, [read_xl_content], [update_xl_content] and
    [search_xl_content], as Rocq functions and proves the properties of
    the range addressing, the batched mutation and the search policies.

    Layout: the Python fragment the code relies on ([Py]), the regular
    expression fragment used by the whole-word search ([Re]), the part of
    the openpyxl API the code calls ([Openpyxl]), then the three workers,
    then the lemmas.

    Strings are ASCII text; cell and argument values are [None], booleans,
    integers and strings. *)

From Stdlib Require Import ZArith Ascii String.
From stdpp Require Import base option list gmap strings pretty fin_maps
  sorting.

Open Scope Z_scope.

(** ** The Python fragment *)

Module Py.

(** Exceptions by class.  [IOError] is what [except IOError] catches;
    every class below is caught by [except Exception] and by a bare
    [except]. *)
Inductive exn :=
| IOError | KeyError | IndexError | TypeError | ValueError | ReError
| OtherError.

Inductive result (A : Type) :=
| Ok (a : A)
| Raise (e : exn).
Arguments Ok {A} a.
Arguments Raise {A} e.

#[export] Instance exn_eq_dec : EqDecision exn.
Proof. solve_decision. Defined.
#[export] Instance result_eq_dec `{EqDecision A} : EqDecision (result A).
Proof. solve_decision. Defined.

#[export] Instance result_ret : MRet result := λ A a, Ok a.
#[export] Instance result_bind : MBind result := λ A B f m,
  match m with Ok a => f a | Raise e => Raise e end.

(** [try: body except IOError: handler] *)
Definition except_IOError {A} (body : result A) (handler : result A)
  : result A :=
  match body with
  | Raise IOError => handler
  | r => r
  end.

(** [try: body except Exception as e: handler(e)] *)
Definition except_Exception {A} (body : result A)
    (handler : exn → result A) : result A :=
  match body with
  | Ok a => Ok a
  | Raise e => handler e
  end.

(** A [for] loop over a list, threading the loop's mutable state. *)
Fixpoint for_ {A S} (l : list A) (body : A → S → result S) (s : S)
  : result S :=
  match l with
  | [] => Ok s
  | x :: l' => s' ← body x s; for_ l' body s'
  end.

(** Values of module arguments and of cells. *)
Inductive pyval :=
| PyNone
| PyBool (b : bool)
| PyInt (n : Z)
| PyStr (s : string).

#[export] Instance pyval_eq_dec : EqDecision pyval.
Proof. solve_decision. Defined.

Abbreviation dict := (gmap string pyval).

(** ** Characters *)

Definition code (c : ascii) : Z := Z.of_N (N_of_ascii c).

Definition is_digit (c : ascii) : bool :=
  (48 <=? code c) && (code c <=? 57).
Definition is_upper (c : ascii) : bool :=
  (65 <=? code c) && (code c <=? 90).
Definition is_lower (c : ascii) : bool :=
  (97 <=? code c) && (code c <=? 122).
Definition is_alnum (c : ascii) : bool :=
  is_digit c || is_upper c || is_lower c.

(** [str.isspace] on ASCII: TAB..CR, FS..US and the blank. *)
Definition is_space (c : ascii) : bool :=
  ((9 <=? code c) && (code c <=? 13))
  || ((28 <=? code c) && (code c <=? 32)).

Definition lower_char (c : ascii) : ascii :=
  if is_upper c then ascii_of_N (Z.to_N (code c + 32)) else c.

(** [s.lower()] *)
Fixpoint lower (s : string) : string :=
  match s with
  | EmptyString => EmptyString
  | String c r => String (lower_char c) (lower r)
  end.

(** [s.startswith(p)] *)
Fixpoint startswith (p s : string) : bool :=
  match p, s with
  | EmptyString, _ => true
  | String a p', String b s' => if decide (a = b) then startswith p' s' else false
  | String _ _, EmptyString => false
  end.

(** [tok in s] on strings: substring test. *)
Fixpoint contains (tok s : string) : bool :=
  startswith tok s
  || match s with
     | EmptyString => false
     | String _ s' => contains tok s'
     end.

(** ** [int(v)] *)

Definition digit_of (c : ascii) : option Z :=
  if is_digit c then Some (code c - 48) else None.

(** The digits after a first digit; one underscore may separate two
    digits. *)
Fixpoint int_digits (acc : Z) (s : string) : option Z :=
  match s with
  | EmptyString => Some acc
  | String c r =>
      match digit_of c with
      | Some d => int_digits (10 * acc + d) r
      | None =>
          if decide (c = "_"%char) then
            match r with
            | String c' r' =>
                match digit_of c' with
                | Some d => int_digits (10 * acc + d) r'
                | None => None
                end
            | EmptyString => None
            end
          else None
      end
  end.

Definition int_unsigned (s : string) : option Z :=
  match s with
  | String c r =>
      match digit_of c with
      | Some d => int_digits d r
      | None => None
      end
  | EmptyString => None
  end.

Fixpoint lstrip (s : string) : string :=
  match s with
  | String c r => if is_space c then lstrip r else s
  | EmptyString => EmptyString
  end.

Fixpoint rstrip (s : string) : string :=
  match s with
  | String c r =>
      match rstrip r with
      | EmptyString => if is_space c then EmptyString else String c EmptyString
      | r' => String c r'
      end
  | EmptyString => EmptyString
  end.

(** [int(s)] for a string, base 10: surrounding white space, an optional
    sign, digits. *)
Definition int_of_str (s : string) : option Z :=
  match lstrip (rstrip s) with
  | String "-" r => Z.opp <$> int_unsigned r
  | String "+" r => int_unsigned r
  | t => int_unsigned t
  end.

Definition py_int (v : pyval) : result Z :=
  match v with
  | PyNone => Raise TypeError
  | PyBool b => Ok (if b then 1 else 0)
  | PyInt n => Ok n
  | PyStr s =>
      match int_of_str s with
      | Some n => Ok n
      | None => Raise ValueError
      end
  end.

(** The integer an argument of [range] stands for ([__index__]). *)
Definition py_index (v : pyval) : result Z :=
  match v with
  | PyBool b => Ok (if b then 1 else 0)
  | PyInt n => Ok n
  | PyNone | PyStr _ => Raise TypeError
  end.

(** [range(a, b)] *)
Definition py_range (a b : Z) : list Z := seqZ a (b - a).

(** [str(v)] *)
Definition py_str (v : pyval) : string :=
  match v with
  | PyNone => "None"
  | PyBool true => "True"
  | PyBool false => "False"
  | PyInt n => pretty n
  | PyStr s => s
  end.

(** Truth value of [v] in a condition. *)
Definition py_truthy (v : pyval) : bool :=
  match v with
  | PyNone => false
  | PyBool b => b
  | PyInt n => negb (n =? 0)
  | PyStr s => negb (String.eqb s "")
  end.

(** [v == w]: booleans compare as the integers 0 and 1. *)
Definition py_eq (v w : pyval) : bool :=
  match v, w with
  | PyNone, PyNone => true
  | PyStr s, PyStr t => String.eqb s t
  | PyNone, _ | _, PyNone | PyStr _, _ | _, PyStr _ => false
  | _, _ =>
      match py_index v, py_index w with
      | Ok a, Ok b => a =? b
      | _, _ => false
      end
  end.

(** [d[k]] where [d] is a dict argument, or [None] when the caller left
    the argument out. *)
Definition getitem (d : option dict) (k : string) : result pyval :=
  match d with
  | None => Raise TypeError
  | Some m =>
      match m !! k with
      | Some v => Ok v
      | None => Raise KeyError
      end
  end.

(** Truth value of an optional dict: [None] and [{}] are false. *)
Definition dict_truthy (d : option dict) : bool :=
  match d with
  | None => false
  | Some m => negb (bool_decide (m = ∅))
  end.

(** Truth value of an optional string: [None] and [""] are false. *)
Definition str_truthy (s : option string) : bool :=
  match s with
  | None => false
  | Some t => negb (String.eqb t "")
  end.

End Py.
Import Py.

(** ** The regular expressions of the whole-word search

    [search_xl_content] builds the pattern
    [r'\b' + re.escape(search_token) + r'\b'] and hands it to [re.search].
    The fragment below has what such a pattern can hold and what an
    unescaped token could have added: literal characters, the dot and the
    word boundary. *)

Module Re.

Inductive atom :=
| Lit (c : ascii)      (* the character itself *)
| AnyChar              (* [.]: any character but a newline *)
| WordB.               (* [\b] *)

(** [\w] *)
Definition is_word (c : ascii) : bool :=
  is_alnum c || bool_decide (c = "_"%char).

(** The characters [re.escape] protects (Python 3.7 and later):
    [()[]{}?*+-|^$\.&~#], the blank, TAB, LF, CR, VT and FF. *)
Definition special (c : ascii) : bool :=
  bool_decide (code c ∈
    [40; 41; 91; 93; 123; 125; 63; 42; 43; 45; 124; 94; 36; 92; 46; 38;
     126; 35; 32; 9; 10; 13; 11; 12]).

(** [re.escape(s)] *)
Fixpoint escape (s : string) : string :=
  match s with
  | EmptyString => EmptyString
  | String c r =>
      if special c then String "\"%char (String c (escape r))
      else String c (escape r)
  end.

(** The characters that are operators when they stand unescaped. *)
Definition operator (c : ascii) : bool :=
  bool_decide (code c ∈
    [94; 36; 42; 43; 63; 123; 125; 91; 93; 40; 41; 124]).

(** Compiling a pattern.  [None]: the pattern is malformed or uses an
    operator outside the fragment (repetition, classes, groups,
    alternation, anchors, class escapes). *)
Fixpoint compile (p : string) : option (list atom) :=
  match p with
  | EmptyString => Some []
  | String c r =>
      if decide (c = "\"%char) then
        match r with
        | EmptyString => None
        | String d r' =>
            if decide (d = "b"%char) then (WordB ::.) <$> compile r'
            else if is_alnum d then None
            else (Lit d ::.) <$> compile r'
        end
      else if decide (c = "."%char) then (AnyChar ::.) <$> compile r
      else if operator c then None
      else (Lit c ::.) <$> compile r
  end.

Definition word_before (prev : option ascii) : bool :=
  match prev with Some c => is_word c | None => false end.

Definition word_after (s : string) : bool :=
  match s with String c _ => is_word c | EmptyString => false end.

(** A word boundary: a word character on exactly one side. *)
Definition boundary (prev : option ascii) (s : string) : bool :=
  xorb (word_before prev) (word_after s).

(** Does [pat] match at the current position?  [prev] is the character
    before the position, [s] the text from the position on. *)
Fixpoint match_here (pat : list atom) (prev : option ascii) (s : string)
  : bool :=
  match pat with
  | [] => true
  | WordB :: pat' => boundary prev s && match_here pat' prev s
  | Lit c :: pat' =>
      match s with
      | String d s' => bool_decide (c = d) && match_here pat' (Some d) s'
      | EmptyString => false
      end
  | AnyChar :: pat' =>
      match s with
      | String d s' => negb (code d =? 10) && match_here pat' (Some d) s'
      | EmptyString => false
      end
  end.

(** Try every position from the current one to the end of the text. *)
Fixpoint search_from (pat : list atom) (prev : option ascii) (s : string)
  : bool :=
  match_here pat prev s
  || match s with
     | String d s' => search_from pat (Some d) s'
     | EmptyString => false
     end.

(** The truth value of [re.search(pattern, s)]. *)
Definition search (pattern s : string) : result bool :=
  match compile pattern with
  | Some pat => Ok (search_from pat None s)
  | None => Raise ReError
  end.

End Re.

(** ** The openpyxl interface

    What the two modules call: fonts and fills, cells, the cell store of a
    worksheet with its extents, row insertion, the sheets of a workbook,
    loading and saving. *)

Module Openpyxl.

Record Font := {
  color : option string;      (* aRGB text, [None] when unset *)
  bold : bool;
  italic : bool;
  underline : option string
}.

Record PatternFill := {
  fill_type : option string;
  fgColor : string
}.

Record Cell := {
  value : pyval;
  font : Font;
  fill : PatternFill
}.

#[export] Instance Font_eq_dec : EqDecision Font.
Proof. solve_decision. Defined.
#[export] Instance PatternFill_eq_dec : EqDecision PatternFill.
Proof. solve_decision. Defined.
#[export] Instance Cell_eq_dec : EqDecision Cell.
Proof. solve_decision. Defined.

(** A worksheet is its cell store [_cells], keyed by (row, column). *)
Abbreviation Worksheet := (gmap (Z * Z) Cell).

(** A workbook is its sheets, by title, in enumeration order. *)
Abbreviation Workbook := (list (string * Worksheet)).

(** *** Colours *)

Definition is_hex (c : ascii) : bool :=
  is_digit c
  || ((65 <=? code c) && (code c <=? 70))
  || ((97 <=? code c) && (code c <=? 102)).

Fixpoint all_hex (s : string) : bool :=
  match s with
  | EmptyString => true
  | String c r => is_hex c && all_hex r
  end.

(** The text without one final newline: where [$] may match. *)
Fixpoint chomp (s : string) : string :=
  match s with
  | EmptyString => EmptyString
  | String c r =>
      match r with
      | EmptyString => if code c =? 10 then EmptyString else s
      | _ => String c (chomp r)
      end
  end.

(** [aRGB_REGEX.match(s)], the pattern being
    [^([A-Fa-f0-9]{8}|[A-Fa-f0-9]{6})$]. *)
Definition aRGB_match (s : string) : bool :=
  let t := chomp s in
  (bool_decide (String.length t = 8%nat)
   || bool_decide (String.length t = 6%nat))
  && all_hex t.

(** [Color(rgb=s)]: six digits are completed with a leading [00]. *)
Definition Color (s : string) : result string :=
  if aRGB_match s then
    Ok (if bool_decide (String.length s = 6%nat) then "00" +:+ s else s)
  else Raise ValueError.

(** *** Fonts and fills *)

(** [Font()] *)
Definition Font_default : Font :=
  {| color := None; bold := false; italic := false; underline := None |}.

(** [Font(color=v)] *)
Definition Font_of_color (v : pyval) : result Font :=
  match v with
  | PyNone => Ok Font_default
  | PyStr s =>
      rgb ← Color s;
      Ok {| color := Some rgb; bold := false; italic := false;
            underline := None |}
  | PyBool _ | PyInt _ => Raise TypeError
  end.

(** A [Font] defines neither [__bool__] nor [__len__]: as a condition
    every font object is true. *)
Definition Font_truthy (f : Font) : bool := true.

Definition set_bold (b : bool) (f : Font) : Font :=
  {| color := color f; bold := b; italic := italic f;
     underline := underline f |}.

Definition set_italic (b : bool) (f : Font) : Font :=
  {| color := color f; bold := bold f; italic := b;
     underline := underline f |}.

(** [f.underline = u]; the text ['none'] is stored as [None]. *)
Definition set_underline (u : string) (f : Font) : Font :=
  {| color := color f; bold := bold f; italic := italic f;
     underline := if String.eqb u "none" then None else Some u |}.

(** [PatternFill()] *)
Definition PatternFill_default : PatternFill :=
  {| fill_type := None; fgColor := "00000000" |}.

(** [PatternFill(fgColor=v, fill_type=t)] *)
Definition PatternFill_of (v : pyval) (t : string) : result PatternFill :=
  match v with
  | PyStr s => rgb ← Color s; Ok {| fill_type := Some t; fgColor := rgb |}
  | PyNone | PyBool _ | PyInt _ => Raise TypeError
  end.

(** *** Cells and worksheets *)

(** The cell [_get_cell] creates where the store has none. *)
Definition Cell_new : Cell :=
  {| value := PyNone; font := Font_default; fill := PatternFill_default |}.

(** [c.value = v]: the values of this development ([None], booleans,
    integers, text) are stored as they are. *)
Definition set_value (v : pyval) (c : Cell) : Cell :=
  {| value := v; font := font c; fill := fill c |}.

Definition set_font (f : Font) (c : Cell) : Cell :=
  {| value := value c; font := f; fill := fill c |}.

Definition set_fill (p : PatternFill) (c : Cell) : Cell :=
  {| value := value c; font := font c; fill := p |}.

(** [ws.cell(row=row, column=column)]: the cell and the store, in which
    the cell now exists. *)
Definition cell (ws : Worksheet) (row column : Z)
  : result (Cell * Worksheet) :=
  if (row <? 1) || (column <? 1) then Raise ValueError
  else
    match ws !! (row, column) with
    | Some c => Ok (c, ws)
    | None => Ok (Cell_new, <[(row, column) := Cell_new]> ws)
    end.

(** [ws.cell(row=row, column=column).attr = x]: the assignment goes to
    the cell object held by the store. *)
Definition cell_assign (ws : Worksheet) (row column : Z)
    (f : Cell → Cell) : result Worksheet :=
  '(c, ws') ← cell ws row column;
  Ok (<[(row, column) := f c]> ws').

Definition max_of (l : list Z) : Z :=
  match l with
  | [] => 1
  | x :: xs => foldr Z.max x xs
  end.

(** [ws.max_row]: 1 for an empty store. *)
Definition max_row (ws : Worksheet) : Z :=
  max_of ((map_to_list ws).*1.*1).

(** [ws.max_column] *)
Definition max_column (ws : Worksheet) : Z :=
  max_of ((map_to_list ws).*1.*2).

(** The rectangle of rows [min_row .. max_row], every column, filled
    with cells: what enumerating [iter_rows(min_row=...)] leaves. *)
Definition fill_rows (ws : Worksheet) (min_row : Z) : result Worksheet :=
  let last_row := max_row ws in
  let last_col := max_column ws in
  for_ (py_range min_row (last_row + 1)) (λ r ws1,
    for_ (py_range 1 (last_col + 1)) (λ c ws2,
      '(_, ws3) ← cell ws2 r c; Ok ws3) ws1) ws.

(** [ws.insert_rows(idx=idx, amount=1)]: the rows from [idx] on are
    made contiguous, then each of their cells moves one row down. *)
Definition insert_rows (ws : Worksheet) (idx : Z) : result Worksheet :=
  ws1 ← fill_rows ws (if idx =? 0 then 1 else idx);
  Ok (list_to_map
        ((λ '((r, c), x),
           if negb (idx =? 0) && (r <? idx) then ((r, c), x)
           else ((r + 1, c), x)) <$> map_to_list ws1)).

(** *** Workbooks *)

Definition get_sheet_names (wb : Workbook) : list string := wb.*1.

(** [wb.get_sheet_by_name(name)]: the first sheet of that title. *)
Fixpoint get_sheet_by_name (wb : Workbook) (name : option string)
  : result Worksheet :=
  match wb with
  | [] => Raise KeyError
  | (title, ws) :: wb' =>
      if bool_decide (Some title = name) then Ok ws
      else get_sheet_by_name wb' name
  end.

(** The workbook after the sheet object [name] refers to has been
    mutated into [ws']. *)
Fixpoint with_sheet (wb : Workbook) (name : option string)
    (ws' : Worksheet) : Workbook :=
  match wb with
  | [] => []
  | (title, ws) :: wb' =>
      if bool_decide (Some title = name) then (title, ws') :: wb'
      else (title, ws) :: with_sheet wb' name ws'
  end.

(** *** Storage *)

(** The files: what [load_workbook(file, data_only=True)] gives, and
    the exception, if any, [wb.save(filename=file)] ends with. *)
Record Storage := {
  load_workbook : string → result Workbook;
  save_raises : string → Workbook → option exn
}.

End Openpyxl.
Import Openpyxl.

(** ** What the workers return *)

(** The text of an error message, by format string; an exception stands
    for its own text. *)
Inductive message :=
| Error_accessing_excel_file (excel_file : string)
| Error_accessing_specified_excel_sheet (sheet_name : option string) (e : exn)
| Error_updating_excel_file
| Invalid_search_parameters_specified (e : exn).

(** A record of a read: column key to cell text. *)
Abbreviation record := (gmap string string).

Inductive response :=
| Message (m : message)
| Sheets (excelsheet : gmap string (list record))
| Matches (l : list (Z * Z))       (* [{'list': l}], entries (row_no, col_no) *)
| Nulldict.

(** [try: v = d[k] except Exception: v = default] *)
Definition get_or (d : option dict) (k : string) (default : pyval) : pyval :=
  match getitem d k with
  | Ok v => v
  | Raise _ => default
  end.

(** [try: n = int(d[k]) + 1 except Exception: n = 0] *)
Definition end_bound (d : option dict) (k : string) : Z :=
  match v ← getitem d k; py_int v with
  | Ok n => n + 1
  | Raise _ => 0
  end.

(** [range(a, b)] where [a] is an argument as the caller gave it. *)
Definition range_from (a : pyval) (b : Z) : result (list Z) :=
  a' ← py_index a; Ok (py_range a' b).

(** [l[k]] on a list. *)
Definition list_getitem {A} (l : list A) (k : Z) : result A :=
  let i := if k <? 0 then Z.of_nat (length l) + k else k in
  if i <? 0 then Raise IndexError
  else match l !! Z.to_nat i with
       | Some x => Ok x
       | None => Raise IndexError
       end.

(** [ws.cell(row=row, column=col).value] on the read-only paths.  The
    cells that [cell] creates there are dropped: a sheet's extents are
    read before its first cell access, each sheet is visited once, and
    the workbook is discarded when the worker returns. *)
Definition cell_value (ws : Worksheet) (row col : Z) : result pyval :=
  '(c, _) ← cell ws row col; Ok (value c).

(** [sheet_names_list = [sheet_name]], and
    [if not sheet_name: sheet_names_list = wb.get_sheet_names()] *)
Definition select_sheets (wb : Workbook) (sheet_name : option string)
  : list string :=
  match sheet_name with
  | Some name => if str_truthy sheet_name then [name] else get_sheet_names wb
  | None => get_sheet_names wb
  end.

(** ** open_excel.py: read_xl_content *)

(** The keys of a sheet's records. *)
Definition read_dict_keys (current_sheet : Worksheet) (index_by_name : bool)
    (start_col : pyval) (end_col : Z) : result (list string) :=
  cols ← range_from start_col end_col;
  for_ cols (λ col dict_keys,
    if index_by_name then
      v ← cell_value current_sheet 1 col;
      Ok (dict_keys ++ [py_str v])
    else Ok (dict_keys ++ ["col_" +:+ py_str (PyInt col)])) [].

(** One row as a record. *)
Definition read_row (current_sheet : Worksheet) (dict_keys : list string)
    (start_col : pyval) (end_col : Z) (row : Z) : result record :=
  cols ← range_from start_col end_col;
  for_ cols (λ col (temp_dict : record),
    v ← cell_value current_sheet row col;
    first_col ← py_index start_col;
    key ← list_getitem dict_keys (col - first_col);
    Ok (<[key := py_str v]> temp_dict)) ∅.

(** The state of the loop over the sheets: [sheet_index], [end_row],
    [end_col] and [excelsheet]. *)
Definition read_state : Type := Z * Z * Z * gmap string (list record).

(** The body of [for asheet_name in sheet_names_list]. *)
Definition read_sheet (wb : Workbook) (index_by_name : bool)
    (start_row start_col : pyval) (asheet_name : string)
    (st : read_state) : result read_state :=
  let '(sheet_index, end_row, end_col, excelsheet) := st in
  let ansible_sheet_index_name :=
    "sheet_index_" +:+ py_str (PyInt sheet_index) in
  let excelsheet := <[ansible_sheet_index_name := []]> excelsheet in
  current_sheet ← get_sheet_by_name wb (Some asheet_name);
  let end_row := if end_row =? 0 then max_row current_sheet + 1 else end_row in
  let end_col :=
    if end_col =? 0 then max_column current_sheet + 1 else end_col in
  dict_keys ← read_dict_keys current_sheet index_by_name start_col end_col;
  rows ← range_from start_row end_row;
  records ← for_ rows (λ row records,
    temp_dict ← read_row current_sheet dict_keys start_col end_col row;
    Ok (records ++ [temp_dict])) [];
  Ok (sheet_index + 1, end_row, end_col,
      <[ansible_sheet_index_name := records]> excelsheet).

Definition read_xl_content (files : Storage) (excel_file : string)
    (index_by_name : bool) (read_range : option dict)
    (sheet_name : option string) : result (Z * response) :=
  let start_row := get_or read_range "start_row" (PyInt 1) in
  let start_col := get_or read_range "start_col" (PyInt 1) in
  let end_row := end_bound read_range "end_row" in
  let end_col := end_bound read_range "end_col" in
  except_IOError
    (wb ← load_workbook files excel_file;
     let sheet_names_list := select_sheets wb sheet_name in
     '(_, _, _, excelsheet) ←
       for_ sheet_names_list
         (read_sheet wb index_by_name start_row start_col)
         (0, end_row, end_col, ∅);
     Ok (0, Sheets excelsheet))
    (Ok (1, Message (Error_accessing_excel_file excel_file))).

(** ** open_excel.py: update_xl_content *)

(** [int(entry[k])] for an entry of [updates_matrix]. *)
Definition entry_int (entry : dict) (k : string) : result Z :=
  v ← getitem (Some entry) k; py_int v.

(** One tri-state attribute of [font_strike]:
    [try: if cell_style[k] == True: on  elif cell_style[k] == False: off
     except: pass] *)
Definition tri_state (cell_style : option dict) (k : string)
    (on off : Font → Font) (font_strike : Font) : Font :=
  match getitem cell_style k with
  | Ok v =>
      if py_eq v (PyBool true) then on font_strike
      else if py_eq v (PyBool false) then off font_strike
      else font_strike
  | Raise _ => font_strike
  end.

(** The [if cell_style:] block of the loop. *)
Definition style_entry (cell_style : option dict) (current_sheet : Worksheet)
    (row_no : Z) (entry : dict) : result Worksheet :=
  if dict_truthy cell_style then
    fontColor ← getitem cell_style "fontColor";
    ws1 ← (if py_truthy fontColor then
             f ← Font_of_color fontColor;
             col ← entry_int entry "cell_col";
             cell_assign current_sheet row_no col (set_font f)
           else Ok current_sheet);
    let font_strike := Font_default in
    let font_strike :=
      tri_state cell_style "bold" (set_bold true) (set_bold false)
        font_strike in
    let font_strike :=
      tri_state cell_style "italic" (set_italic true) (set_italic false)
        font_strike in
    let font_strike :=
      tri_state cell_style "underline" (set_underline "single")
        (set_underline "none") font_strike in
    let ws2 :=
      if Font_truthy font_strike then
        match col ← entry_int entry "cell_col";
              cell_assign ws1 row_no col (set_font font_strike) with
        | Ok ws' => ws'
        | Raise _ => ws1
        end
      else ws1 in
    bgColor ← getitem cell_style "bgColor";
    if py_truthy bgColor then
      p ← PatternFill_of bgColor "solid";
      col ← entry_int entry "cell_col";
      cell_assign ws2 row_no col (set_fill p)
    else Ok ws2
  else Ok current_sheet.

(** The body of [for cell in updates_matrix], on the loop's state
    [row_no] and the sheet. *)
Definition write_entry (cell_style : option dict) (l_op : string)
    (entry : dict) (st : Z * Worksheet) : result (Z * Worksheet) :=
  let '(row_no, current_sheet) := st in
  row_no ← (if String.eqb l_op "w" then entry_int entry "cell_row"
            else Ok row_no);
  col ← entry_int entry "cell_col";
  '(cellref, ws1) ← cell current_sheet row_no col;
  v ← getitem (Some entry) "cell_value";
  let ws2 := <[(row_no, col) := set_value v cellref]> ws1 in
  ws3 ← style_entry cell_style ws2 row_no entry;
  Ok (row_no, ws3).

(** The second [try] block: the mutation of the loaded workbook. *)
Definition update_sheet (wb : Workbook) (updates_matrix : option (list dict))
    (cell_style : option dict) (sheet_name : option string) (op : string)
    : result Workbook :=
  current_sheet ← get_sheet_by_name wb sheet_name;
  let l_op := op in
  updates ← match updates_matrix with
            | Some l => Ok l
            | None => Raise TypeError
            end;
  first ← list_getitem updates 0;
  row_no ← entry_int first "cell_row";
  let l_op := if String.eqb l_op "w" && (row_no =? 0) then "a" else l_op in
  current_sheet ← (if String.eqb l_op "i" then insert_rows current_sheet row_no
                   else Ok current_sheet);
  let row_no :=
    if String.eqb l_op "a" then max_row current_sheet + 1 else row_no in
  '(_, current_sheet) ←
    for_ updates (write_entry cell_style l_op) (row_no, current_sheet);
  Ok (with_sheet wb sheet_name current_sheet).

(** [update_xl_content] with the calls of [wb.save] it made, as
    (filename, workbook written). *)
Definition update_xl_content (files : Storage) (excel_file : string)
    (dest_filename : option string) (updates_matrix : option (list dict))
    (cell_style : option dict) (sheet_name : option string) (op : string)
    : result (Z * response) * list (string * Workbook) :=
  let dest_filename :=
    match dest_filename with
    | Some d => if str_truthy dest_filename then d
                else excel_file +:+ "_updated.xlsx"
    | None => excel_file +:+ "_updated.xlsx"
    end in
  match load_workbook files excel_file with
  | Raise IOError =>
      (Ok (1, Message (Error_accessing_excel_file excel_file)), [])
  | Raise e => (Raise e, [])
  | Ok wb =>
      match update_sheet wb updates_matrix cell_style sheet_name op with
      | Raise e =>
          (Ok (1, Message (Error_accessing_specified_excel_sheet sheet_name e)),
           [])
      | Ok wb' =>
          match save_raises files dest_filename wb' with
          | Some IOError =>
              (Ok (1, Message Error_updating_excel_file),
               [(dest_filename, wb')])
          | Some e => (Raise e, [(dest_filename, wb')])
          | None => (Ok (0, Nulldict), [(dest_filename, wb')])
          end
      end
  end.

(** ** search_excel.py: search_xl_content *)

(** The test of one cell: [found_token] as a truth value. *)
Definition found_token (search_option_w search_option_x : bool)
    (search_token cell_val : string) : result bool :=
  if search_option_x then Ok (String.eqb search_token cell_val)
  else if search_option_w then
    Re.search ("\b" +:+ Re.escape search_token +:+ "\b") cell_val
  else Ok (contains search_token cell_val).

(** The body of the loop over the columns of a row. *)
Definition search_cell (current_sheet : Worksheet)
    (search_option_i search_option_w search_option_x : bool)
    (search_token : string) (row col : Z) (list_ : list (Z * Z))
    : result (list (Z * Z)) :=
  v ← cell_value current_sheet row col;
  let cell_val := py_str v in
  let cell_val := if search_option_i then lower cell_val else cell_val in
  found ← found_token search_option_w search_option_x search_token cell_val;
  Ok (if found : bool then list_ ++ [(row, col)] else list_).

(** The state of the loop over the sheets: [end_row], [end_col] and
    [retval['list']]. *)
Definition search_state : Type := Z * Z * list (Z * Z).

(** The body of [for asheet_name in sheet_names_list]. *)
Definition search_sheet (wb : Workbook)
    (search_option_i search_option_w search_option_x : bool)
    (search_token : string) (start_row start_col : pyval)
    (asheet_name : string) (st : search_state) : result search_state :=
  let '(end_row, end_col, list_) := st in
  current_sheet ← get_sheet_by_name wb (Some asheet_name);
  let end_row := if end_row =? 0 then max_row current_sheet + 1 else end_row in
  let end_col :=
    if end_col =? 0 then max_column current_sheet + 1 else end_col in
  rows ← range_from start_row end_row;
  list_ ← for_ rows (λ row list_,
    cols ← range_from start_col end_col;
    for_ cols (λ col list_,
      search_cell current_sheet search_option_i search_option_w
        search_option_x search_token row col list_) list_) list_;
  Ok (end_row, end_col, list_).

Definition search_xl_content (files : Storage) (excel_file : string)
    (search_token : string) (search_range : option dict)
    (search_options : string) (sheet_name : option string)
    : result (Z * response) :=
  let search_option_i := contains "i" search_options in
  let search_option_w := contains "w" search_options in
  let search_option_x := contains "x" search_options in
  let search_token :=
    if search_option_i then lower search_token else search_token in
  match load_workbook files excel_file with
  | Raise IOError => Ok (1, Message (Error_accessing_excel_file excel_file))
  | Raise e => Raise e
  | Ok wb =>
      let start_row := get_or search_range "start_row" (PyInt 1) in
      let start_col := get_or search_range "start_col" (PyInt 1) in
      let end_row := end_bound search_range "end_row" in
      let end_col := end_bound search_range "end_col" in
      except_Exception
        (let sheet_names_list := select_sheets wb sheet_name in
         '(_, _, list_) ←
           for_ sheet_names_list
             (search_sheet wb search_option_i search_option_w
                search_option_x search_token start_row start_col)
             (end_row, end_col, []);
         Ok (0, Matches list_))
        (λ e, Ok (1, Message (Invalid_search_parameters_specified e)))
  end.

(** ** Vocabulary of the statements *)

(** The character a position follows, after reading [s] from a position
    that followed [prev]. *)
Fixpoint char_after (prev : option ascii) (s : string) : option ascii :=
  match s with
  | EmptyString => prev
  | String c r => char_after (Some c) r
  end.

(** The last character of [s], if any. *)
Definition last_char (s : string) : option ascii := char_after None s.

(** The first and the last character of a token are word characters. *)
Definition word_ended (tok : string) : Prop :=
  Re.word_after tok = true ∧ Re.word_before (last_char tok) = true.

(** [val] is [pre], then the token, then [post]. *)
Definition occurs_at (pre tok post val : string) : Prop :=
  val = pre +:+ tok +:+ post.

(** The occurrence of the token after [pre] and before [post] has a word
    boundary on each side. *)
Definition between_word_boundaries (pre tok post : string) : Prop :=
  Re.boundary (last_char pre) (tok +:+ post) = true
  ∧ Re.boundary (last_char (pre +:+ tok)) post = true.

(** The occurrence of the token after [pre] and before [post] has, on
    each side, a character that is not a word character, or nothing. *)
Definition between_non_word (pre post : string) : Prop :=
  Re.word_before (last_char pre) = false ∧ Re.word_after post = false.

(** The match policy of the search as the code has it, on the token and
    the cell text as given: [i] lowers both, [x] asks for equality, [w]
    without [x] for an occurrence between word boundaries, neither for an
    occurrence. *)
Definition match_policy (i w x : bool) (token cell_text : string) : Prop :=
  let t := if i then lower token else token in
  let v := if i then lower cell_text else cell_text in
  if x then t = v
  else if w then
    ∃ pre post, occurs_at pre t post v ∧ between_word_boundaries pre t post
  else ∃ pre post, occurs_at pre t post v.

(** The same policy with the whole-word case read as an occurrence
    bounded by non-word characters. *)
Definition match_policy_non_word (i w x : bool) (token cell_text : string)
  : Prop :=
  let t := if i then lower token else token in
  let v := if i then lower cell_text else cell_text in
  if x then t = v
  else if w then ∃ pre post, occurs_at pre t post v ∧ between_non_word pre post
  else ∃ pre post, occurs_at pre t post v.

(** The value held at (row, col): [None] where the store has no cell. *)
Definition stored_value (ws : Worksheet) (row col : Z) : pyval :=
  match ws !! (row, col) with
  | Some c => value c
  | None => PyNone
  end.

Definition is_ok {A} (r : result A) : bool :=
  match r with Ok _ => true | Raise _ => false end.

(** An entry that can be written: its column reads as an integer that is
    at least 1 and it has a value. *)
Definition entry_writable (entry : dict) : bool :=
  match entry_int entry "cell_col", entry !! "cell_value" with
  | Ok c, Some _ => 1 <=? c
  | _, _ => false
  end.

(** A style the style pass goes through with: none, or one that names
    both colours, each empty or an aRGB text. *)
Definition style_accepted (cell_style : option dict) : bool :=
  negb (dict_truthy cell_style)
  || match getitem cell_style "fontColor", getitem cell_style "bgColor" with
     | Ok fc, Ok bg =>
         (negb (py_truthy fc) || is_ok (Font_of_color fc))
         && (negb (py_truthy bg) || is_ok (PatternFill_of bg "solid"))
     | _, _ => false
     end.

(** The value of the last entry of the batch whose column is [col]. *)
Fixpoint last_value (updates : list dict) (col : Z) : option pyval :=
  match updates with
  | [] => None
  | entry :: rest =>
      match last_value rest col with
      | Some v => Some v
      | None =>
          if bool_decide (entry_int entry "cell_col" = Ok col)
          then entry !! "cell_value"
          else None
      end
  end.

(** The key of a column in the records of a sheet: the text of its
    header cell, or [col_<n>]. *)
Definition column_key (ws : Worksheet) (index_by_name : bool) (col : Z)
  : string :=
  if index_by_name then py_str (stored_value ws 1 col)
  else "col_" +:+ py_str (PyInt col).

(** The key of the [k]-th selected sheet in the result of a read. *)
Definition sheet_key (k : Z) : string := "sheet_index_" +:+ py_str (PyInt k).

(** The records of one sheet between resolved bounds: the rows in order,
    each the assignments of its columns. *)
Definition sheet_records (ws : Worksheet) (index_by_name : bool)
    (sr sc er ec : Z) (records : list record) : Prop :=
  Forall2 (λ row rec,
      rec = foldl (λ d col,
                     <[column_key ws index_by_name col
                       := py_str (stored_value ws row col)]> d)
              ∅ (py_range sc ec))
    (py_range sr er) records.


(** The test of the cell at (row, col) against a token that has been
    lowered already when [i] is set. *)
Definition cell_hit (ws : Worksheet) (i w x : bool) (search_token : string)
    (row col : Z) : bool :=
  let cell_val := py_str (stored_value ws row col) in
  match found_token w x search_token
          (if i then lower cell_val else cell_val) with
  | Ok found => found
  | Raise _ => false
  end.

(** The cells of [rows] x [cols] that pass the test, row by row and,
    within a row, column by column. *)
Definition sheet_hits (ws : Worksheet) (i w x : bool) (search_token : string)
    (rows cols : list Z) : list (Z * Z) :=
  row ← rows; col ← cols;
  if cell_hit ws i w x search_token row col then [(row, col)] else [].

(** ** Sample data *)

Definition text_cell (s : string) : Cell := set_value (PyStr s) Cell_new.
Definition int_cell (n : Z) : Cell := set_value (PyInt n) Cell_new.

(** A one-cell cover sheet. *)
Definition summary_sheet : Worksheet :=
  {[ (1, 1) := text_cell "Staff list" ]}.

(** Three rows, two columns, the first row being the header. *)
Definition employee_sheet : Worksheet :=
  {[ (1, 1) := text_cell "employee_name"; (1, 2) := text_cell "year_joined";
     (2, 1) := text_cell "John Smith";    (2, 2) := int_cell 1999;
     (3, 1) := text_cell "Sandy Cole";    (3, 2) := int_cell 2015 ]}.

Definition sample_book : Workbook :=
  [("Summary", summary_sheet); ("Employee", employee_sheet)].

(** A store that holds one workbook, under [name], and accepts every
    save. *)
Definition files_with (name : string) (wb : Workbook) : Storage :=
  {| load_workbook := λ f,
       if String.eqb f name then Ok wb else Raise IOError;
     save_raises := λ _ _, None |}.

Definition sample_files : Storage := files_with "SampleBook.xlsx" sample_book.

Definition update_entry (row col : Z) (v : string) : dict :=
  {[ "cell_row" := PyInt row; "cell_col" := PyInt col;
     "cell_value" := PyStr v ]}.

(** The style of the module's documentation. *)
Definition sample_style : dict :=
  {[ "fontColor" := PyStr "006100"; "bgColor" := PyStr "C6EFCE";
     "bold" := PyBool true; "underline" := PyBool true ]}.

(** ** The entry points: main *)

(** [module.params] of open_excel; an argument the caller left out is
    [None]. *)
Record open_params := {
  p_src : string;
  p_dest : option string;
  p_op : string;
  p_index_by_name : bool;
  p_read_range : option dict;
  p_updates_matrix : option (list dict);
  p_cell_style : option dict;
  p_sheet_name : option string
}.

(** [module.params] of search_excel. *)
Record search_params := {
  s_src : string;
  s_search_token : string;
  s_search_range : option dict;
  s_search_options : string;
  s_sheet_name : option string
}.

(** What [main] hands to [fail_json]: what a worker returned beside a
    non-zero status, or one of the two texts of [main] itself. *)
Inductive failure :=
| From_worker (r : response)
| Sheet_name_has_to_be_specified
| Invalid_access_mode.

(** How [main] leaves: [module.fail_json(msg=...)] or
    [module.exit_json(changed=True, **response)]. *)
Inductive exit :=
| fail_json (msg : failure)
| exit_json (response : response).

(** [if ret_code: fail_json(msg=response) else: exit_json(changed=True,
    **response)]; a text cannot be unpacked as keywords. *)
Definition report (ret : Z * response) : result exit :=
  let '(ret_code, response) := ret in
  if negb (ret_code =? 0) then Ok (fail_json (From_worker response))
  else
    match response with
    | Message _ => Raise TypeError
    | _ => Ok (exit_json response)
    end.

(** [main] of open_excel.py, with the calls of [wb.save] it led to. *)
Definition open_excel_main (files : Storage) (params : open_params)
  : result exit * list (string * Workbook) :=
  let op := p_op params in
  if String.eqb op "r" then
    (ret ← read_xl_content files (p_src params) (p_index_by_name params)
             (p_read_range params) (p_sheet_name params);
     report ret, [])
  else if String.eqb op "w" || String.eqb op "a" || String.eqb op "i" then
    let dest_filename := p_dest params in
    if negb (str_truthy (p_sheet_name params)) then
      (Ok (fail_json Sheet_name_has_to_be_specified), [])
    else
      let '(ret, saves) :=
        update_xl_content files (p_src params) dest_filename
          (p_updates_matrix params) (p_cell_style params)
          (p_sheet_name params) op in
      (ret ≫= report, saves)
  else (Ok (fail_json Invalid_access_mode), []).

(** [main] of search_excel.py. *)
Definition search_excel_main (files : Storage) (params : search_params)
  : result exit :=
  ret ← search_xl_content files (s_src params) (s_search_token params)
          (s_search_range params) (s_search_options params)
          (s_sheet_name params);
  report ret.

(** ** More vocabulary *)

(** The record of a row over the columns [cols]: one assignment per
    column, in order. *)
Definition row_record (ws : Worksheet) (index_by_name : bool) (row : Z)
    (cols : list Z) : record :=
  foldl (λ d col,
           <[column_key ws index_by_name col
             := py_str (stored_value ws row col)]> d) ∅ cols.

(** The records of the rows [rows] over the columns [cols]. *)
Definition sheet_table (ws : Worksheet) (index_by_name : bool)
    (rows cols : list Z) : list record :=
  (λ row, row_record ws index_by_name row cols) <$> rows.

(** An end bound after resolution against an extent. *)
Definition resolved (bound extent : Z) : Z :=
  if bound =? 0 then extent + 1 else bound.

(** The value of the last entry of the batch that names the cell
    (row, col). *)
Fixpoint last_value_at (updates : list dict) (row col : Z) : option pyval :=
  match updates with
  | [] => None
  | entry :: rest =>
      match last_value_at rest row col with
      | Some v => Some v
      | None =>
          if bool_decide (entry_int entry "cell_row" = Ok row
                          ∧ entry_int entry "cell_col" = Ok col)
          then entry !! "cell_value"
          else None
      end
  end.

(** An entry that names its own cell: row and column read as integers
    that are at least 1, and it has a value. *)
Definition entry_addressed (entry : dict) : bool :=
  match entry_int entry "cell_row", entry_int entry "cell_col",
        entry !! "cell_value" with
  | Ok r, Ok c, Some _ => (1 <=? r) && (1 <=? c)
  | _, _, _ => false
  end.

(** Row by row, then column by column. *)
Definition row_major (a b : Z * Z) : Prop :=
  a.1 < b.1 ∨ (a.1 = b.1 ∧ a.2 < b.2).

(** The hits of the sheets [names] of a workbook, sheet after sheet, over
    the same rows and columns. *)
Definition book_hits (wb : Workbook) (i w x : bool) (search_token : string)
    (names : list string) (rows cols : list Z) : list (Z * Z) :=
  name ← names;
  match get_sheet_by_name wb (Some name) with
  | Ok ws => sheet_hits ws i w x search_token rows cols
  | Raise _ => []
  end.

(** The font the style pass assigns last: a fresh font with the three
    tri-state attributes of the style. *)
Definition font_strike_of (cell_style : option dict) : Font :=
  tri_state cell_style "underline" (set_underline "single")
    (set_underline "none")
    (tri_state cell_style "italic" (set_italic true) (set_italic false)
       (tri_state cell_style "bold" (set_bold true) (set_bold false)
          Font_default)).

(** Where [insert_rows(idx)] moves the cell at a position: one row down
    from row [idx] on. *)
Definition shift_key (idx : Z) (k : Z * Z) : Z * Z :=
  if negb (idx =? 0) && (k.1 <? idx) then k else (k.1 + 1, k.2).

(** * Properties *)

#[local] Arguments String.append !_ _ / : simpl nomatch.

(** ** Strings *)

Lemma char_after_app (prev : option ascii) (s t : string) :
  char_after prev (s +:+ t) = char_after (char_after prev s) t.
Proof. revert prev. induction s as [|c s IH]; intros prev; simpl; [done | apply IH]. Qed.

Lemma startswith_spec (p s : string) :
  startswith p s = true ↔ ∃ post, s = p +:+ post.
Proof.
  revert s. induction p as [|a p IH]; intros s; simpl.
  - split; [intros _; by exists s | done].
  - destruct s as [|b s]; [split; [done | intros [? ?]; done] |].
    case_decide as Hab.
    + subst b. rewrite IH.
      split; intros [post H]; exists post; [by subst | by simplify_eq].
    + split; [done | intros [post ?]; simplify_eq].
Qed.

Lemma contains_spec (tok s : string) :
  contains tok s = true ↔ ∃ pre post, occurs_at pre tok post s.
Proof.
  unfold occurs_at. induction s as [|c s IH]; simpl.
  - rewrite orb_false_r, startswith_spec. split.
    + intros [post ->]. by exists "", post.
    + intros ([|? ?] & post & H); [by exists post | done].
  - rewrite orb_true_iff, startswith_spec, IH. split.
    + intros [[post ->] | (pre & post & ->)].
      * by exists "", post.
      * by exists (String c pre), post.
    + intros ([|a pre] & post & H); simpl in H.
      * left. by exists post.
      * right. exists pre, post. by simplify_eq.
Qed.

(** ** The pattern of the whole-word search *)

Lemma special_not_alnum (c : ascii) :
  Re.special c = true → is_alnum c = false ∧ c ≠ "b"%char.
Proof.
  unfold Re.special. rewrite bool_decide_eq_true. intros Hin. split.
  - unfold is_alnum, is_digit, is_upper, is_lower.
    repeat (apply elem_of_cons in Hin as [-> | Hin]; [reflexivity |]).
    by apply elem_of_nil in Hin.
  - intros ->. vm_compute in Hin. 
    repeat (apply elem_of_cons in Hin as [Hin | Hin]; [discriminate |]).
    by apply elem_of_nil in Hin.
Qed.

Lemma not_special_literal (c : ascii) :
  Re.special c = false →
  c ≠ "\"%char ∧ c ≠ "."%char ∧ Re.operator c = false.
Proof.
  unfold Re.special, Re.operator.
  rewrite bool_decide_eq_false. intros Hnot. split_and!.
  - intros ->. apply Hnot. vm_compute. set_solver.
  - intros ->. apply Hnot. vm_compute. set_solver.
  - rewrite bool_decide_eq_false. intros Hin. apply Hnot.
    repeat (apply elem_of_cons in Hin as [-> | Hin]; [set_solver |]).
    by apply elem_of_nil in Hin.
Qed.

(** Compiling an escaped text gives the text's characters as literals,
    whatever they are. *)
Lemma compile_escape (tok rest : string) :
  Re.compile (Re.escape tok +:+ rest)
  = (λ pat, (Re.Lit <$> list_ascii_of_string tok) ++ pat) <$> Re.compile rest.
Proof.
  induction tok as [|c tok IH]; simpl.
  - by destruct (Re.compile rest).
  - destruct (Re.special c) eqn:Hc; simpl.
    + destruct (special_not_alnum c Hc) as [Hal Hb].
      rewrite decide_False by done.
      rewrite Hal, IH. by destruct (Re.compile rest).
    + destruct (not_special_literal c Hc) as (H1 & H2 & H3).
      rewrite !decide_False by done. rewrite H3, IH.
      by destruct (Re.compile rest).
Qed.

Lemma compile_whole_word (tok : string) :
  Re.compile ("\b" +:+ Re.escape tok +:+ "\b")
  = Some (Re.WordB :: (Re.Lit <$> list_ascii_of_string tok) ++ [Re.WordB]).
Proof.
  change ("\b" +:+ Re.escape tok +:+ "\b")
    with (String "\" (String "b" (Re.escape tok +:+ "\b"))).
  cbn [Re.compile]. rewrite decide_True by done. rewrite decide_True by done.
  rewrite compile_escape. reflexivity.
Qed.

(** Matching literals consumes exactly the text. *)
Lemma match_here_literals (tok : string) (pat : list Re.atom)
    (prev : option ascii) (s : string) :
  Re.match_here ((Re.Lit <$> list_ascii_of_string tok) ++ pat) prev s = true
  ↔ ∃ post, s = tok +:+ post
            ∧ Re.match_here pat (char_after prev tok) post = true.
Proof.
  revert prev s. induction tok as [|c tok IH]; intros prev s; simpl.
  - split; [intros H; by exists s | by intros (post & -> & H)].
  - destruct s as [|d s].
    + split; [done | by intros (post & ? & _)].
    + rewrite andb_true_iff, bool_decide_eq_true, IH. split.
      * intros (-> & post & -> & H). by exists post.
      * intros (post & Heq & H). simplify_eq. split; [done | by exists post].
Qed.

Lemma search_from_spec (pat : list Re.atom) (prev : option ascii) (s : string) :
  Re.search_from pat prev s = true
  ↔ ∃ pre post, s = pre +:+ post
                ∧ Re.match_here pat (char_after prev pre) post = true.
Proof.
  revert prev. induction s as [|c s IH]; intros prev; simpl.
  - rewrite orb_false_r. split.
    + intros H. by exists "", "".
    + intros ([|? ?] & post & Heq & H); [|done]. simpl in *. by subst post.
  - rewrite orb_true_iff, IH. split.
    + intros [H | (pre & post & -> & H)].
      * by exists "", (String c s).
      * by exists (String c pre), post.
    + intros ([|a pre] & post & Heq & H); simpl in *.
      * left. by subst post.
      * right. simplify_eq. by exists pre, post.
Qed.

Lemma whole_word_search (tok val : string) :
  ∃ b, Re.search ("\b" +:+ Re.escape tok +:+ "\b") val = Ok b
       ∧ (b = true ↔ ∃ pre post, occurs_at pre tok post val
                                 ∧ between_word_boundaries pre tok post).
Proof.
  unfold Re.search. rewrite compile_whole_word. eexists; split; [done |].
  rewrite search_from_spec. unfold occurs_at, between_word_boundaries.
  split.
  - intros (pre & rest & -> & H). cbn [Re.match_here] in H.
    apply andb_true_iff in H as [Hb1 H].
    apply match_here_literals in H as (post & -> & H).
    cbn [Re.match_here] in H. rewrite andb_true_r in H.
    exists pre, post. split_and!; [done | done |].
    unfold last_char. by rewrite char_after_app.
  - intros (pre & post & -> & Hb1 & Hb2).
    exists pre, (tok +:+ post). split; [done |].
    cbn [Re.match_here]. apply andb_true_iff. split; [done |].
    apply match_here_literals. exists post. split; [done |].
    cbn [Re.match_here]. rewrite andb_true_r.
    unfold last_char in Hb2. by rewrite char_after_app in Hb2.
Qed.

(** ** Cells *)

Lemma cell_present (ws : Worksheet) (row col : Z) (c : Cell) :
  1 ≤ row → 1 ≤ col → ws !! (row, col) = Some c →
  cell ws row col = Ok (c, ws).
Proof.
  intros Hr Hc Hws. unfold cell.
  destruct (row <? 1) eqn:E1; [lia |]. destruct (col <? 1) eqn:E2; [lia |].
  simpl. by rewrite Hws.
Qed.

Lemma cell_inserts (ws : Worksheet) (row col : Z) :
  1 ≤ row → 1 ≤ col →
  ∃ c, cell ws row col = Ok (c, <[(row, col) := c]> ws)
       ∧ value c = stored_value ws row col.
Proof.
  intros Hr Hc. unfold cell, stored_value.
  destruct (row <? 1) eqn:E1; [lia |]. destruct (col <? 1) eqn:E2; [lia |].
  simpl. destruct (ws !! (row, col)) as [c|] eqn:Hws.
  - exists c. by rewrite insert_id.
  - by exists Cell_new.
Qed.

Lemma cell_below_one (ws : Worksheet) (row col : Z) :
  row < 1 ∨ col < 1 → cell ws row col = Raise ValueError.
Proof.
  intros H. unfold cell.
  destruct (row <? 1) eqn:E1; [done |]. destruct (col <? 1) eqn:E2; [done |].
  lia.
Qed.

Lemma cell_assign_present (ws : Worksheet) (row col : Z) (c : Cell)
    (f : Cell → Cell) :
  1 ≤ row → 1 ≤ col → ws !! (row, col) = Some c →
  cell_assign ws row col f = Ok (<[(row, col) := f c]> ws).
Proof.
  intros Hr Hc Hws. unfold cell_assign. by rewrite (cell_present _ _ _ c).
Qed.

(** ** The style pass *)

Lemma tri_state_color (cell_style : option dict) (k : string)
    (on off : Font → Font) (f : Font) :
  (∀ g, color (on g) = color g) → (∀ g, color (off g) = color g) →
  color (tri_state cell_style k on off f) = color f.
Proof.
  intros Hon Hoff. unfold tri_state.
  destruct (getitem cell_style k) as [v|]; [|done].
  destruct (py_eq v (PyBool true)); [done |].
  by destruct (py_eq v (PyBool false)).
Qed.

(** The font the style pass assigns last: [font_strike]. *)
Lemma font_strike_color (cell_style : option dict) :
  color
    (tri_state cell_style "underline" (set_underline "single")
       (set_underline "none")
       (tri_state cell_style "italic" (set_italic true) (set_italic false)
          (tri_state cell_style "bold" (set_bold true) (set_bold false)
             Font_default))) = None.
Proof. by rewrite !tri_state_color. Qed.

(** With an accepted style the style pass rewrites the one cell of the
    entry, keeps its value and leaves its font without a colour. *)
Lemma style_entry_accepted (cell_style : option dict) (ws : Worksheet)
    (row_no : Z) (entry : dict) (col : Z) (c : Cell) :
  1 ≤ row_no → entry_int entry "cell_col" = Ok col → 1 ≤ col →
  ws !! (row_no, col) = Some c →
  style_accepted cell_style = true →
  ∃ c', style_entry cell_style ws row_no entry
        = Ok (<[(row_no, col) := c']> ws)
        ∧ value c' = value c
        ∧ (dict_truthy cell_style = true → color (font c') = None).
Proof.
  intros Hr Hcol Hc Hws Hacc. unfold style_entry, style_accepted in *.
  destruct (dict_truthy cell_style) eqn:Ht; simpl in Hacc.
  2:{ exists c. rewrite insert_id by done. done. }
  destruct (getitem cell_style "fontColor") as [fc|] eqn:Hfc; [|done].
  destruct (getitem cell_style "bgColor") as [bg|] eqn:Hbg; [|done].
  apply andb_true_iff in Hacc as [Hf Hb]. simpl.
  set (fs := tri_state cell_style "underline" _ _ _).
  assert (color fs = None) as Hfs by apply font_strike_color.
  unfold Font_truthy.
  (* the font colour assignment *)
  assert (∃ c1, (if py_truthy fc
                 then Font_of_color fc ≫= λ f,
                        entry_int entry "cell_col" ≫= λ col0,
                          cell_assign ws row_no col0 (set_font f)
                 else Ok ws) = Ok (<[(row_no, col) := c1]> ws)
                ∧ value c1 = value c) as (c1 & -> & Hv1).
  { destruct (py_truthy fc); simpl in Hf.
    - destruct (Font_of_color fc) as [f|]; [|done]. simpl.
      rewrite Hcol. simpl. rewrite (cell_assign_present _ _ _ c) by done.
      by exists (set_font f c).
    - exists c. by rewrite insert_id. }
  simpl. rewrite Hcol. simpl.
  rewrite (cell_assign_present _ _ _ c1) by (done || apply lookup_insert_eq).
  rewrite insert_insert_eq.
  destruct (py_truthy bg); simpl in Hb.
  - destruct (PatternFill_of bg "solid") as [p|]; [|done]. simpl.
    rewrite (cell_assign_present _ _ _ (set_font fs c1))
      by (done || apply lookup_insert_eq).
    rewrite insert_insert_eq. by exists (set_fill p (set_font fs c1)).
  - by exists (set_font fs c1).
Qed.

(** ** One entry of the batch *)

Lemma write_entry_fixed_row (cell_style : option dict) (l_op : string)
    (entry : dict) (row_no : Z) (ws : Worksheet) (col : Z) (v : pyval) :
  l_op ≠ "w" → 1 ≤ row_no →
  entry_int entry "cell_col" = Ok col → 1 ≤ col →
  entry !! "cell_value" = Some v →
  style_accepted cell_style = true →
  ∃ c', write_entry cell_style l_op entry (row_no, ws)
        = Ok (row_no, <[(row_no, col) := c']> ws)
        ∧ value c' = v
        ∧ (dict_truthy cell_style = true → color (font c') = None).
Proof.
  intros Hop Hr Hcol Hc Hv Hacc. unfold write_entry.
  apply String.eqb_neq in Hop. rewrite Hop. simpl. rewrite Hcol. simpl.
  destruct (cell_inserts ws row_no col Hr Hc) as (c0 & -> & _). simpl.
  rewrite Hv. simpl.
  destruct (style_entry_accepted cell_style
              (<[(row_no, col) := set_value v c0]> (<[(row_no, col) := c0]> ws))
              row_no entry col (set_value v c0))
    as (c' & -> & Hval & Hcolor); [done .. | apply lookup_insert_eq | done |].
  simpl. rewrite !insert_insert_eq. by exists c'.
Qed.

(** ** Loops *)

Lemma for_ext {A S} (l : list A) (f g : A → S → result S) (s : S) :
  (∀ x s', x ∈ l → f x s' = g x s') → for_ l f s = for_ l g s.
Proof.
  revert s. induction l as [|x l IH]; intros s Hfg; simpl; [done |].
  rewrite Hfg by set_solver. destruct (g x s) as [s'|]; simpl; [|done].
  apply IH. intros y s'' Hy. apply Hfg. set_solver.
Qed.

Lemma for_fmap {A B S} (h : A → B) (l : list A) (f : B → S → result S)
    (s : S) :
  for_ (h <$> l) f s = for_ l (λ x, f (h x)) s.
Proof.
  revert s. induction l as [|x l IH]; intros s; simpl; [done |].
  destruct (f (h x) s); simpl; [apply IH | done].
Qed.

Lemma for_raises {A S} (l : list A) (f : A → S → result S) (s : S) (x : A) :
  x ∈ l → (∀ s', ∃ e, f x s' = Raise e) → ∃ e, for_ l f s = Raise e.
Proof.
  intros Hx Hf. revert s. induction l as [|y l IH]; intros s.
  - by apply elem_of_nil in Hx.
  - simpl. apply elem_of_cons in Hx as [<- | Hx].
    + destruct (Hf s) as [e ->]. by exists e.
    + destruct (f y s) as [s'|e]; simpl; [by apply IH | by exists e].
Qed.

(** ** The batch written into one row *)

Lemma last_value_written (updates : list dict) (entry : dict) (col : Z) :
  entry ∈ updates → entry_writable entry = true →
  entry_int entry "cell_col" = Ok col →
  is_Some (last_value updates col).
Proof.
  intros Hin Hw Hcol. induction updates as [|e rest IH].
  - by apply elem_of_nil in Hin.
  - simpl. destruct (last_value rest col) as [v|] eqn:Hl; [by eexists |].
    apply elem_of_cons in Hin as [<- | Hin].
    + rewrite bool_decide_eq_true_2 by done.
      unfold entry_writable in Hw. rewrite Hcol in Hw.
      destruct (entry !! "cell_value"); [by eexists | done].
    + by destruct (IH Hin).
Qed.

Lemma last_value_own (updates : list dict) (i : nat) (entry : dict)
    (col : Z) (v : pyval) :
  updates !! i = Some entry →
  entry_int entry "cell_col" = Ok col → entry !! "cell_value" = Some v →
  (∀ j e, (i < j)%nat → updates !! j = Some e →
          entry_int e "cell_col" ≠ Ok col) →
  last_value updates col = Some v.
Proof.
  revert i. induction updates as [|e rest IH]; intros i Hi Hcol Hv Hlater.
  - done.
  - simpl. destruct i as [|i]; simpl in Hi.
    + simplify_eq.
      assert (last_value rest col = None) as ->.
      { clear IH Hv. induction rest as [|e' rest IH']; [done |]. simpl.
        rewrite IH'.
        - rewrite bool_decide_eq_false_2; [done |].
          by apply (Hlater 1%nat e'); [lia |].
        - intros j e1 Hj He1. apply (Hlater (S j) e1); [lia |].
          destruct j; [lia |]. done. }
      by rewrite bool_decide_eq_true_2.
    + rewrite (IH i Hi Hcol Hv); [done |].
      intros j e1 Hj He1. apply (Hlater (S j) e1); [lia | done].
Qed.

(** The loop of [update_xl_content] when the mode is not ["w"]: every
    entry goes to the row computed before the loop. *)
Lemma write_loop_fixed_row (cell_style : option dict) (l_op : string)
    (updates : list dict) (row_no : Z) (ws : Worksheet) :
  l_op ≠ "w" → 1 ≤ row_no →
  Forall (λ e, entry_writable e = true) updates →
  style_accepted cell_style = true →
  ∃ ws', for_ updates (write_entry cell_style l_op) (row_no, ws)
         = Ok (row_no, ws')
    ∧ (∀ r c, r ≠ row_no → ws' !! (r, c) = ws !! (r, c))
    ∧ (∀ c, last_value updates c = None →
            ws' !! (row_no, c) = ws !! (row_no, c))
    ∧ (∀ c v, last_value updates c = Some v →
              ∃ cl, ws' !! (row_no, c) = Some cl ∧ value cl = v
                    ∧ (dict_truthy cell_style = true →
                       color (font cl) = None)).
Proof.
  intros Hop Hr Hall Hacc. revert ws.
  induction Hall as [|e rest He Hall IH]; intros ws.
  - exists ws. by split_and!.
  - unfold entry_writable in He.
    destruct (entry_int e "cell_col") as [c0|] eqn:Hc0; [|done].
    destruct (e !! "cell_value") as [v0|] eqn:Hv0; [|done].
    apply Z.leb_le in He.
    destruct (write_entry_fixed_row cell_style l_op e row_no ws c0 v0)
      as (c' & Hw & Hval & Hcolor); [done .. |].
    destruct (IH (<[(row_no, c0) := c']> ws)) as (ws' & Hfor & HA & HB & HC).
    exists ws'. cbn [for_]. rewrite Hw. cbn [mbind result_bind].
    split_and!; [done | | |]; cbn [last_value].
    + intros r c Hne. rewrite HA by done.
      apply lookup_insert_ne. congruence.
    + intros c Hl. destruct (last_value rest c) eqn:Hrest; [done |].
      case_bool_decide as Hc; [congruence |].
      rewrite HB by done. apply lookup_insert_ne. congruence.
    + intros c v Hl. destruct (last_value rest c) as [v'|] eqn:Hrest.
      * simplify_eq. by apply HC.
      * case_bool_decide as Hc; [|done].
        assert (c0 = c) as -> by congruence.
        exists c'. rewrite HB by done. rewrite lookup_insert_eq.
        split_and!; [done | congruence | done].
Qed.

(** Outside mode ["w"] the loop never reads [cell_row]. *)
Lemma write_entry_ignores_row (cell_style : option dict) (l_op : string)
    (entry : dict) (st : Z * Worksheet) :
  l_op ≠ "w" →
  write_entry cell_style l_op (delete "cell_row" entry) st
  = write_entry cell_style l_op entry st.
Proof.
  intros Hop. apply String.eqb_neq in Hop. destruct st as [row_no ws].
  assert (entry_int (delete "cell_row" entry) "cell_col"
          = entry_int entry "cell_col") as Hcol.
  { unfold entry_int, getitem. by rewrite lookup_delete_ne. }
  unfold write_entry, style_entry. rewrite Hop, !Hcol.
  unfold getitem. by rewrite lookup_delete_ne.
Qed.

(** ** Workbooks *)

Lemma get_with_sheet (wb : Workbook) (name : option string)
    (ws ws' : Worksheet) :
  get_sheet_by_name wb name = Ok ws →
  get_sheet_by_name (with_sheet wb name ws') name = Ok ws'.
Proof.
  induction wb as [|[title ws0] wb IH]; simpl; [done |].
  case_bool_decide as Hn; simpl.
  - intros _. by rewrite bool_decide_eq_true_2.
  - intros H. rewrite bool_decide_eq_false_2 by done. by apply IH.
Qed.

Lemma get_with_sheet_other (wb : Workbook) (name other : option string)
    (ws' : Worksheet) :
  other ≠ name →
  get_sheet_by_name (with_sheet wb name ws') other
  = get_sheet_by_name wb other.
Proof.
  intros Hne. induction wb as [|[title ws0] wb IH]; simpl; [done |].
  case_bool_decide as Hn; simpl.
  - rewrite !bool_decide_eq_false_2 by congruence. done.
  - case_bool_decide; [done | apply IH].
Qed.

(** ** The mutation of the workbook *)

Lemma list_getitem_first {A} (l : list A) (x : A) :
  l !! 0%nat = Some x → list_getitem l 0 = Ok x.
Proof.
  intros H. unfold list_getitem. change (0 <? 0) with false. cbv iota.
  change (Z.to_nat 0) with 0%nat. by rewrite H.
Qed.

(** Overwrite mode whose first entry names row 0 is append mode. *)
Lemma update_sheet_degrade (wb : Workbook) (updates : list dict)
    (first : dict) (cell_style : option dict) (sheet_name : option string) :
  updates !! 0%nat = Some first → entry_int first "cell_row" = Ok 0 →
  update_sheet wb (Some updates) cell_style sheet_name "w"
  = update_sheet wb (Some updates) cell_style sheet_name "a".
Proof.
  intros Hfirst Hrow. unfold update_sheet.
  destruct (get_sheet_by_name wb sheet_name) as [ws|]; [|done].
  cbn [mbind result_bind]. rewrite (list_getitem_first _ _ Hfirst).
  cbn [mbind result_bind]. rewrite Hrow. reflexivity.
Qed.

(** Append mode: the row is [max_row + 1] of the sheet as loaded, for
    every entry. *)
Lemma update_sheet_append (wb : Workbook) (updates : list dict)
    (first : dict) (r0 : Z) (cell_style : option dict)
    (sheet_name : option string) (ws : Worksheet) :
  get_sheet_by_name wb sheet_name = Ok ws →
  updates !! 0%nat = Some first → entry_int first "cell_row" = Ok r0 →
  1 ≤ max_row ws →
  Forall (λ e, entry_writable e = true) updates →
  style_accepted cell_style = true →
  ∃ ws', update_sheet wb (Some updates) cell_style sheet_name "a"
         = Ok (with_sheet wb sheet_name ws')
    ∧ (∀ r c, r ≠ max_row ws + 1 → ws' !! (r, c) = ws !! (r, c))
    ∧ (∀ c, last_value updates c = None →
            ws' !! (max_row ws + 1, c) = ws !! (max_row ws + 1, c))
    ∧ (∀ c v, last_value updates c = Some v →
              ∃ cl, ws' !! (max_row ws + 1, c) = Some cl ∧ value cl = v
                    ∧ (dict_truthy cell_style = true →
                       color (font cl) = None)).
Proof.
  intros Hws Hfirst Hrow Hmax Hall Hacc. unfold update_sheet.
  rewrite Hws. cbn [mbind result_bind].
  rewrite (list_getitem_first _ _ Hfirst). cbn [mbind result_bind].
  rewrite Hrow. cbn [mbind result_bind].
  change (String.eqb "a" "w" && (r0 =? 0)) with false. cbv iota.
  change (String.eqb "a" "i") with false.
  change (String.eqb "a" "a") with true. cbv iota.
  cbn [mbind result_bind].
  destruct (write_loop_fixed_row cell_style "a" updates (max_row ws + 1) ws)
    as (ws' & -> & HA & HB & HC); [done | lia | done | done |].
  exists ws'. by split_and!.
Qed.

(** In append mode the rows the entries name do not matter, as long as
    the first one reads as an integer. *)
Lemma update_sheet_append_ignores_rows (wb : Workbook)
    (updates updates' : list dict) (first first' : dict) (r0 r0' : Z)
    (cell_style : option dict) (sheet_name : option string) :
  updates !! 0%nat = Some first → entry_int first "cell_row" = Ok r0 →
  updates' !! 0%nat = Some first' → entry_int first' "cell_row" = Ok r0' →
  delete "cell_row" <$> updates' = delete "cell_row" <$> updates →
  update_sheet wb (Some updates') cell_style sheet_name "a"
  = update_sheet wb (Some updates) cell_style sheet_name "a".
Proof.
  intros Hf Hr Hf' Hr' Hsame. unfold update_sheet.
  destruct (get_sheet_by_name wb sheet_name) as [ws|]; [|done].
  cbn [mbind result_bind].
  rewrite (list_getitem_first _ _ Hf), (list_getitem_first _ _ Hf').
  cbn [mbind result_bind]. rewrite Hr, Hr'. cbn [mbind result_bind].
  change (String.eqb "a" "w" && (r0 =? 0)) with false.
  change (String.eqb "a" "w" && (r0' =? 0)) with false. cbv iota.
  change (String.eqb "a" "i") with false.
  change (String.eqb "a" "a") with true. cbv iota.
  cbn [mbind result_bind].
  assert (∀ l st,
    for_ l (write_entry cell_style "a") st
    = for_ (delete "cell_row" <$> l) (write_entry cell_style "a") st) as Hdel.
  { intros l st. rewrite for_fmap. apply for_ext. intros e s' _.
    symmetry. by apply write_entry_ignores_row. }
  by rewrite (Hdel updates), (Hdel updates'), Hsame.
Qed.

(** ** Saving *)

(** Once the workbook is loaded and mutated, it is handed to [save]
    once, and the status is 0 when [save] goes through. *)
Lemma update_xl_content_saves (files : Storage) (excel_file : string)
    (dest_filename : option string) (updates_matrix : option (list dict))
    (cell_style : option dict) (sheet_name : option string) (op : string)
    (wb wb' : Workbook) :
  load_workbook files excel_file = Ok wb →
  update_sheet wb updates_matrix cell_style sheet_name op = Ok wb' →
  ∃ ret dest,
    update_xl_content files excel_file dest_filename updates_matrix
      cell_style sheet_name op = (ret, [(dest, wb')])
    ∧ (save_raises files dest wb' = None → ret = Ok (0, Nulldict)).
Proof.
  intros Hload Hupd. unfold update_xl_content. rewrite Hload, Hupd.
  match goal with
  | |- context [save_raises files ?d wb'] =>
      destruct (save_raises files d wb') as [[]|] eqn:Hs;
      eexists _, d; (split; [reflexivity | by rewrite Hs])
  end.
Qed.

(** ** Append and overwrite at row 0 *)

(** What a batch written into the single row [row] leaves in the sheet
    [ws'], the sheet being [ws] before. *)
Lemma one_row_written (updates : list dict) (row : Z)
    (cell_style : option dict) (ws ws' : Worksheet) :
  Forall (λ e, entry_writable e = true) updates →
  (∀ c, last_value updates c = None → ws' !! (row, c) = ws !! (row, c)) →
  (∀ c v, last_value updates c = Some v →
          ∃ cl, ws' !! (row, c) = Some cl ∧ value cl = v
                ∧ (dict_truthy cell_style = true → color (font cl) = None)) →
  (∀ entry col, entry ∈ updates → entry_int entry "cell_col" = Ok col →
     is_Some (ws' !! (row, col))
     ∧ last_value updates col = Some (stored_value ws' row col))
  ∧ (∀ (i : nat) entry col v,
       updates !! i = Some entry → entry_int entry "cell_col" = Ok col →
       entry !! "cell_value" = Some v →
       (∀ (j : nat) e, (i < j)%nat → updates !! j = Some e →
                       entry_int e "cell_col" ≠ Ok col) →
       stored_value ws' row col = v).
Proof.
  intros Hall HB HC. split.
  - intros entry col Hin Hcol.
    rewrite Forall_forall in Hall.
    destruct (last_value_written updates entry col Hin (Hall _ Hin) Hcol)
      as [v Hv].
    destruct (HC col v Hv) as (cl & Hcl & Hval & _).
    unfold stored_value. rewrite Hcl. split; [by eexists | congruence].
  - intros i entry col v Hi Hcol Hv Hlater.
    pose proof (last_value_own updates i entry col v Hi Hcol Hv Hlater) as Hl.
    destruct (HC col v Hl) as (cl & Hcl & Hval & _).
    unfold stored_value. by rewrite Hcl.
Qed.

(** C5: in append mode (["a"]), on a sheet whose last row is M, the
    target row M+1 is fixed once, from the sheet as loaded, before any
    entry is written; every entry of a non-empty batch is written in row
    M+1 at its own [cell_col] (a later entry for the same column writes
    over an earlier one); no other row and no other sheet changes; and
    the rows the entries
    name play no part: a batch that differs only in its [cell_row] values
    leaves the same workbook. *)
Theorem append_writes_row_after_last (files : Storage) (excel_file : string)
    (dest_filename : option string) (wb : Workbook) (updates : list dict)
    (first : dict) (r0 : Z) (cell_style : option dict)
    (sheet_name : option string) (ws : Worksheet) :
  load_workbook files excel_file = Ok wb →
  get_sheet_by_name wb sheet_name = Ok ws →
  updates !! 0%nat = Some first → entry_int first "cell_row" = Ok r0 →
  1 ≤ max_row ws →
  Forall (λ e, entry_writable e = true) updates →
  style_accepted cell_style = true →
  ∃ ret dest wb' ws',
    update_xl_content files excel_file dest_filename (Some updates)
      cell_style sheet_name "a" = (ret, [(dest, wb')])
    ∧ get_sheet_by_name wb' sheet_name = Ok ws'
    ∧ (∀ other, other ≠ sheet_name →
         get_sheet_by_name wb' other = get_sheet_by_name wb other)
    ∧ (∀ entry col, entry ∈ updates → entry_int entry "cell_col" = Ok col →
         is_Some (ws' !! (max_row ws + 1, col))
         ∧ last_value updates col
           = Some (stored_value ws' (max_row ws + 1) col))
    ∧ (∀ (i : nat) entry col v,
         updates !! i = Some entry → entry_int entry "cell_col" = Ok col →
         entry !! "cell_value" = Some v →
         (∀ (j : nat) e, (i < j)%nat → updates !! j = Some e →
                         entry_int e "cell_col" ≠ Ok col) →
         stored_value ws' (max_row ws + 1) col = v)
    ∧ (∀ r c, r ≠ max_row ws + 1 → ws' !! (r, c) = ws !! (r, c))
    ∧ (∀ updates' first' r0',
         updates' !! 0%nat = Some first' →
         entry_int first' "cell_row" = Ok r0' →
         delete "cell_row" <$> updates' = delete "cell_row" <$> updates →
         update_xl_content files excel_file dest_filename (Some updates')
           cell_style sheet_name "a" = (ret, [(dest, wb')])).
Proof.
  intros Hload Hws Hfirst Hrow Hmax Hall Hacc.
  destruct (update_sheet_append wb updates first r0 cell_style sheet_name ws)
    as (ws' & Hupd & HA & HB & HC); [done .. |].
  destruct (update_xl_content_saves files excel_file dest_filename
              (Some updates) cell_style sheet_name "a" wb _ Hload Hupd)
    as (ret & dest & Hret & _).
  destruct (one_row_written updates (max_row ws + 1) cell_style ws ws')
    as [Hcells Hown]; [done .. |].
  exists ret, dest, (with_sheet wb sheet_name ws'), ws'.
  split_and!; [done | by eapply get_with_sheet
              | by intros; apply get_with_sheet_other | done | done | done |].
  intros updates' first' r0' Hfirst' Hrow' Hsame.
  rewrite <- Hret. unfold update_xl_content. rewrite Hload.
  by rewrite (update_sheet_append_ignores_rows wb updates updates' first
                first' r0 r0').
Qed.

(** Three values appended to the three-row sample sheet land in row 4. *)
Lemma append_writes_row_after_last_sample :
  ∃ ret dest wb' ws',
    update_xl_content sample_files "SampleBook.xlsx" None
      (Some [update_entry 9 1 "D333444"; update_entry 2 2 "2019";
             update_entry 0 3 "Audit"])
      None (Some "Employee") "a" = (ret, [(dest, wb')])
    ∧ get_sheet_by_name wb' (Some "Employee") = Ok ws'
    ∧ stored_value ws' 4 1 = PyStr "D333444"
    ∧ stored_value ws' 4 2 = PyStr "2019"
    ∧ stored_value ws' 4 3 = PyStr "Audit".
Proof.
  destruct (append_writes_row_after_last sample_files "SampleBook.xlsx" None
              sample_book
              [update_entry 9 1 "D333444"; update_entry 2 2 "2019";
               update_entry 0 3 "Audit"]
              (update_entry 9 1 "D333444") 9 None (Some "Employee")
              employee_sheet)
    as (ret & dest & wb' & ws' & Hret & Hget & _ & _ & Hown & _).
  - reflexivity.
  - reflexivity.
  - reflexivity.
  - reflexivity.
  - vm_compute. discriminate.
  - repeat constructor.
  - reflexivity.
  - exists ret, dest, wb', ws'. split_and!; [done | done | | |].
    + apply (Hown 0%nat (update_entry 9 1 "D333444")); try reflexivity.
      intros [|[|[|j]]] e Hj He; try lia; simpl in He; simplify_eq;
        vm_compute; congruence.
    + apply (Hown 1%nat (update_entry 2 2 "2019")); try reflexivity.
      intros [|[|[|j]]] e Hj He; try lia; simpl in He; simplify_eq;
        vm_compute; congruence.
    + apply (Hown 2%nat (update_entry 0 3 "Audit")); try reflexivity.
      intros [|[|[|j]]] e Hj He; try lia; simpl in He; simplify_eq.
Defined.

(** C4: under overwrite mode (["w"]) a non-empty batch whose first entry
    has [cell_row] 0 is processed as an append, whatever rows the other
    entries name: the call is the call made with mode ["a"]; every entry
    is written in the single row M+1 (M the last row of the sheet as
    loaded) at its own [cell_col]; no other row changes, row 0 included,
    and no other sheet. *)
Theorem overwrite_at_row_zero_appends (files : Storage) (excel_file : string)
    (dest_filename : option string) (wb : Workbook) (updates : list dict)
    (first : dict) (cell_style : option dict) (sheet_name : option string)
    (ws : Worksheet) :
  load_workbook files excel_file = Ok wb →
  get_sheet_by_name wb sheet_name = Ok ws →
  updates !! 0%nat = Some first → entry_int first "cell_row" = Ok 0 →
  1 ≤ max_row ws →
  Forall (λ e, entry_writable e = true) updates →
  style_accepted cell_style = true →
  update_xl_content files excel_file dest_filename (Some updates)
    cell_style sheet_name "w"
  = update_xl_content files excel_file dest_filename (Some updates)
      cell_style sheet_name "a"
  ∧ ∃ ret dest wb' ws',
      update_xl_content files excel_file dest_filename (Some updates)
        cell_style sheet_name "w" = (ret, [(dest, wb')])
      ∧ get_sheet_by_name wb' sheet_name = Ok ws'
      ∧ (∀ other, other ≠ sheet_name →
           get_sheet_by_name wb' other = get_sheet_by_name wb other)
      ∧ (∀ entry col, entry ∈ updates → entry_int entry "cell_col" = Ok col →
           is_Some (ws' !! (max_row ws + 1, col))
           ∧ last_value updates col
             = Some (stored_value ws' (max_row ws + 1) col))
      ∧ (∀ (i : nat) entry col v,
           updates !! i = Some entry → entry_int entry "cell_col" = Ok col →
           entry !! "cell_value" = Some v →
           (∀ (j : nat) e, (i < j)%nat → updates !! j = Some e →
                           entry_int e "cell_col" ≠ Ok col) →
           stored_value ws' (max_row ws + 1) col = v)
      ∧ (∀ r c, r ≠ max_row ws + 1 → ws' !! (r, c) = ws !! (r, c))
      ∧ (∀ c, ws' !! (0, c) = ws !! (0, c)).
Proof.
  intros Hload Hws Hfirst Hrow Hmax Hall Hacc.
  assert (update_xl_content files excel_file dest_filename (Some updates)
            cell_style sheet_name "w"
          = update_xl_content files excel_file dest_filename (Some updates)
              cell_style sheet_name "a") as Hsame.
  { unfold update_xl_content. rewrite Hload.
    by rewrite (update_sheet_degrade wb updates first). }
  split; [done |]. rewrite Hsame.
  destruct (update_sheet_append wb updates first 0 cell_style sheet_name ws)
    as (ws' & Hupd & HA & HB & HC); [done .. |].
  destruct (update_xl_content_saves files excel_file dest_filename
              (Some updates) cell_style sheet_name "a" wb _ Hload Hupd)
    as (ret & dest & Hret & _).
  destruct (one_row_written updates (max_row ws + 1) cell_style ws ws')
    as [Hcells Hown]; [done .. |].
  exists ret, dest, (with_sheet wb sheet_name ws'), ws'.
  split_and!; [done | by eapply get_with_sheet
              | by intros; apply get_with_sheet_other | done | done | done |].
  intros c. apply HA. lia.
Qed.

(** A batch under ["w"] whose first entry names row 0 and whose second
    names row 7: both values land in row 4 of the three-row sample
    sheet, and rows 0 and 7 stay empty. *)
Lemma overwrite_at_row_zero_appends_sample :
  ∃ ret dest wb' ws',
    update_xl_content sample_files "SampleBook.xlsx" None
      (Some [update_entry 0 1 "Olivia"; update_entry 7 2 "2003"])
      None (Some "Employee") "w" = (ret, [(dest, wb')])
    ∧ get_sheet_by_name wb' (Some "Employee") = Ok ws'
    ∧ stored_value ws' 4 1 = PyStr "Olivia"
    ∧ stored_value ws' 4 2 = PyStr "2003"
    ∧ ws' !! (0, 1) = None
    ∧ ws' !! (7, 2) = None.
Proof.
  destruct (overwrite_at_row_zero_appends sample_files "SampleBook.xlsx" None
              sample_book
              [update_entry 0 1 "Olivia"; update_entry 7 2 "2003"]
              (update_entry 0 1 "Olivia") None (Some "Employee")
              employee_sheet)
    as (_ & ret & dest & wb' & ws' & Hret & Hget & _ & _ & Hown & Hrows
        & Hzero).
  - reflexivity.
  - reflexivity.
  - reflexivity.
  - reflexivity.
  - vm_compute. discriminate.
  - repeat constructor.
  - reflexivity.
  - exists ret, dest, wb', ws'. split_and!; [done | done | | | |].
    + apply (Hown 0%nat (update_entry 0 1 "Olivia")); try reflexivity.
      intros [|[|j]] e Hj He; try lia; simpl in He; simplify_eq;
        vm_compute; congruence.
    + apply (Hown 1%nat (update_entry 7 2 "2003")); try reflexivity.
      intros [|[|j]] e Hj He; try lia; simpl in He; simplify_eq.
    + by rewrite Hzero.
    + rewrite Hrows; [done | vm_compute; congruence].
Defined.

(** ** Where the mutation raises *)

Lemma style_entry_without_colour (cell_style : option dict)
    (ws : Worksheet) (row_no : Z) (entry : dict) :
  dict_truthy cell_style = true →
  is_ok (getitem cell_style "fontColor") = false
  ∨ is_ok (getitem cell_style "bgColor") = false →
  ∃ e, style_entry cell_style ws row_no entry = Raise e.
Proof.
  intros Ht Hmiss. unfold style_entry. rewrite Ht.
  destruct (getitem cell_style "fontColor") as [fc|e1]; [|by exists e1].
  destruct Hmiss as [Hmiss | Hmiss]; [done |].
  cbn [mbind result_bind].
  match goal with
  | |- ∃ e, (?m ≫= _) = _ => destruct m as [ws1|e1]; [|by exists e1]
  end.
  cbn [mbind result_bind].
  destruct (getitem cell_style "bgColor") as [bg|e2]; [done | by exists e2].
Qed.

Lemma write_entry_raises (cell_style : option dict) (l_op : string)
    (entry : dict) (st : Z * Worksheet) :
  is_ok (entry_int entry "cell_col") = false
  ∨ (∃ c, entry_int entry "cell_col" = Ok c ∧ c < 1)
  ∨ (l_op = "w" ∧ is_ok (entry_int entry "cell_row") = false)
  ∨ entry !! "cell_value" = None
  ∨ (dict_truthy cell_style = true
     ∧ (is_ok (getitem cell_style "fontColor") = false
        ∨ is_ok (getitem cell_style "bgColor") = false)) →
  ∃ e, write_entry cell_style l_op entry st = Raise e.
Proof.
  intros Hcause. destruct st as [row_no ws]. unfold write_entry.
  match goal with
  | |- ∃ e, (?m ≫= _) = _ => destruct m as [row|e1] eqn:Hrow; [|by exists e1]
  end.
  cbn [mbind result_bind].
  destruct (entry_int entry "cell_col") as [col|e1] eqn:Hcol; [|by exists e1].
  cbn [mbind result_bind].
  destruct (cell ws row col) as [[cellref ws1]|e1] eqn:Hcell; [|by exists e1].
  cbn [mbind result_bind].
  destruct (getitem (Some entry) "cell_value") as [v|e1] eqn:Hv;
    [|by exists e1].
  cbn [mbind result_bind].
  destruct Hcause as [H | [(c & Hc & Hlt) | [[-> H] | [H | [Ht H]]]]].
  - done.
  - simplify_eq. rewrite cell_below_one in Hcell by (by right). done.
  - rewrite String.eqb_refl in Hrow. by rewrite Hrow in H.
  - unfold getitem in Hv. by rewrite H in Hv.
  - destruct (style_entry_without_colour cell_style
                (<[(row, col) := set_value v cellref]> ws1) row entry Ht H)
      as [e ->]. by exists e.
Qed.

(** The causes for which the mutation of a loaded workbook raises. *)
Lemma update_sheet_raises (wb : Workbook)
    (updates_matrix : option (list dict)) (cell_style : option dict)
    (sheet_name : option string) (op : string) :
  is_ok (get_sheet_by_name wb sheet_name) = false
  ∨ updates_matrix = None
  ∨ updates_matrix = Some []
  ∨ (∃ l first, updates_matrix = Some l ∧ l !! 0%nat = Some first
                ∧ is_ok (entry_int first "cell_row") = false)
  ∨ (∃ l entry, updates_matrix = Some l ∧ entry ∈ l
                ∧ (is_ok (entry_int entry "cell_col") = false
                   ∨ (∃ c, entry_int entry "cell_col" = Ok c ∧ c < 1)
                   ∨ entry !! "cell_value" = None))
  ∨ (∃ l first r entry, updates_matrix = Some l ∧ l !! 0%nat = Some first
                ∧ entry_int first "cell_row" = Ok r ∧ r ≠ 0 ∧ op = "w"
                ∧ entry ∈ l ∧ is_ok (entry_int entry "cell_row") = false)
  ∨ (dict_truthy cell_style = true
     ∧ (is_ok (getitem cell_style "fontColor") = false
        ∨ is_ok (getitem cell_style "bgColor") = false)) →
  ∃ e, update_sheet wb updates_matrix cell_style sheet_name op = Raise e.
Proof.
  intros Hcause. unfold update_sheet.
  destruct (get_sheet_by_name wb sheet_name) as [ws|e1]; [|by exists e1].
  cbn [mbind result_bind].
  destruct updates_matrix as [updates|]; [|by exists TypeError].
  cbn [mbind result_bind].
  destruct updates as [|first rest]; [by exists IndexError |].
  rewrite (list_getitem_first (first :: rest) first) by done.
  cbn [mbind result_bind].
  destruct (entry_int first "cell_row") as [r0|e1] eqn:Hr0; [|by exists e1].
  cbn [mbind result_bind].
  match goal with
  | |- ∃ e, (?m ≫= _) = _ => destruct m as [ws1|e1]; [|by exists e1]
  end.
  cbn [mbind result_bind].
  match goal with
  | |- ∃ e, (for_ ?l (write_entry ?s ?o) ?st ≫= _) = _ =>
      assert (∃ entry, entry ∈ l ∧ ∀ st', ∃ e, write_entry s o entry st' = Raise e)
        as (entry & Hin & Hraise)
  end.
  { destruct Hcause as [H | [H | [H | [H | [H | [H | H]]]]]]; try done.
    - destruct H as (l & f & ? & ? & H). simplify_eq. simpl in *. simplify_eq.
      by rewrite Hr0 in H.
    - destruct H as (l & entry & ? & Hin & H). simplify_eq.
      exists entry. split; [done |]. intros st'. apply write_entry_raises.
      destruct H as [H | [H | H]]; eauto.
    - destruct H as (l & f & r & entry & ? & Hf & Hr & Hne & -> & Hin & H).
      simplify_eq. simpl in Hf. simplify_eq.
      assert ((r0 =? 0) = false) as -> by (apply Z.eqb_neq; congruence).
      rewrite andb_false_r.
      exists entry. split; [done |]. intros st'. apply write_entry_raises.
      eauto.
    - exists first. split; [constructor |]. intros st'.
      apply write_entry_raises. eauto. }
  match goal with
  | |- ∃ e, (for_ ?l ?f ?st ≫= _) = _ =>
      destruct (for_raises l f st entry Hin Hraise) as [e ->]
  end.
  by exists e.
Qed.

(** ** The save step *)

(** C8: a call whose in-memory mutation raises, for whatever reason,
    returns status 1 without calling [save]; the named causes (sheet not
    found, batch absent or empty, a row or column that does not read as an
    integer, a column below 1, an entry without value, a style without a
    colour key) all raise; [save] is called at most once, and then with
    the workbook of a mutation that went through. *)
Theorem failed_mutation_is_never_saved (files : Storage)
    (excel_file : string) (dest_filename : option string)
    (updates_matrix : option (list dict)) (cell_style : option dict)
    (sheet_name : option string) (op : string) :
  (∀ wb e,
     load_workbook files excel_file = Ok wb →
     update_sheet wb updates_matrix cell_style sheet_name op = Raise e →
     update_xl_content files excel_file dest_filename updates_matrix
       cell_style sheet_name op
     = (Ok (1, Message (Error_accessing_specified_excel_sheet sheet_name e)),
        []))
  ∧ (∀ wb,
       load_workbook files excel_file = Ok wb →
       is_ok (get_sheet_by_name wb sheet_name) = false
       ∨ updates_matrix = None
       ∨ updates_matrix = Some []
       ∨ (∃ l first, updates_matrix = Some l ∧ l !! 0%nat = Some first
                     ∧ is_ok (entry_int first "cell_row") = false)
       ∨ (∃ l entry, updates_matrix = Some l ∧ entry ∈ l
                     ∧ (is_ok (entry_int entry "cell_col") = false
                        ∨ (∃ c, entry_int entry "cell_col" = Ok c ∧ c < 1)
                        ∨ entry !! "cell_value" = None))
       ∨ (∃ l first r entry,
            updates_matrix = Some l ∧ l !! 0%nat = Some first
            ∧ entry_int first "cell_row" = Ok r ∧ r ≠ 0 ∧ op = "w"
            ∧ entry ∈ l ∧ is_ok (entry_int entry "cell_row") = false)
       ∨ (dict_truthy cell_style = true
          ∧ (is_ok (getitem cell_style "fontColor") = false
             ∨ is_ok (getitem cell_style "bgColor") = false)) →
       ∃ e,
         update_xl_content files excel_file dest_filename updates_matrix
           cell_style sheet_name op
         = (Ok (1, Message
                     (Error_accessing_specified_excel_sheet sheet_name e)),
            []))
  ∧ (∀ ret saves,
       update_xl_content files excel_file dest_filename updates_matrix
         cell_style sheet_name op = (ret, saves) →
       saves = []
       ∨ ∃ wb wb' dest,
           load_workbook files excel_file = Ok wb
           ∧ update_sheet wb updates_matrix cell_style sheet_name op = Ok wb'
           ∧ saves = [(dest, wb')])
  ∧ (∀ ret saves,
       update_xl_content files excel_file dest_filename updates_matrix
         cell_style sheet_name op = (ret, saves) →
       ret = Ok (0, Nulldict) → length saves = 1%nat).
Proof.
  assert (∀ wb e,
     load_workbook files excel_file = Ok wb →
     update_sheet wb updates_matrix cell_style sheet_name op = Raise e →
     update_xl_content files excel_file dest_filename updates_matrix
       cell_style sheet_name op
     = (Ok (1, Message (Error_accessing_specified_excel_sheet sheet_name e)),
        [])) as Hfail.
  { intros wb e Hload Hupd. unfold update_xl_content. by rewrite Hload, Hupd. }
  split_and!.
  - exact Hfail.
  - intros wb Hload Hcause.
    destruct (update_sheet_raises wb updates_matrix cell_style sheet_name op
                Hcause) as [e He].
    exists e. by apply (Hfail wb).
  - intros ret saves. unfold update_xl_content.
    destruct (load_workbook files excel_file) as [wb|[]] eqn:Hload;
      try (intros [= <- <-]; by left).
    destruct (update_sheet wb updates_matrix cell_style sheet_name op)
      as [wb'|e] eqn:Hupd; [|intros [= <- <-]; by left].
    match goal with
    | |- context [save_raises files ?d wb'] =>
        destruct (save_raises files d wb') as [[]|];
        intros [= <- <-]; right; by exists wb, wb', d
    end.
  - intros ret saves. unfold update_xl_content.
    destruct (load_workbook files excel_file) as [wb|[]];
      try (intros [= <- <-]; done).
    destruct (update_sheet wb updates_matrix cell_style sheet_name op)
      as [wb'|e]; [|intros [= <- <-]; done].
    match goal with
    | |- context [save_raises files ?d wb'] =>
        destruct (save_raises files d wb') as [[]|];
        intros [= <- <-]; done
    end.
Qed.

(** An update of a sheet the sample workbook does not have: status 1 and
    no save. *)
Lemma failed_mutation_is_never_saved_sample :
  update_xl_content sample_files "SampleBook.xlsx" None
    (Some [update_entry 4 1 "D333444"]) None (Some "Payroll") "w"
  = (Ok (1, Message
              (Error_accessing_specified_excel_sheet (Some "Payroll")
                 KeyError)), []).
Proof.
  apply (proj1 (failed_mutation_is_never_saved sample_files "SampleBook.xlsx"
                  None (Some [update_entry 4 1 "D333444"]) None
                  (Some "Payroll") "w") sample_book KeyError);
    reflexivity.
Defined.

(** C9 as stated fails: for ['book.xlsx'] without [dest] the file saved
    is ['book.xlsx_updated.xlsx'], not ['book_updated.xlsx']. *)
Lemma default_dest_is_not_inserted_before_extension :
  ∃ wb',
    update_xl_content (files_with "book.xlsx" sample_book) "book.xlsx" None
      (Some [update_entry 4 1 "D333444"]) None (Some "Employee") "w"
    = (Ok (0, Nulldict), [("book.xlsx_updated.xlsx", wb')])
    ∧ "book.xlsx_updated.xlsx" ≠ "book_updated.xlsx".
Proof. eexists. split; [vm_compute; reflexivity | discriminate]. Qed.

(** C9, amended: when [dest] is absent (or empty) the workbook is saved
    under the source filename followed by ["_updated.xlsx"]. *)
Theorem default_dest_appends_suffix (files : Storage) (excel_file : string)
    (dest_filename : option string) (updates_matrix : option (list dict))
    (cell_style : option dict) (sheet_name : option string) (op : string)
    (wb wb' : Workbook) :
  str_truthy dest_filename = false →
  load_workbook files excel_file = Ok wb →
  update_sheet wb updates_matrix cell_style sheet_name op = Ok wb' →
  ∃ ret,
    update_xl_content files excel_file dest_filename updates_matrix
      cell_style sheet_name op
    = (ret, [(excel_file +:+ "_updated.xlsx", wb')]).
Proof.
  intros Hdest Hload Hupd. unfold update_xl_content.
  rewrite Hload, Hupd.
  destruct dest_filename as [d|]; [rewrite Hdest |];
    destruct (save_raises files (excel_file +:+ "_updated.xlsx") wb')
      as [[]|]; by eexists.
Qed.

Lemma default_dest_appends_suffix_sample :
  ∃ ret wb',
    update_xl_content (files_with "book.xlsx" sample_book) "book.xlsx" None
      (Some [update_entry 4 1 "D333444"]) None (Some "Employee") "w"
    = (ret, [("book.xlsx_updated.xlsx", wb')]).
Proof.
  destruct (default_dest_appends_suffix (files_with "book.xlsx" sample_book)
              "book.xlsx" None (Some [update_entry 4 1 "D333444"]) None
              (Some "Employee") "w" sample_book
              (with_sheet sample_book (Some "Employee")
                 (<[(4, 1) := text_cell "D333444"]> employee_sheet)))
    as [ret Hret].
  - reflexivity.
  - reflexivity.
  - vm_compute. reflexivity.
  - by eexists ret, _.
Defined.

(** ** The style pass against the batch *)

(** A style that lacks one of the two colour keys makes every update of
    a loaded workbook fail: nothing is saved. *)
Lemma update_without_colour_key_fails (files : Storage) (excel_file : string)
    (dest_filename : option string) (updates_matrix : option (list dict))
    (cell_style : option dict) (sheet_name : option string) (op : string)
    (wb : Workbook) :
  load_workbook files excel_file = Ok wb →
  dict_truthy cell_style = true →
  is_ok (getitem cell_style "fontColor") = false
  ∨ is_ok (getitem cell_style "bgColor") = false →
  ∃ e,
    update_xl_content files excel_file dest_filename updates_matrix
      cell_style sheet_name op
    = (Ok (1, Message (Error_accessing_specified_excel_sheet sheet_name e)),
       []).
Proof.
  intros Hload Ht Hmiss.
  destruct (update_sheet_raises wb updates_matrix cell_style sheet_name op)
    as [e He]; [by repeat right |].
  exists e. unfold update_xl_content. by rewrite Hload, He.
Qed.

(** C2, the code against the claim: a style that only sets [bold], or
    that names one colour and not the other, ends the update with status
    1 and no save, although the same batch without style, or with both
    colours and no tri-state field, is written. *)
Theorem style_without_colour_key_aborts :
  update_xl_content sample_files "SampleBook.xlsx" None
    (Some [update_entry 4 1 "D333444"]) (Some {[ "bold" := PyBool true ]})
    (Some "Employee") "w"
  = (Ok (1, Message
              (Error_accessing_specified_excel_sheet (Some "Employee")
                 KeyError)), [])
  ∧ update_xl_content sample_files "SampleBook.xlsx" None
      (Some [update_entry 4 1 "D333444"])
      (Some {[ "fontColor" := PyStr "006100"; "bold" := PyBool true ]})
      (Some "Employee") "w"
    = (Ok (1, Message
                (Error_accessing_specified_excel_sheet (Some "Employee")
                   KeyError)), [])
  ∧ (∃ wb' ws',
       update_xl_content sample_files "SampleBook.xlsx" None
         (Some [update_entry 4 1 "D333444"]) None (Some "Employee") "w"
       = (Ok (0, Nulldict), [("SampleBook.xlsx_updated.xlsx", wb')])
       ∧ get_sheet_by_name wb' (Some "Employee") = Ok ws'
       ∧ stored_value ws' 4 1 = PyStr "D333444")
  ∧ (∃ wb' ws',
       update_xl_content sample_files "SampleBook.xlsx" None
         (Some [update_entry 4 1 "D333444"])
         (Some {[ "fontColor" := PyStr "006100";
                  "bgColor" := PyStr "C6EFCE" ]})
         (Some "Employee") "w"
       = (Ok (0, Nulldict), [("SampleBook.xlsx_updated.xlsx", wb')])
       ∧ get_sheet_by_name wb' (Some "Employee") = Ok ws'
       ∧ stored_value ws' 4 1 = PyStr "D333444").
Proof.
  split_and!.
  - vm_compute. reflexivity.
  - vm_compute. reflexivity.
  - eexists _, _. split_and!; vm_compute; reflexivity.
  - eexists _, _. split_and!; vm_compute; reflexivity.
Qed.

(** C3, the code against the claim: with the style of the module's own
    example (a font colour, a background colour, bold and underline) the
    updated cell has its value, its fill, bold and underline, and no font
    colour; the same holds when the style has the two colours only. *)
Theorem font_color_lost_to_font_strike :
  (∃ wb' ws' cl,
     update_xl_content sample_files "SampleBook.xlsx" None
       (Some [update_entry 4 1 "D333444"]) (Some sample_style)
       (Some "Employee") "w"
     = (Ok (0, Nulldict), [("SampleBook.xlsx_updated.xlsx", wb')])
     ∧ get_sheet_by_name wb' (Some "Employee") = Ok ws'
     ∧ ws' !! (4, 1) = Some cl
     ∧ value cl = PyStr "D333444"
     ∧ fgColor (fill cl) = "00C6EFCE"
     ∧ bold (font cl) = true
     ∧ underline (font cl) = Some "single"
     ∧ color (font cl) = None
     ∧ Font_of_color (PyStr "006100")
       = Ok {| color := Some "00006100"; bold := false; italic := false;
               underline := None |})
  ∧ (∃ wb' ws' cl,
       update_xl_content sample_files "SampleBook.xlsx" None
         (Some [update_entry 4 1 "D333444"])
         (Some {[ "fontColor" := PyStr "006100";
                  "bgColor" := PyStr "C6EFCE" ]})
         (Some "Employee") "w"
       = (Ok (0, Nulldict), [("SampleBook.xlsx_updated.xlsx", wb')])
       ∧ get_sheet_by_name wb' (Some "Employee") = Ok ws'
       ∧ ws' !! (4, 1) = Some cl
       ∧ color (font cl) = None).
Proof.
  split.
  - eexists _, _, _. split_and!; vm_compute; reflexivity.
  - eexists _, _, _. split_and!; vm_compute; reflexivity.
Qed.

(** ** The match policies of the search *)

Lemma cell_value_stored (ws : Worksheet) (row col : Z) :
  1 ≤ row → 1 ≤ col → cell_value ws row col = Ok (stored_value ws row col).
Proof.
  intros Hr Hc. unfold cell_value.
  destruct (cell_inserts ws row col Hr Hc) as (c & -> & <-). done.
Qed.

(** For a token that starts and ends with a word character, a word
    boundary on each side is a non-word character, or nothing, on each
    side. *)
Lemma word_ended_boundaries (pre tok post : string) :
  word_ended tok →
  between_word_boundaries pre tok post ↔ between_non_word pre post.
Proof.
  intros [Hfirst Hlast]. destruct tok as [|c tok]; [done |].
  unfold between_word_boundaries, between_non_word, Re.boundary, last_char.
  rewrite char_after_app. simpl in *. unfold last_char in Hlast.
  simpl in Hlast. rewrite Hfirst, Hlast.
  destruct (Re.word_before (char_after None pre)),
    (Re.word_after post); simpl; intuition congruence.
Qed.

Lemma found_token_policy (i w x : bool) (token cell_text : string) :
  ∃ found,
    found_token w x (if i then lower token else token)
      (if i then lower cell_text else cell_text) = Ok found
    ∧ (found = true ↔ match_policy i w x token cell_text).
Proof.
  unfold found_token, match_policy. destruct x.
  - eexists. split; [done |]. apply String.eqb_eq.
  - destruct w.
    + apply whole_word_search.
    + eexists. split; [done |]. apply contains_spec.
Qed.

(** C10: in whole-word mode (['w'] without ['x']) the token is matched
    as literal text: the pattern compiled for it is a word boundary, the
    token's characters as literals, a word boundary, whatever characters
    the token holds; and the cell matches iff the token occurs in the
    cell text with a word boundary on each side. *)
Theorem whole_word_token_is_literal (search_token cell_val : string) :
  Re.compile ("\b" +:+ Re.escape search_token +:+ "\b")
  = Some (Re.WordB :: (Re.Lit <$> list_ascii_of_string search_token)
          ++ [Re.WordB])
  ∧ ∃ found,
      found_token true false search_token cell_val = Ok found
      ∧ (found = true
         ↔ ∃ pre post, occurs_at pre search_token post cell_val
             ∧ between_word_boundaries pre search_token post).
Proof.
  split; [apply compile_whole_word | apply whole_word_search].
Qed.

(** The dot of a token is a dot: ["a.c"] is found in ["x a.c y"] and not
    in ["abc"], which the unescaped pattern would match. *)
Example whole_word_dot_is_literal :
  found_token true false "a.c" "x a.c y" = Ok true
  ∧ found_token true false "a.c" "abc" = Ok false
  ∧ Re.search "\ba.c\b" "abc" = Ok true
  ∧ found_token true false "f(x)*" "y = f(x)*2" = Ok true
  ∧ found_token true false "f(x)*" "y = ff(x))2" = Ok false.
Proof. by vm_compute. Qed.

(** C7 as stated fails: in whole-word mode the token ["C++"] is not
    found in a cell that holds exactly ["C++"], nor in ["use C++ now"],
    although there it occurs bounded by non-word characters or by the
    ends of the text. *)
Lemma whole_word_is_not_non_word_bounded :
  search_xl_content
    (files_with "book.xlsx"
       [("Langs", {[ (1, 1) := text_cell "C++";
                     (2, 1) := text_cell "use C++ now" ]})])
    "book.xlsx" "C++" None "w" (Some "Langs") = Ok (0, Matches [])
  ∧ match_policy_non_word false true false "C++" "C++"
  ∧ match_policy_non_word false true false "C++" "use C++ now".
Proof.
  split_and!.
  - vm_compute. reflexivity.
  - by exists "", "".
  - by exists "use ", " now".
Qed.

(** The test of one cell, as the loop of the search runs it. *)
Lemma search_cell_policy (current_sheet : Worksheet)
    (search_options search_token : string) (row col : Z)
    (list_ : list (Z * Z)) :
  1 ≤ row → 1 ≤ col →
  ∃ found,
    search_cell current_sheet (contains "i" search_options)
      (contains "w" search_options) (contains "x" search_options)
      (if contains "i" search_options then lower search_token
       else search_token)
      row col list_
    = Ok (if found : bool then list_ ++ [(row, col)] else list_)
    ∧ cell_hit current_sheet (contains "i" search_options)
        (contains "w" search_options) (contains "x" search_options)
        (if contains "i" search_options then lower search_token
         else search_token) row col = found
    ∧ (found = true
       ↔ match_policy (contains "i" search_options)
           (contains "w" search_options) (contains "x" search_options)
           search_token (py_str (stored_value current_sheet row col))).
Proof.
  intros Hr Hc.
  destruct (found_token_policy (contains "i" search_options)
              (contains "w" search_options) (contains "x" search_options)
              search_token (py_str (stored_value current_sheet row col)))
    as (found & Hfound & Hpolicy).
  exists found. split_and!; [| | done].
  - unfold search_cell. rewrite cell_value_stored by done.
    cbn [mbind result_bind]. rewrite Hfound. done.
  - unfold cell_hit. cbv zeta. by rewrite Hfound.
Qed.

Lemma non_word_policy (i w x : bool) (token cell_text : string) :
  word_ended (if i then lower token else token) →
  match_policy i w x token cell_text
  ↔ match_policy_non_word i w x token cell_text.
Proof.
  intros Hw. unfold match_policy, match_policy_non_word.
  destruct x; [done |]. destruct w; [|done].
  split; intros (pre & post & Hocc & Hb); exists pre, post;
    (split; [done |]); by apply (word_ended_boundaries pre _ post Hw).
Qed.

Lemma found_token_total (w x : bool) (search_token cell_val : string) :
  ∃ found, found_token w x search_token cell_val = Ok found.
Proof.
  destruct (found_token_policy false w x search_token cell_val)
    as (found & H & _). by exists found.
Qed.

(** The loop over the columns of a row appends the row's hits. *)
Lemma scan_cols (ws : Worksheet) (i w x : bool) (tok : string) (row : Z)
    (cols : list Z) (list_ : list (Z * Z)) :
  1 ≤ row → Forall (λ c, 1 ≤ c) cols →
  for_ cols (λ col l, search_cell ws i w x tok row col l) list_
  = Ok (list_ ++ (col ← cols;
                  if cell_hit ws i w x tok row col then [(row, col)]
                  else [])).
Proof.
  intros Hr Hcols. revert list_.
  induction Hcols as [|c cols Hc Hcols IH]; intros list_; cbn [for_].
  - by rewrite app_nil_r.
  - assert (search_cell ws i w x tok row c list_
            = Ok (if cell_hit ws i w x tok row c then list_ ++ [(row, c)]
                  else list_)) as ->.
    { unfold search_cell, cell_hit. rewrite cell_value_stored by done.
      cbn [mbind result_bind]. cbv zeta.
      by destruct (found_token_total w x tok
                     (if i then lower (py_str (stored_value ws row c))
                      else py_str (stored_value ws row c))) as [found ->]. }
    cbn [mbind result_bind]. rewrite IH, bind_cons.
    destruct (cell_hit ws i w x tok row c); [by rewrite <- app_assoc | done].
Qed.

(** The loop over the rows appends the hits of the sheet, row by row. *)
Lemma scan_rows (ws : Worksheet) (i w x : bool) (tok : string)
    (start_col : pyval) (sc ec : Z) (rows : list Z) (list_ : list (Z * Z)) :
  py_index start_col = Ok sc → 1 ≤ sc →
  Forall (λ r, 1 ≤ r) rows →
  for_ rows (λ row l,
    cols ← range_from start_col ec;
    for_ cols (λ col l', search_cell ws i w x tok row col l') l) list_
  = Ok (list_ ++ sheet_hits ws i w x tok rows (py_range sc ec)).
Proof.
  intros Hsc Hsc1 Hrows. revert list_.
  assert (Forall (λ c, 1 ≤ c) (py_range sc ec)) as Hcols.
  { apply Forall_forall. intros c Hc. unfold py_range in Hc.
    apply elem_of_seqZ in Hc. lia. }
  unfold sheet_hits.
  induction Hrows as [|r rows Hr Hrows IH]; intros list_; cbn [for_].
  - by rewrite app_nil_r.
  - assert ((cols ← range_from start_col ec;
             for_ cols (λ col l', search_cell ws i w x tok r col l') list_)
            = Ok (list_ ++ (col ← py_range sc ec;
                            if cell_hit ws i w x tok r col then [(r, col)]
                            else []))) as ->.
    { unfold range_from. rewrite Hsc. cbn [mbind result_bind].
      by apply scan_cols. }
    cbn [mbind result_bind]. rewrite IH.
    by rewrite bind_cons, app_assoc.
Qed.

Lemma range_from_index (a : pyval) (a' b : Z) :
  py_index a = Ok a' → range_from a b = Ok (py_range a' b).
Proof. intros H. unfold range_from. by rewrite H. Qed.

(** One sheet of the search: the bounds are resolved, then the hits of
    the range are appended. *)
Lemma search_sheet_scan (wb : Workbook) (i w x : bool) (tok : string)
    (start_row start_col : pyval) (name : string) (ws : Worksheet)
    (sr sc er ec : Z) (list_ : list (Z * Z)) :
  get_sheet_by_name wb (Some name) = Ok ws →
  py_index start_row = Ok sr → py_index start_col = Ok sc →
  1 ≤ sr → 1 ≤ sc →
  search_sheet wb i w x tok start_row start_col name (er, ec, list_)
  = Ok (if er =? 0 then max_row ws + 1 else er,
        if ec =? 0 then max_column ws + 1 else ec,
        list_ ++ sheet_hits ws i w x tok
                   (py_range sr (if er =? 0 then max_row ws + 1 else er))
                   (py_range sc (if ec =? 0 then max_column ws + 1 else ec))).
Proof.
  intros Hws Hsr Hsc Hsr1 Hsc1. unfold search_sheet. rewrite Hws.
  cbn [mbind result_bind].
  rewrite (range_from_index start_row sr) by done.
  cbn [mbind result_bind].
  rewrite (scan_rows ws i w x tok start_col sc); [done .. |].
  apply Forall_forall. intros r Hr. unfold py_range in Hr.
  apply elem_of_seqZ in Hr. lia.
Qed.

(** C7, amended: a search of a named sheet returns the cells of the
    resolved range whose text passes the test the options select: with
    ['x'] the text equals the token (['w'] is not looked at); with ['w']
    and no ['x'] the literal token occurs in the text with a word
    boundary on each side; with neither the token occurs in the text;
    with ['i'] the token and the text are lowered first, in each of the
    three cases.  For a token that starts and ends with a word character
    the word boundaries are the same as a non-word character, or an end
    of the text, on each side. *)
Theorem search_follows_policy (files : Storage) (excel_file : string)
    (search_token : string) (search_range : option dict)
    (search_options : string) (name : string) (wb : Workbook)
    (ws : Worksheet) (sr sc : Z) :
  load_workbook files excel_file = Ok wb →
  name ≠ "" →
  get_sheet_by_name wb (Some name) = Ok ws →
  py_index (get_or search_range "start_row" (PyInt 1)) = Ok sr →
  py_index (get_or search_range "start_col" (PyInt 1)) = Ok sc →
  1 ≤ sr → 1 ≤ sc →
  (∃ l,
     search_xl_content files excel_file search_token search_range
       search_options (Some name) = Ok (0, Matches l)
     ∧ ∀ row col,
         (row, col) ∈ l
         ↔ sr ≤ row < (if end_bound search_range "end_row" =? 0
                       then max_row ws + 1
                       else end_bound search_range "end_row")
           ∧ sc ≤ col < (if end_bound search_range "end_col" =? 0
                         then max_column ws + 1
                         else end_bound search_range "end_col")
           ∧ match_policy (contains "i" search_options)
               (contains "w" search_options) (contains "x" search_options)
               search_token (py_str (stored_value ws row col)))
  ∧ (∀ cell_text,
       word_ended (if contains "i" search_options then lower search_token
                   else search_token) →
       match_policy (contains "i" search_options)
         (contains "w" search_options) (contains "x" search_options)
         search_token cell_text
       ↔ match_policy_non_word (contains "i" search_options)
           (contains "w" search_options) (contains "x" search_options)
           search_token cell_text).
Proof.
  intros Hload Hname Hws Hsr Hsc Hsr1 Hsc1. split.
  2:{ intros cell_text. apply non_word_policy. }
  unfold search_xl_content. rewrite Hload.
  assert (select_sheets wb (Some name) = [name]) as ->.
  { unfold select_sheets, str_truthy.
    apply String.eqb_neq in Hname. by rewrite Hname. }
  cbn [for_].
  rewrite (search_sheet_scan wb _ _ _ _ _ _ name ws sr sc) by done.
  cbn [mbind result_bind except_Exception]. eexists. split; [done |].
  intros row col. rewrite app_nil_l. unfold sheet_hits.
  rewrite list_elem_of_bind. split.
  - intros (r & Hin & Hr). apply list_elem_of_bind in Hin as (c & Hin & Hc).
    unfold py_range in Hr, Hc.
    apply elem_of_seqZ in Hr. apply elem_of_seqZ in Hc.
    destruct (search_cell_policy ws search_options search_token r c [])
      as (found & _ & Hhit & Hpolicy); [lia | lia |].
    rewrite Hhit in Hin. destruct found; [|by apply elem_of_nil in Hin].
    apply list_elem_of_singleton in Hin as [= -> ->].
    split_and!; [lia .. | by apply Hpolicy].
  - intros (Hr & Hc & Hp). exists row. split.
    + apply list_elem_of_bind. exists col. split.
      * destruct (search_cell_policy ws search_options search_token row col
                    []) as (found & _ & Hhit & Hpolicy); [lia | lia |].
        rewrite Hhit. apply Hpolicy in Hp as ->. by left.
      * unfold py_range. apply elem_of_seqZ. lia.
    + unfold py_range. apply elem_of_seqZ. lia.
Qed.

(** The search of ["Cole"] with options ["ix"] in the sample sheet finds
    no cell: no cell text is ["cole"] once lowered. *)
Lemma search_follows_policy_sample :
  ∃ l,
    search_xl_content sample_files "SampleBook.xlsx" "Cole" None "ix"
      (Some "Employee") = Ok (0, Matches l)
    ∧ ((3, 1) ∈ l
       ↔ match_policy true false true "Cole"
           (py_str (stored_value employee_sheet 3 1))).
Proof.
  destruct (search_follows_policy sample_files "SampleBook.xlsx" "Cole" None
              "ix" "Employee" sample_book employee_sheet 1 1)
    as [(l & Hl & Hcells) _].
  - reflexivity.
  - discriminate.
  - reflexivity.
  - reflexivity.
  - reflexivity.
  - lia.
  - lia.
  - exists l. split; [done |]. rewrite (Hcells 3 1).
    split; [by intros (_ & _ & H) |].
    intros H. split_and!; [vm_compute; congruence .. | done].
Defined.

(** ** Reading *)

Lemma cell_value_inv (ws : Worksheet) (row col : Z) (v : pyval) :
  cell_value ws row col = Ok v →
  1 ≤ row ∧ 1 ≤ col ∧ v = stored_value ws row col.
Proof.
  unfold cell_value, cell, stored_value.
  destruct (row <? 1) eqn:E1; [done |]. destruct (col <? 1) eqn:E2; [done |].
  simpl. destruct (ws !! (row, col)); intros [= <-]; split_and!; (lia || done).
Qed.

Lemma range_from_inv (a : pyval) (b : Z) (l : list Z) :
  range_from a b = Ok l → ∃ a', py_index a = Ok a' ∧ l = py_range a' b.
Proof.
  unfold range_from. destruct (py_index a) as [a'|]; [|done].
  intros [= <-]. by exists a'.
Qed.

(** A loop that appends one computed item per element. *)
Lemma for_append {A B} (f : A → result B) (l : list A) (acc out : list B) :
  for_ l (λ x acc', y ← f x; Ok (acc' ++ [y])) acc = Ok out →
  ∃ ys, out = acc ++ ys ∧ Forall2 (λ x y, f x = Ok y) l ys.
Proof.
  revert acc. induction l as [|x l IH]; intros acc; simpl.
  - intros [= <-]. exists []. by rewrite app_nil_r.
  - destruct (f x) as [y|] eqn:Hy; [|done]. simpl. intros Hfor.
    destruct (IH _ Hfor) as (ys & -> & Hall).
    exists (y :: ys). split; [by rewrite <- app_assoc | by constructor].
Qed.

Lemma read_dict_keys_inv (ws : Worksheet) (index_by_name : bool)
    (start_col : pyval) (end_col : Z) (dict_keys : list string) :
  read_dict_keys ws index_by_name start_col end_col = Ok dict_keys →
  ∃ sc, py_index start_col = Ok sc
        ∧ dict_keys = column_key ws index_by_name <$> py_range sc end_col.
Proof.
  unfold read_dict_keys.
  destruct (range_from start_col end_col) as [cols|] eqn:Hcols; [|done].
  apply range_from_inv in Hcols as (sc & Hsc & ->).
  cbn [mbind result_bind]. intros Hfor. exists sc. split; [done |].
  assert (∃ ys, dict_keys = [] ++ ys
                ∧ Forall2 (λ col key,
                     (if index_by_name
                      then v ← cell_value ws 1 col; Ok (py_str v)
                      else Ok ("col_" +:+ py_str (PyInt col))) = Ok key)
                    (py_range sc end_col) ys) as (ys & -> & Hall).
  { apply for_append. rewrite <- Hfor. apply for_ext.
    intros col acc _.
    destruct index_by_name; [by destruct (cell_value ws 1 col) | done]. }
  simpl. clear Hfor. induction Hall as [|col key cols keys Hkey Hall IH].
  - done.
  - rewrite fmap_cons. f_equal; [|done].
    unfold column_key. destruct index_by_name; cbv iota in Hkey;
      [|by injection Hkey].
    destruct (cell_value ws 1 col) as [v|] eqn:Hv; [|done].
    apply cell_value_inv in Hv as (_ & _ & ->). by injection Hkey.
Qed.

(** The record of a row: one assignment per column, in order. *)
Lemma read_row_inv (ws : Worksheet) (index_by_name : bool)
    (start_col : pyval) (sc end_col row : Z) (rec : record) :
  py_index start_col = Ok sc →
  read_row ws (column_key ws index_by_name <$> py_range sc end_col)
    start_col end_col row = Ok rec →
  rec = foldl (λ d col,
                 <[column_key ws index_by_name col
                   := py_str (stored_value ws row col)]> d)
          ∅ (py_range sc end_col).
Proof.
  intros Hsc. unfold read_row, range_from. rewrite Hsc.
  cbn [mbind result_bind].
  assert (∀ (l : list Z) (acc : record),
    Forall (λ col, sc ≤ col < end_col) l →
    for_ l (λ col (temp_dict : record),
      v ← cell_value ws row col;
      first_col ← Ok sc;
      key ← list_getitem
               (column_key ws index_by_name <$> py_range sc end_col)
               (col - first_col);
      Ok (<[key := py_str v]> temp_dict)) acc = Ok rec →
    rec = foldl (λ d col,
                   <[column_key ws index_by_name col
                     := py_str (stored_value ws row col)]> d) acc l) as Hloop.
  { induction l as [|col l IH]; intros acc Hl; simpl.
    - by intros [= <-].
    - apply Forall_cons in Hl as [Hcol Hl].
      destruct (cell_value ws row col) as [v|] eqn:Hv; [|done].
      apply cell_value_inv in Hv as (_ & _ & ->). cbn [mbind result_bind].
      assert (list_getitem
                (column_key ws index_by_name <$> py_range sc end_col)
                (col - sc) = Ok (column_key ws index_by_name col)) as ->.
      { unfold list_getitem, py_range.
        destruct (col - sc <? 0) eqn:E; [lia |]. rewrite E.
        rewrite list_lookup_fmap, lookup_seqZ_lt by lia. simpl.
        do 2 f_equal. lia. }
      cbn [mbind result_bind]. by apply IH. }
  apply Hloop. apply Forall_forall. intros col Hcol.
  unfold py_range in Hcol. apply elem_of_seqZ in Hcol. lia.
Qed.

(** What the assignments of a row leave under the key of a column: the
    text of that column's cell, unless a later column has the same key. *)
Lemma row_record_lookup (ws : Worksheet) (index_by_name : bool) (row : Z)
    (cols : list Z) (acc : record) (col : Z) :
  col ∈ cols →
  (∀ i j col', cols !! i = Some col → cols !! j = Some col' → (i < j)%nat →
               column_key ws index_by_name col'
               ≠ column_key ws index_by_name col) →
  foldl (λ d c,
           <[column_key ws index_by_name c
             := py_str (stored_value ws row c)]> d) acc cols
  !! column_key ws index_by_name col
  = Some (py_str (stored_value ws row col)).
Proof.
  intros Hin Hlater.
  apply list_elem_of_lookup in Hin as [i Hi].
  revert acc i Hi Hlater. induction cols as [|c cols IH];
    intros acc i Hi Hlater; [done |].
  simpl. destruct i as [|i]; simpl in Hi.
  - simplify_eq.
    assert (∀ (l : list Z) (d : record),
      (∀ c', c' ∈ l → column_key ws index_by_name c'
                      ≠ column_key ws index_by_name col) →
      foldl (λ d c,
               <[column_key ws index_by_name c
                 := py_str (stored_value ws row c)]> d) d l
      !! column_key ws index_by_name col
      = d !! column_key ws index_by_name col) as Hkeep.
    { induction l as [|c' l IHl]; intros d Hl; [done |]. simpl.
      rewrite IHl by (intros; apply Hl; by right).
      apply lookup_insert_ne. apply Hl. by left. }
    rewrite Hkeep; [apply lookup_insert_eq |].
    intros c' Hc'. apply list_elem_of_lookup in Hc' as [j Hj].
    apply (Hlater 0%nat (S j)); [done | done | lia].
  - apply (IH _ i Hi). intros i' j col' Hi' Hj Hlt.
    apply (Hlater (S i') (S j)); [done | done | lia].
Qed.

Lemma col_key_inj (c c' : Z) :
  "col_" +:+ py_str (PyInt c) = "col_" +:+ py_str (PyInt c') → c = c'.
Proof. intros H. apply String.app_inj in H. by apply pretty_Z_inj in H. Qed.

Lemma sheet_key_inj (k k' : Z) : sheet_key k = sheet_key k' → k = k'.
Proof.
  unfold sheet_key. intros H. apply String.app_inj in H.
  by apply pretty_Z_inj in H.
Qed.

Lemma read_sheet_inv (wb : Workbook) (index_by_name : bool)
    (start_row start_col : pyval) (asheet_name : string)
    (idx er ec : Z) (acc : gmap string (list record))
    (idx' er' ec' : Z) (out : gmap string (list record)) :
  read_sheet wb index_by_name start_row start_col asheet_name
    (idx, er, ec, acc) = Ok (idx', er', ec', out) →
  ∃ ws sr sc records,
    get_sheet_by_name wb (Some asheet_name) = Ok ws
    ∧ py_index start_row = Ok sr ∧ py_index start_col = Ok sc
    ∧ idx' = idx + 1
    ∧ er' = (if er =? 0 then max_row ws + 1 else er)
    ∧ ec' = (if ec =? 0 then max_column ws + 1 else ec)
    ∧ out = <[sheet_key idx := records]> acc
    ∧ sheet_records ws index_by_name sr sc er' ec' records.
Proof.
  unfold read_sheet.
  destruct (get_sheet_by_name wb (Some asheet_name)) as [ws|] eqn:Hws;
    [|done].
  cbn [mbind result_bind].
  set (er1 := if er =? 0 then max_row ws + 1 else er).
  set (ec1 := if ec =? 0 then max_column ws + 1 else ec).
  destruct (read_dict_keys ws index_by_name start_col ec1)
    as [dict_keys|] eqn:Hkeys; [|done].
  apply read_dict_keys_inv in Hkeys as (sc & Hsc & ->).
  cbn [mbind result_bind].
  destruct (range_from start_row er1) as [rows|] eqn:Hrows; [|done].
  apply range_from_inv in Hrows as (sr & Hsr & ->).
  cbn [mbind result_bind].
  match goal with
  | |- (?m ≫= _) = _ → _ => destruct m as [records|] eqn:Hfor; [|done]
  end.
  cbn [mbind result_bind]. intros [= <- <- <- <-].
  apply for_append in Hfor as (ys & -> & Hall).
  exists ws, sr, sc, ys. split_and!; try done.
  - by rewrite insert_insert_eq.
  - unfold sheet_records. eapply Forall2_impl; [exact Hall |].
    intros row rec Hrow. by apply (read_row_inv ws _ start_col).
Qed.

(** The loop over the sheets when both end bounds come from the
    caller: the bounds stay, and the [k]-th sheet's records sit under
    the [k]-th key. *)
Lemma read_sheets_inv (wb : Workbook) (index_by_name : bool)
    (start_row start_col : pyval) (names : list string)
    (idx er ec : Z) (acc : gmap string (list record))
    (st' : read_state) :
  er ≠ 0 → ec ≠ 0 →
  for_ names (read_sheet wb index_by_name start_row start_col)
    (idx, er, ec, acc) = Ok st' →
  (∀ k, k < idx → st'.2 !! sheet_key k = acc !! sheet_key k)
  ∧ ∀ (k : nat) name,
      names !! k = Some name →
      ∃ ws sr sc records,
        get_sheet_by_name wb (Some name) = Ok ws
        ∧ py_index start_row = Ok sr ∧ py_index start_col = Ok sc
        ∧ st'.2 !! sheet_key (idx + Z.of_nat k) = Some records
        ∧ sheet_records ws index_by_name sr sc er ec records.
Proof.
  intros Her Hec. revert idx acc.
  induction names as [|name0 names IH]; intros idx acc; cbn [for_].
  - intros [= <-]. split; [done |]. intros k name Hk. done.
  - destruct (read_sheet wb index_by_name start_row start_col name0
                (idx, er, ec, acc)) as [[[[idx1 er1] ec1] acc1]|] eqn:Hsheet;
      [|done].
    cbn [mbind result_bind]. intros Hfor.
    apply read_sheet_inv in Hsheet
      as (ws & sr & sc & records & Hws & Hsr & Hsc & -> & -> & -> & -> & Hrec).
    apply Z.eqb_neq in Her as Her'. apply Z.eqb_neq in Hec as Hec'.
    rewrite Her', Hec' in *.
    destruct (IH _ _ Hfor) as [Hold Hnew]. split.
    + intros k Hk. rewrite Hold by lia. apply lookup_insert_ne.
      intros Heq. apply sheet_key_inj in Heq. lia.
    + intros [|k] name Hk; simpl in Hk.
      * simplify_eq. exists ws, sr, sc, records.
        split_and!; try done.
        rewrite Z.add_0_r, Hold by lia. apply lookup_insert_eq.
      * destruct (Hnew k name Hk) as (ws' & sr' & sc' & recs & ? & ? & ? & Hl & ?).
        exists ws', sr', sc', recs. split_and!; try done.
        rewrite <- Hl. f_equal. f_equal. lia.
Qed.

(** C6 as stated fails: reading the one-cell sheet up to row 2 and
    column 2 gives the text ["None"], not the empty text, for the three
    cells that hold nothing. *)
Lemma unpopulated_cell_is_not_empty_text :
  read_xl_content sample_files "SampleBook.xlsx" false
    (Some {[ "end_row" := PyInt 2; "end_col" := PyInt 2 ]}) (Some "Summary")
  = Ok (0, Sheets {[ "sheet_index_0" :=
                       [ {[ "col_1" := "Staff list"; "col_2" := "None" ]};
                         {[ "col_1" := "None"; "col_2" := "None" ]} ] ]})
  ∧ summary_sheet !! (2, 2) = None
  ∧ "None" ≠ "".
Proof. split_and!; [vm_compute; reflexivity | reflexivity | discriminate]. Qed.

(** C6, amended: in a read whose end bounds come from the caller, every
    cell of the range that holds nothing is read as the text ["None"]:
    the record of its row has ["None"] under the key of its column (under
    [col_<n>] always; under a header text when no later column of the
    range has the same header text). *)
Theorem unpopulated_cell_reads_as_None_text (files : Storage)
    (excel_file : string) (index_by_name : bool) (read_range : option dict)
    (sheet_name : option string) (wb : Workbook)
    (excelsheet : gmap string (list record)) (k : nat) (name : string) :
  load_workbook files excel_file = Ok wb →
  end_bound read_range "end_row" ≠ 0 →
  end_bound read_range "end_col" ≠ 0 →
  read_xl_content files excel_file index_by_name read_range sheet_name
  = Ok (0, Sheets excelsheet) →
  select_sheets wb sheet_name !! k = Some name →
  ∃ ws sr sc records,
    get_sheet_by_name wb (Some name) = Ok ws
    ∧ py_index (get_or read_range "start_row" (PyInt 1)) = Ok sr
    ∧ py_index (get_or read_range "start_col" (PyInt 1)) = Ok sc
    ∧ excelsheet !! sheet_key (Z.of_nat k) = Some records
    ∧ ∀ row col,
        sr ≤ row < end_bound read_range "end_row" →
        sc ≤ col < end_bound read_range "end_col" →
        ∃ rec,
          records !! Z.to_nat (row - sr) = Some rec
          ∧ (stored_value ws row col = PyNone →
             (index_by_name = false →
              rec !! ("col_" +:+ py_str (PyInt col)) = Some "None")
             ∧ ((∀ col', col < col' < end_bound read_range "end_col" →
                         column_key ws index_by_name col'
                         ≠ column_key ws index_by_name col) →
                rec !! column_key ws index_by_name col = Some "None")).
Proof.
  intros Hload Her Hec Hread Hname. unfold read_xl_content in Hread.
  rewrite Hload in Hread. cbn [mbind result_bind] in Hread.
  match type of Hread with
  | except_IOError (?m ≫= _) _ = _ =>
      destruct m as [[[[idx' er'] ec'] out]|e] eqn:Hfor
  end.
  2:{ by destruct e. }
  cbn [mbind result_bind except_IOError] in Hread.
  injection Hread as <-.
  apply read_sheets_inv in Hfor as [_ Hnew]; [|done..].
  destruct (Hnew k name Hname)
    as (ws & sr & sc & records & Hws & Hsr & Hsc & Hl & Hrec).
  simpl in Hl. rewrite Z.add_0_l in Hl.
  exists ws, sr, sc, records. split_and!; try done.
  intros row col Hrow Hcol. unfold sheet_records in Hrec.
  assert (py_range sr (end_bound read_range "end_row")
          !! Z.to_nat (row - sr) = Some row) as Hrowi.
  { unfold py_range. rewrite lookup_seqZ_lt by lia. f_equal. lia. }
  destruct (Forall2_lookup_l _ _ _ _ _ Hrec Hrowi) as (rec & Hreci & ->).
  eexists. split; [done |]. intros Hnone.
  assert (col ∈ py_range sc (end_bound read_range "end_col")) as Hin.
  { unfold py_range. apply elem_of_seqZ. lia. }
  assert (∀ (i j : nat) col',
    py_range sc (end_bound read_range "end_col") !! i = Some col →
    py_range sc (end_bound read_range "end_col") !! j = Some col' →
    (i < j)%nat → col < col' < end_bound read_range "end_col") as Horder.
  { unfold py_range. intros i j col' Hi Hj Hlt.
    apply lookup_seqZ in Hi as [-> ?]. apply lookup_seqZ in Hj as [-> ?].
    lia. }
  split.
  - intros ->.
    pose proof (row_record_lookup ws false row
                  (py_range sc (end_bound read_range "end_col")) ∅ col Hin)
      as Hlook.
    rewrite Hnone in Hlook. apply Hlook.
    intros i j col' Hi Hj Hlt Hkey. apply col_key_inj in Hkey.
    pose proof (Horder i j col' Hi Hj Hlt). lia.
  - intros Hdistinct.
    pose proof (row_record_lookup ws index_by_name row
                  (py_range sc (end_bound read_range "end_col")) ∅ col Hin)
      as Hlook.
    rewrite Hnone in Hlook. apply Hlook.
    intros i j col' Hi Hj Hlt. apply Hdistinct. by eapply Horder.
Qed.

(** The one-cell sheet read up to row 2 and column 2: the record of row 2
    has ["None"] under [col_2]. *)
Lemma unpopulated_cell_reads_as_None_text_sample :
  ∃ records rec,
    read_xl_content sample_files "SampleBook.xlsx" false
      (Some {[ "end_row" := PyInt 2; "end_col" := PyInt 2 ]})
      (Some "Summary") = Ok (0, Sheets {[ "sheet_index_0" := records ]})
    ∧ records !! 1%nat = Some rec
    ∧ rec !! "col_2" = Some "None".
Proof.
  destruct (unpopulated_cell_reads_as_None_text sample_files "SampleBook.xlsx"
              false (Some {[ "end_row" := PyInt 2; "end_col" := PyInt 2 ]})
              (Some "Summary") sample_book
              {[ "sheet_index_0" :=
                   [ {[ "col_1" := "Staff list"; "col_2" := "None" ]};
                     {[ "col_1" := "None"; "col_2" := "None" ]} ] ]}
              0%nat "Summary")
    as (ws & sr & sc & records & Hws & Hsr & Hsc & Hrecords & Hcells).
  - reflexivity.
  - vm_compute. discriminate.
  - vm_compute. discriminate.
  - vm_compute. reflexivity.
  - reflexivity.
  - injection Hws as <-. injection Hsr as <-. injection Hsc as <-.
    destruct (Hcells 2 2) as (rec & Hrec & Hnone);
      [vm_compute; split; congruence ..|].
    exists records, rec. split_and!.
    + vm_compute in Hrecords. injection Hrecords as <-.
      vm_compute. reflexivity.
    + exact Hrec.
    + destruct Hnone as [Hcol _]; [reflexivity |]. by apply Hcol.
Defined.

(** ** All sheets, no end bound *)

(** When the caller gives no end bound, the first selected sheet
    resolves both bounds and every later sheet is read between those same
    bounds, whatever its own extents. *)
Lemma later_sheets_read_within_first_extents (wb : Workbook)
    (index_by_name : bool) (start_row start_col : pyval)
    (first : string) (names : list string) (ws1 : Worksheet)
    (st' : read_state) :
  get_sheet_by_name wb (Some first) = Ok ws1 →
  max_row ws1 + 1 ≠ 0 → max_column ws1 + 1 ≠ 0 →
  for_ (first :: names) (read_sheet wb index_by_name start_row start_col)
    (0, 0, 0, ∅) = Ok st' →
  ∀ (k : nat) name,
    names !! k = Some name →
    ∃ ws sr sc records,
      get_sheet_by_name wb (Some name) = Ok ws
      ∧ py_index start_row = Ok sr ∧ py_index start_col = Ok sc
      ∧ st'.2 !! sheet_key (1 + Z.of_nat k) = Some records
      ∧ sheet_records ws index_by_name sr sc
          (max_row ws1 + 1) (max_column ws1 + 1) records.
Proof.
  intros Hws1 Hr Hc. cbn [for_].
  destruct (read_sheet wb index_by_name start_row start_col first
              (0, 0, 0, ∅)) as [[[[idx1 er1] ec1] acc1]|] eqn:Hsheet; [|done].
  cbn [mbind result_bind]. intros Hfor.
  apply read_sheet_inv in Hsheet
    as (ws & sr & sc & records & Hws & _ & _ & -> & -> & -> & -> & _).
  rewrite Hws1 in Hws. injection Hws as <-.
  change (0 =? 0) with true in Hfor. cbv iota in Hfor.
  by apply read_sheets_inv in Hfor as [_ Hnew].
Qed.

(** C1, the code against the claim: with no sheet name and no end
    bound, the three-row, two-column sheet that comes second in the
    sample workbook is read, and searched, within the extents of the
    one-cell sheet that comes first: one record of one column, and a cell
    of its third row is not found; read or searched by name the same
    sheet gives its three rows, and the cell. *)
Theorem all_sheets_share_first_extents :
  read_xl_content sample_files "SampleBook.xlsx" false None None
  = Ok (0, Sheets
            {[ "sheet_index_0" := [ {[ "col_1" := "Staff list" ]} ];
               "sheet_index_1" := [ {[ "col_1" := "employee_name" ]} ] ]})
  ∧ max_row employee_sheet = 3 ∧ max_column employee_sheet = 2
  ∧ read_xl_content sample_files "SampleBook.xlsx" false None
      (Some "Employee")
    = Ok (0, Sheets
              {[ "sheet_index_0" :=
                   [ {[ "col_1" := "employee_name";
                        "col_2" := "year_joined" ]};
                     {[ "col_1" := "John Smith"; "col_2" := "1999" ]};
                     {[ "col_1" := "Sandy Cole"; "col_2" := "2015" ]} ] ]})
  ∧ search_xl_content sample_files "SampleBook.xlsx" "Sandy Cole" None ""
      None = Ok (0, Matches [])
  ∧ search_xl_content sample_files "SampleBook.xlsx" "Sandy Cole" None ""
      (Some "Employee") = Ok (0, Matches [(3, 1)]).
Proof. split_and!; vm_compute; reflexivity. Qed.

(** ** Reading a sheet: what is returned *)

Lemma for_collect {A B} (f : A → result B) (g : A → B) (l : list A)
    (acc : list B) :
  (∀ x, x ∈ l → f x = Ok (g x)) →
  for_ l (λ x acc', y ← f x; Ok (acc' ++ [y])) acc = Ok (acc ++ (g <$> l)).
Proof.
  revert acc. induction l as [|x l IH]; intros acc Hf; cbn [for_].
  - by rewrite app_nil_r.
  - rewrite Hf by (by left). cbn [mbind result_bind].
    rewrite IH by (intros; apply Hf; by right).
    by rewrite fmap_cons, <- app_assoc.
Qed.

Lemma py_range_ge (a b x : Z) : x ∈ py_range a b → a ≤ x < b.
Proof. unfold py_range. rewrite elem_of_seqZ. lia. Qed.

Lemma read_dict_keys_ok (ws : Worksheet) (index_by_name : bool)
    (start_col : pyval) (sc end_col : Z) :
  py_index start_col = Ok sc → 1 ≤ sc →
  read_dict_keys ws index_by_name start_col end_col
  = Ok (column_key ws index_by_name <$> py_range sc end_col).
Proof.
  intros Hsc Hsc1. unfold read_dict_keys.
  rewrite (range_from_index start_col sc) by done. cbn [mbind result_bind].
  rewrite <- (app_nil_l (_ <$> _)).
  rewrite <- (for_collect
                (λ col, if index_by_name
                        then v ← cell_value ws 1 col; Ok (py_str v)
                        else Ok ("col_" +:+ py_str (PyInt col)))).
  - apply for_ext. intros col acc _.
    destruct index_by_name; [by destruct (cell_value ws 1 col) | done].
  - intros col Hcol. apply py_range_ge in Hcol. unfold column_key.
    destruct index_by_name; [|done].
    by rewrite cell_value_stored by lia.
Qed.

Lemma read_row_ok (ws : Worksheet) (index_by_name : bool)
    (start_col : pyval) (sc end_col row : Z) :
  py_index start_col = Ok sc → 1 ≤ sc → 1 ≤ row →
  read_row ws (column_key ws index_by_name <$> py_range sc end_col)
    start_col end_col row
  = Ok (row_record ws index_by_name row (py_range sc end_col)).
Proof.
  intros Hsc Hsc1 Hrow. unfold read_row, row_record.
  rewrite (range_from_index start_col sc) by done. cbn [mbind result_bind].
  rewrite Hsc.
  assert (∀ (l : list Z) (acc : record),
    Forall (λ col, sc ≤ col < end_col) l →
    for_ l (λ col (temp_dict : record),
      v ← cell_value ws row col;
      first_col ← Ok sc;
      key ← list_getitem
               (column_key ws index_by_name <$> py_range sc end_col)
               (col - first_col);
      Ok (<[key := py_str v]> temp_dict)) acc
    = Ok (foldl (λ d col,
                   <[column_key ws index_by_name col
                     := py_str (stored_value ws row col)]> d) acc l))
    as Hloop.
  { induction l as [|col l IH]; intros acc Hl; [done |].
    apply Forall_cons in Hl as [Hcol Hl]. cbn [for_ foldl].
    rewrite cell_value_stored by lia. cbn [mbind result_bind].
    assert (list_getitem
              (column_key ws index_by_name <$> py_range sc end_col)
              (col - sc) = Ok (column_key ws index_by_name col)) as ->.
    { unfold list_getitem, py_range.
      destruct (col - sc <? 0) eqn:E; [lia |]. rewrite E.
      rewrite list_lookup_fmap, lookup_seqZ_lt by lia. simpl.
      do 2 f_equal. lia. }
    cbn [mbind result_bind]. by apply IH. }
  apply Hloop. apply Forall_forall. intros col Hcol.
  by apply py_range_ge in Hcol.
Qed.

(** One sheet of a read whose start bounds are at least 1: the bounds
    are resolved and the table of the range is stored under the key of
    the sheet's position. *)
Lemma read_sheet_ok (wb : Workbook) (index_by_name : bool)
    (start_row start_col : pyval) (name : string) (ws : Worksheet)
    (sr sc idx er ec : Z) (acc : gmap string (list record)) :
  get_sheet_by_name wb (Some name) = Ok ws →
  py_index start_row = Ok sr → py_index start_col = Ok sc →
  1 ≤ sr → 1 ≤ sc →
  read_sheet wb index_by_name start_row start_col name (idx, er, ec, acc)
  = Ok (idx + 1, resolved er (max_row ws), resolved ec (max_column ws),
        <[sheet_key idx
          := sheet_table ws index_by_name
               (py_range sr (resolved er (max_row ws)))
               (py_range sc (resolved ec (max_column ws)))]> acc).
Proof.
  intros Hws Hsr Hsc Hsr1 Hsc1. unfold read_sheet, resolved. rewrite Hws.
  cbn [mbind result_bind].
  rewrite (read_dict_keys_ok ws index_by_name start_col sc) by done.
  cbn [mbind result_bind].
  rewrite (range_from_index start_row sr) by done. cbn [mbind result_bind].
  rewrite (for_collect _
             (λ row, row_record ws index_by_name row
                       (py_range sc (if ec =? 0 then max_column ws + 1
                                     else ec)))).
  - cbn [mbind result_bind]. rewrite app_nil_l, insert_insert_eq. done.
  - intros row Hrow. apply py_range_ge in Hrow.
    apply read_row_ok; (done || lia).
Qed.

(** What a record holds under the key of a column: the text of the last
    column of the range that has this key. *)
Lemma row_record_last (ws : Worksheet) (index_by_name : bool) (row : Z)
    (cols : list Z) (col : Z) :
  col ∈ cols →
  ∃ col', col' ∈ cols
    ∧ column_key ws index_by_name col' = column_key ws index_by_name col
    ∧ row_record ws index_by_name row cols
      !! column_key ws index_by_name col
      = Some (py_str (stored_value ws row col')).
Proof.
  unfold row_record. generalize (∅ : record).
  induction cols as [|c cols IH] using rev_ind; intros acc Hin.
  - by apply elem_of_nil in Hin.
  - rewrite foldl_app. cbn [foldl].
    destruct (decide (column_key ws index_by_name c
                      = column_key ws index_by_name col)) as [Heq | Hne].
    + exists c. split_and!; [apply elem_of_app; right; by left | done |].
      rewrite <- Heq. apply lookup_insert_eq.
    + apply elem_of_app in Hin as [Hin | Hin].
      * destruct (IH acc Hin) as (col' & Hin' & Hkey & Hlook).
        exists col'. split_and!; [apply elem_of_app; by left | done |].
        by rewrite lookup_insert_ne.
      * apply list_elem_of_singleton in Hin. by subst.
Qed.

(** The keys of a record are the keys of the columns of the range. *)
Lemma row_record_dom (ws : Worksheet) (index_by_name : bool) (row : Z)
    (cols : list Z) (key : string) :
  is_Some (row_record ws index_by_name row cols !! key)
  ↔ ∃ col, col ∈ cols ∧ column_key ws index_by_name col = key.
Proof.
  unfold row_record.
  assert (∀ acc : record,
    is_Some (foldl (λ d col,
                      <[column_key ws index_by_name col
                        := py_str (stored_value ws row col)]> d) acc cols
             !! key)
    ↔ is_Some (acc !! key)
      ∨ ∃ col, col ∈ cols ∧ column_key ws index_by_name col = key) as H.
  { induction cols as [|c cols IH]; intros acc; cbn [foldl].
    - split; [by left | intros [H | (col & Hin & _)]; [done |]].
      by apply elem_of_nil in Hin.
    - rewrite IH. rewrite lookup_insert_is_Some. split.
      + intros [[Heq | [_ H]] | (col & Hin & Hkey)].
        * right. exists c. split; [by left | done].
        * by left.
        * right. exists col. split; [by right | done].
      + intros [H | (col & Hin & Hkey)].
        * destruct (decide (column_key ws index_by_name c = key));
            left; [by left | by right].
        * apply elem_of_cons in Hin as [-> | Hin].
          -- left. by left.
          -- right. by exists col. }
  rewrite H. rewrite lookup_empty. split.
  - intros [[? ?] | ?]; done.
  - by right.
Qed.

Lemma select_named (wb : Workbook) (name : string) :
  name ≠ "" → select_sheets wb (Some name) = [name].
Proof.
  intros Hname. unfold select_sheets, str_truthy.
  apply String.eqb_neq in Hname. by rewrite Hname.
Qed.

Lemma read_named_sheet (files : Storage) (excel_file : string)
    (index_by_name : bool) (read_range : option dict) (name : string)
    (wb : Workbook) (ws : Worksheet) (sr sc : Z) :
  load_workbook files excel_file = Ok wb →
  name ≠ "" →
  get_sheet_by_name wb (Some name) = Ok ws →
  py_index (get_or read_range "start_row" (PyInt 1)) = Ok sr →
  py_index (get_or read_range "start_col" (PyInt 1)) = Ok sc →
  1 ≤ sr → 1 ≤ sc →
  read_xl_content files excel_file index_by_name read_range (Some name)
  = Ok (0, Sheets
            {[ sheet_key 0
               := sheet_table ws index_by_name
                    (py_range sr (resolved (end_bound read_range "end_row")
                                    (max_row ws)))
                    (py_range sc (resolved (end_bound read_range "end_col")
                                    (max_column ws))) ]}).
Proof.
  intros Hload Hname Hws Hsr Hsc Hsr1 Hsc1. unfold read_xl_content.
  rewrite Hload. cbn [mbind result_bind]. rewrite select_named by done.
  cbn [for_].
  rewrite (read_sheet_ok wb index_by_name _ _ name ws sr sc) by done.
  cbn [mbind result_bind except_IOError]. by rewrite insert_empty.
Qed.

(** X1: a read of a named sheet whose start bounds are at least 1
    returns status 0 and one entry, under [sheet_index_0] whatever the
    position of the sheet in the workbook: one record per row from the
    start row up to the end bound, the end bounds defaulting to the
    sheet's last row and last column. *)
Theorem read_named_sheet_returns_table (files : Storage) (excel_file : string)
    (index_by_name : bool) (read_range : option dict) (name : string)
    (wb : Workbook) (ws : Worksheet) (sr sc : Z) :
  load_workbook files excel_file = Ok wb →
  name ≠ "" →
  get_sheet_by_name wb (Some name) = Ok ws →
  py_index (get_or read_range "start_row" (PyInt 1)) = Ok sr →
  py_index (get_or read_range "start_col" (PyInt 1)) = Ok sc →
  1 ≤ sr → 1 ≤ sc →
  ∃ records,
    read_xl_content files excel_file index_by_name read_range (Some name)
    = Ok (0, Sheets {[ "sheet_index_0" := records ]})
    ∧ length records
      = Z.to_nat (resolved (end_bound read_range "end_row") (max_row ws) - sr)
    ∧ ∀ (n : nat) rec,
        records !! n = Some rec →
        rec = row_record ws index_by_name (sr + Z.of_nat n)
                (py_range sc (resolved (end_bound read_range "end_col")
                                (max_column ws))).
Proof.
  intros Hload Hname Hws Hsr Hsc Hsr1 Hsc1. eexists. split_and!.
  - by apply (read_named_sheet _ _ _ _ _ wb ws sr sc).
  - unfold sheet_table, py_range. by rewrite length_fmap, length_seqZ.
  - intros n rec Hn. unfold sheet_table, py_range in Hn.
    rewrite list_lookup_fmap in Hn.
    destruct (seqZ sr _ !! n) as [row|] eqn:Hrow; [|done].
    apply lookup_seqZ in Hrow as [-> _]. by injection Hn as <-.
Qed.

(** The second sheet of the sample workbook, read by name without a
    range: three records, under [sheet_index_0]. *)
Lemma read_named_sheet_returns_table_sample :
  ∃ records,
    read_xl_content sample_files "SampleBook.xlsx" true None
      (Some "Employee") = Ok (0, Sheets {[ "sheet_index_0" := records ]})
    ∧ length records = 3%nat.
Proof.
  destruct (read_named_sheet_returns_table sample_files "SampleBook.xlsx"
              true None "Employee" sample_book employee_sheet 1 1)
    as (records & Hread & Hlen & _);
    [reflexivity | discriminate | reflexivity | reflexivity | reflexivity
    | lia | lia |].
  by exists records.
Defined.

(** X2: the header row is not skipped: in a read by header names that
    starts at row 1, the first record maps the header text of every
    column of the range to itself. *)
Theorem read_first_record_is_header (files : Storage) (excel_file : string)
    (read_range : option dict) (name : string) (wb : Workbook)
    (ws : Worksheet) (sc : Z) :
  load_workbook files excel_file = Ok wb →
  name ≠ "" →
  get_sheet_by_name wb (Some name) = Ok ws →
  py_index (get_or read_range "start_row" (PyInt 1)) = Ok 1 →
  py_index (get_or read_range "start_col" (PyInt 1)) = Ok sc →
  1 ≤ sc →
  1 < resolved (end_bound read_range "end_row") (max_row ws) →
  ∃ records rec,
    read_xl_content files excel_file true read_range (Some name)
    = Ok (0, Sheets {[ "sheet_index_0" := records ]})
    ∧ records !! 0%nat = Some rec
    ∧ ∀ col,
        sc ≤ col < resolved (end_bound read_range "end_col")
                     (max_column ws) →
        rec !! py_str (stored_value ws 1 col)
        = Some (py_str (stored_value ws 1 col)).
Proof.
  intros Hload Hname Hws Hsr Hsc Hsc1 Hrows.
  eexists _, (row_record ws true 1
                (py_range sc (resolved (end_bound read_range "end_col")
                                (max_column ws)))).
  split_and!.
  - by apply (read_named_sheet _ _ _ _ _ wb ws 1 sc).
  - unfold sheet_table, py_range. rewrite list_lookup_fmap.
    rewrite lookup_seqZ_lt by lia. reflexivity.
  - intros col Hcol.
    destruct (row_record_last ws true 1
                (py_range sc (resolved (end_bound read_range "end_col")
                                (max_column ws))) col)
      as (col' & _ & Hkey & Hlook).
    { unfold py_range. apply elem_of_seqZ. lia. }
    unfold column_key in Hkey, Hlook. by rewrite Hlook, Hkey.
Qed.

(** The sample sheet read by header names: the first record maps
    ["year_joined"] to ["year_joined"]. *)
Lemma read_first_record_is_header_sample :
  ∃ records rec,
    read_xl_content sample_files "SampleBook.xlsx" true None
      (Some "Employee") = Ok (0, Sheets {[ "sheet_index_0" := records ]})
    ∧ records !! 0%nat = Some rec
    ∧ rec !! "year_joined" = Some "year_joined".
Proof.
  destruct (read_first_record_is_header sample_files "SampleBook.xlsx"
              None "Employee" sample_book employee_sheet 1)
    as (records & rec & Hread & Hrec & Hcols);
    [reflexivity | discriminate | reflexivity | reflexivity | reflexivity
    | lia | vm_compute; reflexivity |].
  exists records, rec. split_and!; [done | done |].
  apply (Hcols 2). vm_compute. split; congruence.
Defined.

(** X3: every record of a read has the same keys, those of the columns
    of the range, and holds under a key the text of the last column of
    the range that has this key: columns with equal header texts fall
    into one key and the later column wins. *)
Theorem read_records_keys (files : Storage) (excel_file : string)
    (index_by_name : bool) (read_range : option dict) (name : string)
    (wb : Workbook) (ws : Worksheet) (sr sc : Z) :
  load_workbook files excel_file = Ok wb →
  name ≠ "" →
  get_sheet_by_name wb (Some name) = Ok ws →
  py_index (get_or read_range "start_row" (PyInt 1)) = Ok sr →
  py_index (get_or read_range "start_col" (PyInt 1)) = Ok sc →
  1 ≤ sr → 1 ≤ sc →
  ∃ records,
    read_xl_content files excel_file index_by_name read_range (Some name)
    = Ok (0, Sheets {[ "sheet_index_0" := records ]})
    ∧ ∀ (n : nat) rec,
        records !! n = Some rec →
        (∀ key,
           is_Some (rec !! key)
           ↔ ∃ col,
               sc ≤ col < resolved (end_bound read_range "end_col")
                            (max_column ws)
               ∧ column_key ws index_by_name col = key)
        ∧ (∀ col,
             sc ≤ col < resolved (end_bound read_range "end_col")
                          (max_column ws) →
             ∃ col',
               col ≤ col' < resolved (end_bound read_range "end_col")
                              (max_column ws)
               ∧ column_key ws index_by_name col'
                 = column_key ws index_by_name col
               ∧ (∀ later,
                    col' < later < resolved (end_bound read_range "end_col")
                                     (max_column ws) →
                    column_key ws index_by_name later
                    ≠ column_key ws index_by_name col)
               ∧ rec !! column_key ws index_by_name col
                 = Some (py_str (stored_value ws (sr + Z.of_nat n) col'))).
Proof.
  intros Hload Hname Hws Hsr Hsc Hsr1 Hsc1. eexists. split.
  { by apply (read_named_sheet _ _ _ _ _ wb ws sr sc). }
  intros n rec Hn. unfold sheet_table in Hn.
  rewrite list_lookup_fmap in Hn.
  destruct (py_range sr _ !! n) as [row|] eqn:Hrow; [|done].
  unfold py_range in Hrow. apply lookup_seqZ in Hrow as [-> _].
  injection Hn as <-.
  set (ec := resolved (end_bound read_range "end_col") (max_column ws)).
  split.
  - intros key. rewrite row_record_dom. split.
    + intros (col & Hin & Hkey). apply py_range_ge in Hin. by exists col.
    + intros (col & Hin & Hkey). exists col. split; [|done].
      unfold py_range. apply elem_of_seqZ. lia.
  - intros col Hcol.
    (* the last column of the range with the key of [col] *)
    assert (∀ (m : nat) c,
      col ≤ c < ec → c + Z.of_nat m = ec →
      column_key ws index_by_name c = column_key ws index_by_name col →
      ∃ col', c ≤ col' < ec
        ∧ column_key ws index_by_name col' = column_key ws index_by_name col
        ∧ ∀ later, col' < later < ec →
                   column_key ws index_by_name later
                   ≠ column_key ws index_by_name col) as Hlast.
    { induction m as [m IH] using lt_wf_ind. intros c Hc Hm Hkey.
      destruct (decide (Exists (λ later,
                  column_key ws index_by_name later
                  = column_key ws index_by_name col)
                  (seqZ (c + 1) (ec - c - 1)))) as [Hex | Hnone];
        rewrite Exists_exists in *.
      - destruct Hex as (later & Hin & Hk). apply elem_of_seqZ in Hin.
        destruct (IH (Z.to_nat (ec - later)) ltac:(lia) later)
          as (col' & Hr & Hk' & Hl); [lia | lia | done |].
        exists col'. split_and!; try lia; done.
      - exists c. split_and!; try lia; try done.
        intros later Hlater Hk. apply Hnone. exists later. split; [|done].
        apply elem_of_seqZ. lia. }
    destruct (Hlast (Z.to_nat (ec - col)) col) as (col' & Hr & Hk & Hl);
      [lia | lia | done |].
    exists col'. split_and!; try lia; try done.
    rewrite <- Hk. unfold row_record.
    apply (row_record_lookup ws index_by_name _ (py_range sc ec) ∅ col').
    + unfold py_range. apply elem_of_seqZ. lia.
    + intros i j later Hi Hj Hlt. unfold py_range in Hi, Hj.
      apply lookup_seqZ in Hi as [-> ?]. apply lookup_seqZ in Hj as [-> ?].
      rewrite Hk. apply Hl. lia.
Qed.

(** The sample sheet read by column numbers: every record has a value
    under [col_2]. *)
Lemma read_records_keys_sample :
  ∃ records,
    read_xl_content sample_files "SampleBook.xlsx" false None
      (Some "Employee") = Ok (0, Sheets {[ "sheet_index_0" := records ]})
    ∧ ∀ (n : nat) rec, records !! n = Some rec → is_Some (rec !! "col_2").
Proof.
  destruct (read_records_keys sample_files "SampleBook.xlsx" false None
              "Employee" sample_book employee_sheet 1 1)
    as (records & Hread & Hrecs);
    [reflexivity | discriminate | reflexivity | reflexivity | reflexivity
    | lia | lia |].
  exists records. split; [done |]. intros n rec Hn.
  destruct (Hrecs n rec Hn) as [Hkeys _]. apply Hkeys.
  exists 2. split; [vm_compute; split; congruence | reflexivity].
Defined.

(** ** Every sheet of the workbook, with the caller's end bounds *)

Lemma get_sheet_by_name_listed (wb : Workbook) (name : string) :
  name ∈ get_sheet_names wb →
  ∃ ws, get_sheet_by_name wb (Some name) = Ok ws.
Proof.
  unfold get_sheet_names. induction wb as [|[title ws] wb IH]; simpl.
  - intros H. by apply elem_of_nil in H.
  - intros H. case_bool_decide as Ht; [by exists ws |].
    apply elem_of_cons in H as [-> | H]; [done | by apply IH].
Qed.

Lemma get_sheet_by_name_raises (wb : Workbook) (name : option string)
    (e : exn) :
  get_sheet_by_name wb name = Raise e → e = KeyError.
Proof.
  induction wb as [|[title ws] wb IH]; simpl; [by intros [= <-] |].
  case_bool_decide; [done | apply IH].
Qed.

Lemma resolved_given (bound extent : Z) :
  bound ≠ 0 → resolved bound extent = bound.
Proof. intros H. unfold resolved. apply Z.eqb_neq in H. by rewrite H. Qed.

(** The loop of the read over listed sheets, the end bounds being the
    caller's: each sheet's table goes under the key of its position. *)
Lemma read_sheets_ok (wb : Workbook) (index_by_name : bool)
    (start_row start_col : pyval) (sr sc er ec : Z) (names : list string)
    (idx : Z) (acc : gmap string (list record)) :
  py_index start_row = Ok sr → py_index start_col = Ok sc →
  1 ≤ sr → 1 ≤ sc → er ≠ 0 → ec ≠ 0 →
  (∀ name, name ∈ names → name ∈ get_sheet_names wb) →
  ∃ out,
    for_ names (read_sheet wb index_by_name start_row start_col)
      (idx, er, ec, acc)
    = Ok (idx + Z.of_nat (length names), er, ec, out)
    ∧ (∀ (k : nat) name ws,
         names !! k = Some name →
         get_sheet_by_name wb (Some name) = Ok ws →
         out !! sheet_key (idx + Z.of_nat k)
         = Some (sheet_table ws index_by_name (py_range sr er)
                   (py_range sc ec)))
    ∧ (∀ key,
         is_Some (out !! key)
         ↔ is_Some (acc !! key)
           ∨ ∃ k : nat, (k < length names)%nat
                        ∧ key = sheet_key (idx + Z.of_nat k)).
Proof.
  intros Hsr Hsc Hsr1 Hsc1 Her Hec. revert idx acc.
  induction names as [|name names IH]; intros idx acc Hlisted; cbn [for_].
  - exists acc. split_and!.
    + simpl. by rewrite Z.add_0_r.
    + intros k name ws Hk. done.
    + intros key. split; [by left | intros [H | (k & Hk & _)]; [done |]].
      simpl in Hk. lia.
  - destruct (get_sheet_by_name_listed wb name) as [ws Hws];
      [apply Hlisted; by left |].
    rewrite (read_sheet_ok wb index_by_name _ _ name ws sr sc) by done.
    cbn [mbind result_bind]. rewrite !resolved_given by done.
    destruct (IH (idx + 1)
                (<[sheet_key idx
                   := sheet_table ws index_by_name (py_range sr er)
                        (py_range sc ec)]> acc))
      as (out & Hfor & Hlook & Hkeys).
    { intros n Hn. apply Hlisted. by right. }
    exists out. split_and!.
    + rewrite Hfor.
      replace (idx + Z.of_nat (length (name :: names)))
        with (idx + 1 + Z.of_nat (length names)) by (simpl length; lia).
      done.
    + intros [|k] name' ws' Hk Hws'; simpl in Hk.
      * simplify_eq. rewrite Z.add_0_r.
        assert (ws' = ws) as -> by congruence.
        (* no later sheet writes the key of this position *)
        clear IH Hkeys Hlook.
        assert (∀ (l : list string) i a i' e1 e2 o,
          idx < i →
          for_ l (read_sheet wb index_by_name start_row start_col)
            (i, er, ec, a) = Ok (i', e1, e2, o) →
          o !! sheet_key idx = a !! sheet_key idx) as Hkeep.
        { intros l i a i' e1 e2 o Hi Hl.
          apply read_sheets_inv in Hl as [Hold _]; [|done ..].
          apply (Hold idx). lia. }
        rewrite (Hkeep names (idx + 1) _ _ _ _ _ ltac:(lia) Hfor).
        apply lookup_insert_eq.
      * rewrite <- (Hlook k name' ws' Hk Hws'). f_equal. f_equal. lia.
    + intros key. rewrite Hkeys. rewrite lookup_insert_is_Some. split.
      * intros [[<- | [_ H]] | (k & Hk & ->)].
        -- right. exists 0%nat. split; [simpl; lia |].
           by rewrite Z.add_0_r.
        -- by left.
        -- right. exists (S k). split; [simpl; lia |].
           f_equal. lia.
      * intros [H | (k & Hk & ->)].
        -- left. destruct (decide (sheet_key idx = key)); [by left |].
           by right.
        -- destruct k as [|k].
           ++ left. left. by rewrite Z.add_0_r.
           ++ right. exists k. split; [simpl in Hk; lia |].
              f_equal. lia.
Qed.

(** X4: a read of all sheets (no sheet name) whose end bounds come from
    the caller returns status 0 and one entry per sheet of the workbook,
    the table of the [k]-th sheet under [sheet_index_k], and no other
    key. *)
Theorem read_all_sheets_positional (files : Storage) (excel_file : string)
    (index_by_name : bool) (read_range : option dict)
    (sheet_name : option string) (wb : Workbook) (sr sc : Z) :
  load_workbook files excel_file = Ok wb →
  str_truthy sheet_name = false →
  py_index (get_or read_range "start_row" (PyInt 1)) = Ok sr →
  py_index (get_or read_range "start_col" (PyInt 1)) = Ok sc →
  1 ≤ sr → 1 ≤ sc →
  end_bound read_range "end_row" ≠ 0 →
  end_bound read_range "end_col" ≠ 0 →
  ∃ excelsheet,
    read_xl_content files excel_file index_by_name read_range sheet_name
    = Ok (0, Sheets excelsheet)
    ∧ (∀ (k : nat) name ws,
         get_sheet_names wb !! k = Some name →
         get_sheet_by_name wb (Some name) = Ok ws →
         excelsheet !! sheet_key (Z.of_nat k)
         = Some (sheet_table ws index_by_name
                   (py_range sr (end_bound read_range "end_row"))
                   (py_range sc (end_bound read_range "end_col"))))
    ∧ (∀ key,
         is_Some (excelsheet !! key)
         ↔ ∃ k : nat, (k < length wb)%nat ∧ key = sheet_key (Z.of_nat k)).
Proof.
  intros Hload Hname Hsr Hsc Hsr1 Hsc1 Her Hec. unfold read_xl_content.
  rewrite Hload. cbn [mbind result_bind].
  assert (select_sheets wb sheet_name = get_sheet_names wb) as ->.
  { unfold select_sheets. destruct sheet_name; [by rewrite Hname | done]. }
  destruct (read_sheets_ok wb index_by_name _ _ sr sc _ _
              (get_sheet_names wb) 0 ∅ Hsr Hsc Hsr1 Hsc1 Her Hec)
    as (out & Hfor & Hlook & Hkeys); [done |].
  rewrite Hfor. cbn [mbind result_bind except_IOError].
  exists out. split_and!; [done | |].
  - intros k name ws Hk Hws. rewrite <- (Hlook k name ws Hk Hws).
    f_equal.
  - intros key. rewrite Hkeys. unfold get_sheet_names.
    rewrite length_fmap. rewrite lookup_empty. split.
    + intros [[? ?] | H]; [done | exact H].
    + intros H. by right.
Qed.

(** The two sheets of the sample workbook read up to row 2 and column
    1: two entries, and no entry under [sheet_index_2]. *)
Lemma read_all_sheets_positional_sample :
  ∃ excelsheet,
    read_xl_content sample_files "SampleBook.xlsx" false
      (Some {[ "end_row" := PyInt 2; "end_col" := PyInt 1 ]}) None
    = Ok (0, Sheets excelsheet)
    ∧ excelsheet !! "sheet_index_1"
      = Some [ {[ "col_1" := "employee_name" ]};
               {[ "col_1" := "John Smith" ]} ]
    ∧ excelsheet !! "sheet_index_2" = None.
Proof.
  destruct (read_all_sheets_positional sample_files "SampleBook.xlsx" false
              (Some {[ "end_row" := PyInt 2; "end_col" := PyInt 1 ]}) None
              sample_book 1 1)
    as (excelsheet & Hread & Hlook & Hkeys);
    [reflexivity | reflexivity | reflexivity | reflexivity | lia | lia
    | vm_compute; discriminate | vm_compute; discriminate |].
  exists excelsheet. split_and!; [done | |].
  - etrans; [apply (Hlook 1%nat "Employee" employee_sheet); reflexivity |].
    vm_compute. reflexivity.
  - apply eq_None_not_Some. rewrite Hkeys. intros (k & Hk & Hkey).
    apply (sheet_key_inj 2 (Z.of_nat k)) in Hkey. simpl in Hk. lia.
Defined.

(** ** Searching: order and sheets *)

(** The loop of the search over listed sheets, the end bounds being the
    caller's: the hits of each sheet are appended, sheet after sheet. *)
Lemma search_sheets_ok (wb : Workbook) (i w x : bool) (tok : string)
    (start_row start_col : pyval) (sr sc er ec : Z) (names : list string)
    (list_ : list (Z * Z)) :
  py_index start_row = Ok sr → py_index start_col = Ok sc →
  1 ≤ sr → 1 ≤ sc → er ≠ 0 → ec ≠ 0 →
  (∀ name, name ∈ names → name ∈ get_sheet_names wb) →
  for_ names (search_sheet wb i w x tok start_row start_col)
    (er, ec, list_)
  = Ok (er, ec,
        list_ ++ book_hits wb i w x tok names (py_range sr er)
                   (py_range sc ec)).
Proof.
  intros Hsr Hsc Hsr1 Hsc1 Her Hec. revert list_.
  apply Z.eqb_neq in Her. apply Z.eqb_neq in Hec.
  induction names as [|name names IH]; intros list_ Hlisted; cbn [for_].
  - by rewrite app_nil_r.
  - destruct (get_sheet_by_name_listed wb name) as [ws Hws];
      [apply Hlisted; by left |].
    rewrite (search_sheet_scan wb i w x tok _ _ name ws sr sc) by done.
    cbn [mbind result_bind]. rewrite Her, Hec.
    rewrite IH by (intros n Hn; apply Hlisted; by right).
    unfold book_hits. rewrite bind_cons, Hws. by rewrite app_assoc.
Qed.

(** X5: a search of all sheets (no sheet name) whose end bounds come
    from the caller returns status 0 and the hits of the first sheet,
    then those of the second, and so on, each sheet scanned over the same
    range; a pair (row, col) is in the result iff the cell at (row, col)
    of some sheet passes the test. *)
Theorem search_all_sheets_in_order (files : Storage) (excel_file : string)
    (search_token : string) (search_range : option dict)
    (search_options : string) (sheet_name : option string) (wb : Workbook)
    (sr sc : Z) :
  load_workbook files excel_file = Ok wb →
  str_truthy sheet_name = false →
  py_index (get_or search_range "start_row" (PyInt 1)) = Ok sr →
  py_index (get_or search_range "start_col" (PyInt 1)) = Ok sc →
  1 ≤ sr → 1 ≤ sc →
  end_bound search_range "end_row" ≠ 0 →
  end_bound search_range "end_col" ≠ 0 →
  search_xl_content files excel_file search_token search_range
    search_options sheet_name
  = Ok (0, Matches
            (book_hits wb (contains "i" search_options)
               (contains "w" search_options) (contains "x" search_options)
               (if contains "i" search_options then lower search_token
                else search_token)
               (get_sheet_names wb)
               (py_range sr (end_bound search_range "end_row"))
               (py_range sc (end_bound search_range "end_col"))))
  ∧ ∀ row col,
      (row, col)
      ∈ book_hits wb (contains "i" search_options)
          (contains "w" search_options) (contains "x" search_options)
          (if contains "i" search_options then lower search_token
           else search_token)
          (get_sheet_names wb)
          (py_range sr (end_bound search_range "end_row"))
          (py_range sc (end_bound search_range "end_col"))
      ↔ sr ≤ row < end_bound search_range "end_row"
        ∧ sc ≤ col < end_bound search_range "end_col"
        ∧ ∃ name ws,
            name ∈ get_sheet_names wb
            ∧ get_sheet_by_name wb (Some name) = Ok ws
            ∧ match_policy (contains "i" search_options)
                (contains "w" search_options) (contains "x" search_options)
                search_token (py_str (stored_value ws row col)).
Proof.
  intros Hload Hname Hsr Hsc Hsr1 Hsc1 Her Hec. split.
  - unfold search_xl_content. rewrite Hload.
    assert (select_sheets wb sheet_name = get_sheet_names wb) as ->.
    { unfold select_sheets. destruct sheet_name; [by rewrite Hname | done]. }
    rewrite (search_sheets_ok wb _ _ _ _ _ _ sr sc) by done.
    cbn [mbind result_bind except_Exception]. by rewrite app_nil_l.
  - intros row col. unfold book_hits. rewrite list_elem_of_bind. split.
    + intros (name & Hin & Hname').
      destruct (get_sheet_by_name wb (Some name)) as [ws|] eqn:Hws;
        [|by apply elem_of_nil in Hin].
      unfold sheet_hits in Hin.
      apply list_elem_of_bind in Hin as (r & Hin & Hr).
      apply list_elem_of_bind in Hin as (c & Hin & Hc).
      apply py_range_ge in Hr. apply py_range_ge in Hc.
      destruct (search_cell_policy ws search_options search_token r c [])
        as (found & _ & Hhit & Hpolicy); [lia | lia |].
      rewrite Hhit in Hin. destruct found; [|by apply elem_of_nil in Hin].
      apply list_elem_of_singleton in Hin as [= -> ->].
      split_and!; try lia. exists name, ws. split_and!; try done.
      by apply Hpolicy.
    + intros (Hr & Hc & name & ws & Hin & Hws & Hp).
      exists name. split; [|done]. rewrite Hws. unfold sheet_hits.
      apply list_elem_of_bind. exists row. split.
      * apply list_elem_of_bind. exists col. split.
        -- destruct (search_cell_policy ws search_options search_token
                       row col []) as (found & _ & Hhit & Hpolicy);
             [lia | lia |].
           rewrite Hhit. apply Hpolicy in Hp as ->. by left.
        -- unfold py_range. apply elem_of_seqZ. lia.
      * unfold py_range. apply elem_of_seqZ. lia.
Qed.

(** The two sheets of the sample workbook searched for ["S"] in rows 1
    to 3 of column 1: the hit of the first sheet, then the two hits of
    the second. *)
Lemma search_all_sheets_in_order_sample :
  search_xl_content sample_files "SampleBook.xlsx" "S"
    (Some {[ "end_row" := PyInt 3; "end_col" := PyInt 1 ]}) "" None
  = Ok (0, Matches [(1, 1); (2, 1); (3, 1)]).
Proof.
  etrans;
    [apply (search_all_sheets_in_order sample_files "SampleBook.xlsx" "S"
              (Some {[ "end_row" := PyInt 3; "end_col" := PyInt 1 ]}) ""
              None sample_book 1 1);
     [reflexivity | reflexivity | reflexivity | reflexivity | lia | lia
     | vm_compute; discriminate | vm_compute; discriminate] |].
  vm_compute. reflexivity.
Defined.

Lemma row_hits_sorted (ws : Worksheet) (i w x : bool) (tok : string)
    (row : Z) (cols : list Z) :
  StronglySorted Z.lt cols →
  StronglySorted row_major
    (col ← cols; if cell_hit ws i w x tok row col then [(row, col)] else [])
  ∧ ∀ p, p ∈ (col ← cols;
              if cell_hit ws i w x tok row col then [(row, col)] else []) →
         p.1 = row ∧ p.2 ∈ cols.
Proof.
  induction 1 as [|c cols Hsorted [IHs IHin] Hc].
  - split; [constructor | intros p Hp; by apply elem_of_nil in Hp].
  - rewrite bind_cons. split.
    + apply StronglySorted_app_2; [| |done].
      * intros p q Hp Hq. apply IHin in Hq as [Hq1 Hq2].
        destruct (cell_hit ws i w x tok row c); [|by apply elem_of_nil in Hp].
        apply list_elem_of_singleton in Hp as ->. right. simpl.
        split; [done |]. rewrite Forall_forall in Hc. by apply Hc.
      * destruct (cell_hit ws i w x tok row c); repeat constructor.
    + intros p Hp. apply elem_of_app in Hp as [Hp | Hp].
      * destruct (cell_hit ws i w x tok row c); [|by apply elem_of_nil in Hp].
        apply list_elem_of_singleton in Hp as ->. split; [done | by left].
      * apply IHin in Hp as [? ?]. split; [done | by right].
Qed.

Lemma sheet_hits_sorted (ws : Worksheet) (i w x : bool) (tok : string)
    (rows cols : list Z) :
  StronglySorted Z.lt rows → StronglySorted Z.lt cols →
  StronglySorted row_major (sheet_hits ws i w x tok rows cols)
  ∧ ∀ p, p ∈ sheet_hits ws i w x tok rows cols → p.1 ∈ rows.
Proof.
  intros Hrows Hcols. unfold sheet_hits.
  induction Hrows as [|r rows Hsorted [IHs IHin] Hr].
  - split; [constructor | intros p Hp; by apply elem_of_nil in Hp].
  - rewrite bind_cons.
    destruct (row_hits_sorted ws i w x tok r cols Hcols) as [Hs Hin]. split.
    + apply StronglySorted_app_2; [|done..].
      intros p q Hp Hq. apply Hin in Hp as [Hp _]. apply IHin in Hq.
      left. rewrite Hp. rewrite Forall_forall in Hr. by apply Hr.
    + intros p Hp. apply elem_of_app in Hp as [Hp | Hp].
      * apply Hin in Hp as [-> _]. by left.
      * right. by apply IHin.
Qed.

Lemma py_range_sorted (a b : Z) : StronglySorted Z.lt (py_range a b).
Proof.
  unfold py_range. remember (Z.to_nat (b - a)) as n eqn:Hn.
  revert a b Hn. induction n as [|n IH]; intros a b Hn.
  - rewrite seqZ_nil by lia. constructor.
  - rewrite seqZ_cons by lia. constructor.
    + replace (Z.pred (b - a)) with (b - Z.succ a) by lia. apply IH. lia.
    + apply Forall_forall. intros y Hy. apply elem_of_seqZ in Hy. lia.
Qed.

(** X6: the matches of a search of a named sheet come in scan order:
    row by row and, within a row, column by column; no cell is
    reported twice. *)
Theorem search_matches_row_major (files : Storage) (excel_file : string)
    (search_token : string) (search_range : option dict)
    (search_options : string) (name : string) (wb : Workbook)
    (ws : Worksheet) (sr sc : Z) :
  load_workbook files excel_file = Ok wb →
  name ≠ "" →
  get_sheet_by_name wb (Some name) = Ok ws →
  py_index (get_or search_range "start_row" (PyInt 1)) = Ok sr →
  py_index (get_or search_range "start_col" (PyInt 1)) = Ok sc →
  1 ≤ sr → 1 ≤ sc →
  ∃ l,
    search_xl_content files excel_file search_token search_range
      search_options (Some name) = Ok (0, Matches l)
    ∧ StronglySorted row_major l
    ∧ NoDup l.
Proof.
  intros Hload Hname Hws Hsr Hsc Hsr1 Hsc1.
  unfold search_xl_content. rewrite Hload. rewrite select_named by done.
  cbn [for_].
  rewrite (search_sheet_scan wb _ _ _ _ _ _ name ws sr sc) by done.
  cbn [mbind result_bind except_Exception]. eexists. split; [done |].
  rewrite app_nil_l.
  destruct (sheet_hits_sorted ws (contains "i" search_options)
              (contains "w" search_options) (contains "x" search_options)
              (if contains "i" search_options then lower search_token
               else search_token)
              (py_range sr (if end_bound search_range "end_row" =? 0
                            then max_row ws + 1
                            else end_bound search_range "end_row"))
              (py_range sc (if end_bound search_range "end_col" =? 0
                            then max_column ws + 1
                            else end_bound search_range "end_col")))
    as [Hsorted _]; [apply py_range_sorted .. |].
  split; [done |].
  (* a strictly sorted list has no repetition *)
  induction Hsorted as [|p l Hs IH Hp]; constructor; [|done].
  intros Hin. rewrite Forall_forall in Hp. specialize (Hp p Hin).
  unfold row_major in Hp. lia.
Qed.

(** The cells of the sample sheet that hold an ["o"] come in scan
    order. *)
Lemma search_matches_row_major_sample :
  ∃ l,
    search_xl_content sample_files "SampleBook.xlsx" "o" None ""
      (Some "Employee") = Ok (0, Matches l)
    ∧ StronglySorted row_major l.
Proof.
  destruct (search_matches_row_major sample_files "SampleBook.xlsx" "o" None
              "" "Employee" sample_book employee_sheet 1 1)
    as (l & Hl & Hsorted & _);
    [reflexivity | discriminate | reflexivity | reflexivity | reflexivity
    | lia | lia |].
  by exists l.
Defined.

(** ** Errors of the three workers *)

(** X7: a named sheet the workbook does not have: the read lets the
    [KeyError] escape (no status is returned), the search returns status
    1 with its own message, the update returns status 1 and saves
    nothing. *)
Theorem missing_sheet_three_ways (files : Storage) (excel_file : string)
    (name : string) (wb : Workbook) :
  load_workbook files excel_file = Ok wb →
  name ≠ "" →
  name ∉ get_sheet_names wb →
  (∀ index_by_name read_range,
     read_xl_content files excel_file index_by_name read_range (Some name)
     = Raise KeyError)
  ∧ (∀ search_token search_range search_options,
       search_xl_content files excel_file search_token search_range
         search_options (Some name)
       = Ok (1, Message (Invalid_search_parameters_specified KeyError)))
  ∧ (∀ dest_filename updates_matrix cell_style op,
       update_xl_content files excel_file dest_filename updates_matrix
         cell_style (Some name) op
       = (Ok (1, Message (Error_accessing_specified_excel_sheet (Some name)
                            KeyError)), [])).
Proof.
  intros Hload Hname Hmissing.
  assert (get_sheet_by_name wb (Some name) = Raise KeyError) as Hws.
  { clear Hload. unfold get_sheet_names in Hmissing.
    induction wb as [|[title ws] wb IH]; simpl; [done |].
    rewrite fmap_cons in Hmissing.
    apply not_elem_of_cons in Hmissing as [Hne Hrest].
    case_bool_decide as Ht; [by simplify_eq | by apply IH]. }
  split_and!.
  - intros index_by_name read_range. unfold read_xl_content.
    rewrite Hload. cbn [mbind result_bind]. rewrite select_named by done.
    cbn [for_]. unfold read_sheet. rewrite Hws. done.
  - intros search_token search_range search_options.
    unfold search_xl_content. rewrite Hload. rewrite select_named by done.
    cbn [for_]. unfold search_sheet. rewrite Hws. done.
  - intros dest_filename updates_matrix cell_style op.
    unfold update_xl_content. rewrite Hload. unfold update_sheet.
    rewrite Hws. done.
Qed.

(** The sample workbook has no sheet ["Payroll"]. *)
Lemma missing_sheet_three_ways_sample :
  read_xl_content sample_files "SampleBook.xlsx" true None (Some "Payroll")
  = Raise KeyError
  ∧ search_xl_content sample_files "SampleBook.xlsx" "Cole" None ""
      (Some "Payroll")
    = Ok (1, Message (Invalid_search_parameters_specified KeyError)).
Proof.
  destruct (missing_sheet_three_ways sample_files "SampleBook.xlsx" "Payroll"
              sample_book) as (Hread & Hsearch & _).
  - reflexivity.
  - discriminate.
  - vm_compute. intros H.
    repeat (apply elem_of_cons in H as [H | H]; [discriminate |]).
    by apply elem_of_nil in H.
  - split; [apply Hread | apply Hsearch].
Defined.

(** X8: a file that cannot be opened: when loading raises [IOError]
    each worker returns status 1 with the file's name, and the update
    saves nothing; any other exception of the loader escapes from each
    worker. *)
Theorem unreadable_file (files : Storage) (excel_file : string) (e : exn) :
  load_workbook files excel_file = Raise e →
  (e = IOError →
   (∀ index_by_name read_range sheet_name,
      read_xl_content files excel_file index_by_name read_range sheet_name
      = Ok (1, Message (Error_accessing_excel_file excel_file)))
   ∧ (∀ search_token search_range search_options sheet_name,
        search_xl_content files excel_file search_token search_range
          search_options sheet_name
        = Ok (1, Message (Error_accessing_excel_file excel_file)))
   ∧ (∀ dest_filename updates_matrix cell_style sheet_name op,
        update_xl_content files excel_file dest_filename updates_matrix
          cell_style sheet_name op
        = (Ok (1, Message (Error_accessing_excel_file excel_file)), [])))
  ∧ (e ≠ IOError →
     (∀ index_by_name read_range sheet_name,
        read_xl_content files excel_file index_by_name read_range sheet_name
        = Raise e)
     ∧ (∀ search_token search_range search_options sheet_name,
          search_xl_content files excel_file search_token search_range
            search_options sheet_name = Raise e)
     ∧ (∀ dest_filename updates_matrix cell_style sheet_name op,
          update_xl_content files excel_file dest_filename updates_matrix
            cell_style sheet_name op = (Raise e, []))).
Proof.
  intros Hload. split; intros He; split_and!; intros;
    unfold read_xl_content, search_xl_content, update_xl_content;
    rewrite Hload; subst; try done; by destruct e.
Qed.

Lemma unreadable_file_sample :
  read_xl_content sample_files "Other.xlsx" true None None
  = Ok (1, Message (Error_accessing_excel_file "Other.xlsx")).
Proof.
  destruct (unreadable_file sample_files "Other.xlsx" IOError) as [H _];
    [reflexivity |].
  destruct (H eq_refl) as (Hread & _). apply Hread.
Defined.

(** X9: an end bound of -1 is the "no bound" mark: [int(-1) + 1] is 0,
    so a range whose [end_row] (or [end_col]) reads as -1 is read and
    searched exactly as the range without that key. *)
Theorem end_bound_minus_one_is_no_bound (files : Storage)
    (excel_file : string) (range : dict) (k : string) :
  k = "end_row" ∨ k = "end_col" →
  end_bound (Some range) k = 0 →
  (∀ index_by_name sheet_name,
     read_xl_content files excel_file index_by_name (Some range) sheet_name
     = read_xl_content files excel_file index_by_name
         (Some (delete k range)) sheet_name)
  ∧ (∀ search_token search_options sheet_name,
       search_xl_content files excel_file search_token (Some range)
         search_options sheet_name
       = search_xl_content files excel_file search_token
           (Some (delete k range)) search_options sheet_name).
Proof.
  intros Hk Hzero.
  assert (∀ k', k' ≠ k →
            getitem (Some (delete k range)) k' = getitem (Some range) k')
    as Hother.
  { intros k' Hne. unfold getitem. by rewrite lookup_delete_ne. }
  assert (end_bound (Some (delete k range)) k = 0) as Hdel.
  { unfold end_bound, getitem. by rewrite lookup_delete_eq. }
  assert (∀ k', end_bound (Some (delete k range)) k'
                = end_bound (Some range) k') as Hend.
  { intros k'. destruct (decide (k' = k)) as [-> | Hne]; [congruence |].
    unfold end_bound. by rewrite Hother. }
  assert (∀ k' d, k' ≠ k →
            get_or (Some (delete k range)) k' d = get_or (Some range) k' d)
    as Hget.
  { intros k' d Hne. unfold get_or. by rewrite Hother. }
  split; intros; unfold read_xl_content, search_xl_content;
    rewrite !Hend, !Hget; try done; destruct Hk as [-> | ->]; done.
Qed.

(** [end_row: -1] on the sample sheet: the three rows, as without
    [end_row]. *)
Lemma end_bound_minus_one_is_no_bound_sample :
  read_xl_content sample_files "SampleBook.xlsx" false
    (Some {[ "end_row" := PyInt (-1); "start_col" := PyInt 2 ]})
    (Some "Employee")
  = read_xl_content sample_files "SampleBook.xlsx" false
      (Some {[ "start_col" := PyInt 2 ]}) (Some "Employee").
Proof.
  destruct (end_bound_minus_one_is_no_bound sample_files "SampleBook.xlsx"
              {[ "end_row" := PyInt (-1); "start_col" := PyInt 2 ]} "end_row")
    as [Hread _]; [by left | reflexivity |].
  etrans; [apply Hread |]. vm_compute. reflexivity.
Defined.

Lemma py_range_cons (a b : Z) :
  a < b → py_range a b = a :: py_range (a + 1) b.
Proof.
  intros H. unfold py_range. rewrite seqZ_cons by lia.
  do 2 f_equal; lia.
Qed.

Lemma cell_value_below_one (ws : Worksheet) (row col : Z) :
  row < 1 ∨ col < 1 → cell_value ws row col = Raise ValueError.
Proof. intros H. unfold cell_value. by rewrite cell_below_one. Qed.

Lemma read_row_below_one (ws : Worksheet) (dict_keys : list string)
    (start_col : pyval) (sc end_col row : Z) :
  py_index start_col = Ok sc → sc < end_col → row < 1 →
  read_row ws dict_keys start_col end_col row = Raise ValueError.
Proof.
  intros Hsc Hcols Hrow. unfold read_row.
  rewrite (range_from_index _ sc) by done. cbn [mbind result_bind].
  rewrite (py_range_cons sc) by done. cbn [for_].
  by rewrite cell_value_below_one by (by left).
Qed.

Lemma search_cell_below_one (ws : Worksheet) (i w x : bool) (tok : string)
    (row col : Z) (list_ : list (Z * Z)) :
  row < 1 → search_cell ws i w x tok row col list_ = Raise ValueError.
Proof.
  intros Hrow. unfold search_cell.
  by rewrite cell_value_below_one by (by left).
Qed.

(** X10: a start row below 1 is not clamped to 1: when the range is
    not empty the first cell access fails, the read lets the [ValueError]
    escape and the search returns status 1. *)
Theorem start_row_below_one_fails (files : Storage) (excel_file : string)
    (range : option dict) (name : string) (wb : Workbook) (ws : Worksheet)
    (sr sc : Z) :
  load_workbook files excel_file = Ok wb →
  name ≠ "" →
  get_sheet_by_name wb (Some name) = Ok ws →
  py_index (get_or range "start_row" (PyInt 1)) = Ok sr →
  py_index (get_or range "start_col" (PyInt 1)) = Ok sc →
  sr < 1 → 1 ≤ sc →
  sr < resolved (end_bound range "end_row") (max_row ws) →
  sc < resolved (end_bound range "end_col") (max_column ws) →
  (∀ index_by_name,
     read_xl_content files excel_file index_by_name range (Some name)
     = Raise ValueError)
  ∧ (∀ search_token search_options,
       search_xl_content files excel_file search_token range search_options
         (Some name)
       = Ok (1, Message (Invalid_search_parameters_specified ValueError))).
Proof.
  intros Hload Hname Hws Hsr Hsc Hsr0 Hsc1 Hrows Hcols. unfold resolved in *.
  split.
  - intros index_by_name. unfold read_xl_content. rewrite Hload.
    cbn [mbind result_bind]. rewrite select_named by done. cbn [for_].
    unfold read_sheet. rewrite Hws. cbn [mbind result_bind].
    rewrite (read_dict_keys_ok ws index_by_name _ sc) by done.
    cbn [mbind result_bind].
    rewrite (range_from_index _ sr) by done. cbn [mbind result_bind].
    rewrite (py_range_cons sr) by done. cbn [for_].
    rewrite (read_row_below_one ws _ _ sc) by done. reflexivity.
  - intros search_token search_options. unfold search_xl_content.
    rewrite Hload. rewrite select_named by done. cbn [for_].
    unfold search_sheet. rewrite Hws. cbn [mbind result_bind].
    rewrite (range_from_index (get_or range "start_row" (PyInt 1)) sr)
      by done. cbn [mbind result_bind].
    rewrite (py_range_cons sr) by done. cbn [for_].
    rewrite (range_from_index (get_or range "start_col" (PyInt 1)) sc)
      by done. cbn [mbind result_bind].
    rewrite (py_range_cons sc) by done. cbn [for_].
    rewrite search_cell_below_one by done. reflexivity.
Qed.

(** [start_row: 0] on the sample sheet. *)
Lemma start_row_below_one_fails_sample :
  read_xl_content sample_files "SampleBook.xlsx" false
    (Some {[ "start_row" := PyInt 0 ]}) (Some "Employee")
  = Raise ValueError.
Proof.
  destruct (start_row_below_one_fails sample_files "SampleBook.xlsx"
              (Some {[ "start_row" := PyInt 0 ]}) "Employee" sample_book
              employee_sheet 0 1) as [Hread _];
    [reflexivity | discriminate | reflexivity | reflexivity | reflexivity
    | lia | lia | vm_compute; reflexivity | vm_compute; reflexivity |].
  apply Hread.
Defined.

(** ** Overwrite mode *)

(** With an accepted style the style pass rewrites the one cell of the
    entry: the value stays, the font becomes the fresh font of the
    tri-state attributes, the fill becomes the solid fill of the
    background colour when there is one. *)
Lemma style_entry_result (cell_style : option dict) (ws : Worksheet)
    (row_no : Z) (entry : dict) (col : Z) (c : Cell) :
  1 ≤ row_no → entry_int entry "cell_col" = Ok col → 1 ≤ col →
  ws !! (row_no, col) = Some c →
  style_accepted cell_style = true →
  ∃ c', style_entry cell_style ws row_no entry
        = Ok (<[(row_no, col) := c']> ws)
        ∧ value c' = value c
        ∧ (dict_truthy cell_style = false → c' = c)
        ∧ (dict_truthy cell_style = true →
           font c' = font_strike_of cell_style
           ∧ ∀ bg, getitem cell_style "bgColor" = Ok bg →
                   (py_truthy bg = true →
                    PatternFill_of bg "solid" = Ok (fill c'))
                   ∧ (py_truthy bg = false → fill c' = fill c)).
Proof.
  intros Hr Hcol Hc Hws Hacc. unfold style_entry, style_accepted in *.
  destruct (dict_truthy cell_style) eqn:Ht; simpl in Hacc.
  2:{ exists c. rewrite insert_id by done. done. }
  destruct (getitem cell_style "fontColor") as [fc|] eqn:Hfc; [|done].
  destruct (getitem cell_style "bgColor") as [bg|] eqn:Hbg; [|done].
  apply andb_true_iff in Hacc as [Hf Hb]. cbn [mbind result_bind].
  fold (font_strike_of cell_style). unfold Font_truthy.
  assert (∃ c1, (if py_truthy fc
                 then Font_of_color fc ≫= λ f,
                        entry_int entry "cell_col" ≫= λ col0,
                          cell_assign ws row_no col0 (set_font f)
                 else Ok ws) = Ok (<[(row_no, col) := c1]> ws)
                ∧ value c1 = value c ∧ fill c1 = fill c)
    as (c1 & -> & Hv1 & Hf1).
  { destruct (py_truthy fc); simpl in Hf.
    - destruct (Font_of_color fc) as [f|]; [|done]. simpl.
      rewrite Hcol. simpl. rewrite (cell_assign_present _ _ _ c) by done.
      by exists (set_font f c).
    - exists c. by rewrite insert_id. }
  cbn [mbind result_bind]. rewrite Hcol. cbn [mbind result_bind].
  rewrite (cell_assign_present _ _ _ c1) by (done || apply lookup_insert_eq).
  rewrite insert_insert_eq.
  destruct (py_truthy bg) eqn:Hbgt; simpl in Hb.
  - destruct (PatternFill_of bg "solid") as [p|] eqn:Hp; [|done].
    cbn [mbind result_bind].
    rewrite (cell_assign_present _ _ _ (set_font (font_strike_of cell_style) c1))
      by (done || apply lookup_insert_eq).
    rewrite insert_insert_eq.
    exists (set_fill p (set_font (font_strike_of cell_style) c1)).
    split_and!; try done. intros _. split; [done |].
    intros bg' [= <-]. split; [by rewrite Hp | congruence].
  - exists (set_font (font_strike_of cell_style) c1).
    split_and!; try done. intros _. split; [done |].
    intros bg' [= <-]. split; [congruence | done].
Qed.

(** An entry under mode ["w"] goes to its own row and column. *)
Lemma write_entry_own_cell (cell_style : option dict) (entry : dict)
    (row_no : Z) (ws : Worksheet) (row col : Z) (v : pyval) :
  entry_int entry "cell_row" = Ok row → 1 ≤ row →
  entry_int entry "cell_col" = Ok col → 1 ≤ col →
  entry !! "cell_value" = Some v →
  style_accepted cell_style = true →
  ∃ c', write_entry cell_style "w" entry (row_no, ws)
        = Ok (row, <[(row, col) := c']> ws)
        ∧ value c' = v
        ∧ (dict_truthy cell_style = true →
           font c' = font_strike_of cell_style).
Proof.
  intros Hrow Hr Hcol Hc Hv Hacc. unfold write_entry.
  change (String.eqb "w" "w") with true. cbv iota. rewrite Hrow.
  cbn [mbind result_bind]. rewrite Hcol. cbn [mbind result_bind].
  destruct (cell_inserts ws row col Hr Hc) as (c0 & -> & _).
  cbn [mbind result_bind]. unfold getitem at 1. rewrite Hv.
  cbn [mbind result_bind].
  destruct (style_entry_result cell_style
              (<[(row, col) := set_value v c0]> (<[(row, col) := c0]> ws))
              row entry col (set_value v c0))
    as (c' & -> & Hval & _ & Hfont); [done .. | apply lookup_insert_eq | done |].
  cbn [mbind result_bind]. rewrite !insert_insert_eq. exists c'.
  split_and!; [done | done |]. intros Ht. by apply Hfont.
Qed.

Lemma last_value_at_own (updates : list dict) (i : nat) (entry : dict)
    (row col : Z) (v : pyval) :
  updates !! i = Some entry →
  entry_int entry "cell_row" = Ok row →
  entry_int entry "cell_col" = Ok col → entry !! "cell_value" = Some v →
  (∀ (j : nat) e, (i < j)%nat → updates !! j = Some e →
     ¬ (entry_int e "cell_row" = Ok row ∧ entry_int e "cell_col" = Ok col)) →
  last_value_at updates row col = Some v.
Proof.
  revert i. induction updates as [|e rest IH]; intros i Hi Hrow Hcol Hv Hlater.
  - done.
  - simpl. destruct i as [|i]; simpl in Hi.
    + simplify_eq.
      assert (last_value_at rest row col = None) as ->.
      { clear IH Hv. induction rest as [|e' rest IH']; [done |]. simpl.
        rewrite IH'.
        - rewrite bool_decide_eq_false_2; [done |].
          by apply (Hlater 1%nat e'); [lia |].
        - intros j e1 Hj He1. apply (Hlater (S j) e1); [lia |].
          destruct j; [lia |]. done. }
      by rewrite bool_decide_eq_true_2.
    + rewrite (IH i Hi Hrow Hcol Hv); [done |].
      intros j e1 Hj He1. apply (Hlater (S j) e1); [lia | done].
Qed.

Lemma last_value_at_none (updates : list dict) (row col : Z) :
  Forall (λ e, entry_addressed e = true) updates →
  (∀ e, e ∈ updates →
     ¬ (entry_int e "cell_row" = Ok row ∧ entry_int e "cell_col" = Ok col)) →
  last_value_at updates row col = None.
Proof.
  intros Hall Hno. induction Hall as [|e rest He Hall IH]; [done |].
  simpl. rewrite IH by (intros; apply Hno; by right).
  rewrite bool_decide_eq_false_2; [done |]. apply Hno. by left.
Qed.

(** The loop of [update_xl_content] in mode ["w"]: every entry goes to
    the cell it names; of the entries naming one cell the last wins. *)
Lemma write_loop_own_cells (cell_style : option dict) (updates : list dict)
    (row_no : Z) (ws : Worksheet) :
  Forall (λ e, entry_addressed e = true) updates →
  style_accepted cell_style = true →
  ∃ row' ws', for_ updates (write_entry cell_style "w") (row_no, ws)
              = Ok (row', ws')
    ∧ (∀ r c, last_value_at updates r c = None →
              ws' !! (r, c) = ws !! (r, c))
    ∧ (∀ r c v, last_value_at updates r c = Some v →
                ∃ cl, ws' !! (r, c) = Some cl ∧ value cl = v
                      ∧ (dict_truthy cell_style = true →
                         font cl = font_strike_of cell_style)).
Proof.
  intros Hall Hacc. revert row_no ws.
  induction Hall as [|e rest He Hall IH]; intros row_no ws.
  - exists row_no, ws. by split_and!.
  - unfold entry_addressed in He.
    destruct (entry_int e "cell_row") as [r0|] eqn:Hr0; [|done].
    destruct (entry_int e "cell_col") as [c0|] eqn:Hc0; [|done].
    destruct (e !! "cell_value") as [v0|] eqn:Hv0; [|done].
    apply andb_true_iff in He as [Hr Hc].
    apply Z.leb_le in Hr. apply Z.leb_le in Hc.
    destruct (write_entry_own_cell cell_style e row_no ws r0 c0 v0)
      as (c' & Hw & Hval & Hfont); [done .. |].
    destruct (IH r0 (<[(r0, c0) := c']> ws)) as (row' & ws' & Hfor & HB & HC).
    exists row', ws'. cbn [for_]. rewrite Hw. cbn [mbind result_bind].
    split_and!; [done | |]; cbn [last_value_at].
    + intros r c Hl. destruct (last_value_at rest r c) eqn:Hrest; [done |].
      case_bool_decide as Hrc; [congruence |].
      rewrite HB by done. apply lookup_insert_ne.
      intros [= <- <-]. by apply Hrc.
    + intros r c v Hl. destruct (last_value_at rest r c) as [v'|] eqn:Hrest.
      * simplify_eq. by apply HC.
      * case_bool_decide as Hrc; [|done]. destruct Hrc as [Hr' Hc'].
        assert (r0 = r) as -> by congruence.
        assert (c0 = c) as -> by congruence.
        exists c'. rewrite HB by done. rewrite lookup_insert_eq.
        split_and!; [done | congruence | done].
Qed.

(** Mode ["w"] whose entries all name a cell: the mutation goes through
    and leaves each named cell with the value of the last entry naming
    it. *)
Lemma update_sheet_overwrite (wb : Workbook) (updates : list dict)
    (first : dict) (cell_style : option dict) (sheet_name : option string)
    (ws : Worksheet) :
  get_sheet_by_name wb sheet_name = Ok ws →
  updates !! 0%nat = Some first →
  Forall (λ e, entry_addressed e = true) updates →
  style_accepted cell_style = true →
  ∃ ws', update_sheet wb (Some updates) cell_style sheet_name "w"
         = Ok (with_sheet wb sheet_name ws')
    ∧ (∀ r c, last_value_at updates r c = None →
              ws' !! (r, c) = ws !! (r, c))
    ∧ (∀ r c v, last_value_at updates r c = Some v →
                ∃ cl, ws' !! (r, c) = Some cl ∧ value cl = v
                      ∧ (dict_truthy cell_style = true →
                         font cl = font_strike_of cell_style)).
Proof.
  intros Hws Hfirst Hall Hacc. unfold update_sheet. rewrite Hws.
  cbn [mbind result_bind]. rewrite (list_getitem_first _ _ Hfirst).
  cbn [mbind result_bind].
  assert (entry_addressed first = true) as Hf.
  { rewrite Forall_forall in Hall. apply Hall.
    by apply list_elem_of_lookup_2 in Hfirst. }
  unfold entry_addressed in Hf.
  destruct (entry_int first "cell_row") as [r0|] eqn:Hr0; [|done].
  destruct (entry_int first "cell_col") as [c0|]; [|done].
  destruct (first !! "cell_value"); [|done].
  apply andb_true_iff in Hf as [Hr _]. apply Z.leb_le in Hr.
  cbn [mbind result_bind].
  assert ((r0 =? 0) = false) as -> by (apply Z.eqb_neq; lia).
  change (String.eqb "w" "w" && false) with false. cbv iota.
  change (String.eqb "w" "i") with false.
  change (String.eqb "w" "a") with false. cbv iota.
  cbn [mbind result_bind].
  destruct (write_loop_own_cells cell_style updates r0 ws Hall Hacc)
    as (row' & ws' & -> & HB & HC).
  exists ws'. by split_and!.
Qed.

(** X11: in overwrite mode (["w"], the first entry not naming row 0)
    every entry is written at the row and column it names; of the
    entries naming one cell the last wins; every cell no entry names is
    left as it was, and so is every other sheet. *)
Theorem overwrite_writes_named_cells (files : Storage) (excel_file : string)
    (dest_filename : option string) (wb : Workbook) (updates : list dict)
    (first : dict) (cell_style : option dict) (sheet_name : option string)
    (ws : Worksheet) :
  load_workbook files excel_file = Ok wb →
  get_sheet_by_name wb sheet_name = Ok ws →
  updates !! 0%nat = Some first →
  Forall (λ e, entry_addressed e = true) updates →
  style_accepted cell_style = true →
  ∃ ret dest wb' ws',
    update_xl_content files excel_file dest_filename (Some updates)
      cell_style sheet_name "w" = (ret, [(dest, wb')])
    ∧ get_sheet_by_name wb' sheet_name = Ok ws'
    ∧ (∀ other, other ≠ sheet_name →
         get_sheet_by_name wb' other = get_sheet_by_name wb other)
    ∧ (∀ (i : nat) entry row col v,
         updates !! i = Some entry →
         entry_int entry "cell_row" = Ok row →
         entry_int entry "cell_col" = Ok col →
         entry !! "cell_value" = Some v →
         (∀ (j : nat) e, (i < j)%nat → updates !! j = Some e →
            ¬ (entry_int e "cell_row" = Ok row
               ∧ entry_int e "cell_col" = Ok col)) →
         stored_value ws' row col = v)
    ∧ (∀ row col,
         (∀ e, e ∈ updates →
            ¬ (entry_int e "cell_row" = Ok row
               ∧ entry_int e "cell_col" = Ok col)) →
         ws' !! (row, col) = ws !! (row, col)).
Proof.
  intros Hload Hws Hfirst Hall Hacc.
  destruct (update_sheet_overwrite wb updates first cell_style sheet_name ws)
    as (ws' & Hupd & HB & HC); [done .. |].
  destruct (update_xl_content_saves files excel_file dest_filename
              (Some updates) cell_style sheet_name "w" wb _ Hload Hupd)
    as (ret & dest & Hret & _).
  exists ret, dest, (with_sheet wb sheet_name ws'), ws'.
  split_and!; [done | by eapply get_with_sheet
              | by intros; apply get_with_sheet_other | |].
  - intros i entry row col v Hi Hrow Hcol Hv Hlater.
    destruct (HC row col v) as (cl & Hcl & Hval & _).
    { by apply (last_value_at_own updates i entry). }
    unfold stored_value. by rewrite Hcl.
  - intros row col Hno. apply HB. by apply last_value_at_none.
Qed.

(** The update of the module's documentation, on the sample sheet: two
    entries in row 4, the cell (3, 1) untouched. *)
Lemma overwrite_writes_named_cells_sample :
  ∃ ret dest wb' ws',
    update_xl_content sample_files "SampleBook.xlsx" None
      (Some [update_entry 4 1 "D333444"; update_entry 4 2 "John Smith"])
      None (Some "Employee") "w" = (ret, [(dest, wb')])
    ∧ get_sheet_by_name wb' (Some "Employee") = Ok ws'
    ∧ stored_value ws' 4 2 = PyStr "John Smith"
    ∧ ws' !! (3, 1) = employee_sheet !! (3, 1).
Proof.
  destruct (overwrite_writes_named_cells sample_files "SampleBook.xlsx" None
              sample_book
              [update_entry 4 1 "D333444"; update_entry 4 2 "John Smith"]
              (update_entry 4 1 "D333444") None (Some "Employee")
              employee_sheet)
    as (ret & dest & wb' & ws' & Hret & Hget & _ & Hown & Hrest);
    [reflexivity | reflexivity | reflexivity | repeat constructor
    | reflexivity |].
  exists ret, dest, wb', ws'. split_and!; [done | done | |].
  - apply (Hown 1%nat (update_entry 4 2 "John Smith")); try reflexivity.
    intros [|[|j]] e Hj He; try lia; simpl in He; simplify_eq.
  - apply Hrest. intros e He [Hr _].
    repeat (apply elem_of_cons in He as [-> | He];
            [vm_compute in Hr; congruence |]).
    by apply elem_of_nil in He.
Defined.

Lemma last_value_at_written (updates : list dict) (entry : dict)
    (row col : Z) :
  entry ∈ updates → entry_addressed entry = true →
  entry_int entry "cell_row" = Ok row → entry_int entry "cell_col" = Ok col →
  is_Some (last_value_at updates row col).
Proof.
  intros Hin Hw Hrow Hcol. induction updates as [|e rest IH].
  - by apply elem_of_nil in Hin.
  - simpl. destruct (last_value_at rest row col) as [v|] eqn:Hl;
      [by eexists |].
    apply elem_of_cons in Hin as [<- | Hin].
    + rewrite bool_decide_eq_true_2 by done.
      unfold entry_addressed in Hw. rewrite Hrow, Hcol in Hw.
      destruct (entry !! "cell_value"); [by eexists | done].
    + by destruct (IH Hin).
Qed.

Lemma tri_state_bold (cell_style : option dict) (k : string)
    (on off : Font → Font) (f : Font) :
  (∀ g, bold (on g) = bold g) → (∀ g, bold (off g) = bold g) →
  bold (tri_state cell_style k on off f) = bold f.
Proof.
  intros Hon Hoff. unfold tri_state.
  destruct (getitem cell_style k) as [v|]; [|done].
  destruct (py_eq v (PyBool true)); [done |].
  by destruct (py_eq v (PyBool false)).
Qed.

(** Bold is on in the fresh font iff the style's [bold] equals [True]. *)
Lemma font_strike_bold (cell_style : option dict) :
  bold (font_strike_of cell_style)
  = match getitem cell_style "bold" with
    | Ok v => py_eq v (PyBool true)
    | Raise _ => false
    end.
Proof.
  unfold font_strike_of. rewrite !tri_state_bold by done.
  unfold tri_state. destruct (getitem cell_style "bold") as [v|]; [|done].
  destruct (py_eq v (PyBool true)); [done |].
  by destruct (py_eq v (PyBool false)).
Qed.

(** X12: with a style, every cell written in overwrite mode ends with
    a fresh font that keeps nothing of the font the cell had: no colour,
    bold on iff the style's [bold] equals [True] (an absent [bold] turns
    bold off), and the other attributes as the style's tri-state fields
    say. *)
Theorem styled_cell_gets_fresh_font (files : Storage) (excel_file : string)
    (dest_filename : option string) (wb : Workbook) (updates : list dict)
    (first : dict) (cell_style : option dict) (sheet_name : option string)
    (ws : Worksheet) :
  load_workbook files excel_file = Ok wb →
  get_sheet_by_name wb sheet_name = Ok ws →
  updates !! 0%nat = Some first →
  Forall (λ e, entry_addressed e = true) updates →
  style_accepted cell_style = true →
  dict_truthy cell_style = true →
  ∃ ret dest wb' ws',
    update_xl_content files excel_file dest_filename (Some updates)
      cell_style sheet_name "w" = (ret, [(dest, wb')])
    ∧ get_sheet_by_name wb' sheet_name = Ok ws'
    ∧ ∀ entry row col,
        entry ∈ updates →
        entry_int entry "cell_row" = Ok row →
        entry_int entry "cell_col" = Ok col →
        ∃ cl, ws' !! (row, col) = Some cl
          ∧ font cl = font_strike_of cell_style
          ∧ color (font cl) = None
          ∧ bold (font cl)
            = match getitem cell_style "bold" with
              | Ok v => py_eq v (PyBool true)
              | Raise _ => false
              end.
Proof.
  intros Hload Hws Hfirst Hall Hacc Ht.
  destruct (update_sheet_overwrite wb updates first cell_style sheet_name ws)
    as (ws' & Hupd & HB & HC); [done .. |].
  destruct (update_xl_content_saves files excel_file dest_filename
              (Some updates) cell_style sheet_name "w" wb _ Hload Hupd)
    as (ret & dest & Hret & _).
  exists ret, dest, (with_sheet wb sheet_name ws'), ws'.
  split_and!; [done | by eapply get_with_sheet |].
  intros entry row col Hin Hrow Hcol.
  rewrite Forall_forall in Hall.
  destruct (last_value_at_written updates entry row col Hin (Hall _ Hin)
              Hrow Hcol) as [v Hv].
  destruct (HC row col v Hv) as (cl & Hcl & _ & Hfont).
  exists cl. rewrite (Hfont Ht). split_and!; [done | done | |].
  - apply font_strike_color.
  - apply font_strike_bold.
Qed.

(** A cell that is bold in the workbook, updated with a style that only
    names the two colours: bold is off afterwards. *)
Lemma styled_cell_gets_fresh_font_sample :
  ∃ ret dest wb' ws' cl,
    update_xl_content
      (files_with "book.xlsx"
         [("S", {[ (1, 1) := set_font (set_bold true Font_default)
                               (text_cell "total") ]})])
      "book.xlsx" None (Some [update_entry 1 1 "Total"])
      (Some {[ "fontColor" := PyStr "006100"; "bgColor" := PyStr "C6EFCE" ]})
      (Some "S") "w" = (ret, [(dest, wb')])
    ∧ get_sheet_by_name wb' (Some "S") = Ok ws'
    ∧ ws' !! (1, 1) = Some cl
    ∧ bold (font cl) = false.
Proof.
  destruct (styled_cell_gets_fresh_font
              (files_with "book.xlsx"
                 [("S", {[ (1, 1) := set_font (set_bold true Font_default)
                                       (text_cell "total") ]})])
              "book.xlsx" None
              [("S", {[ (1, 1) := set_font (set_bold true Font_default)
                                    (text_cell "total") ]})]
              [update_entry 1 1 "Total"] (update_entry 1 1 "Total")
              (Some {[ "fontColor" := PyStr "006100";
                       "bgColor" := PyStr "C6EFCE" ]})
              (Some "S")
              {[ (1, 1) := set_font (set_bold true Font_default)
                             (text_cell "total") ]})
    as (ret & dest & wb' & ws' & Hret & Hget & Hcells);
    [reflexivity | reflexivity | reflexivity | repeat constructor
    | reflexivity | reflexivity |].
  destruct (Hcells (update_entry 1 1 "Total") 1 1)
    as (cl & Hcl & _ & _ & Hbold); [by left | reflexivity | reflexivity |].
  exists ret, dest, wb', ws', cl. split_and!; [done | done | done |].
  rewrite Hbold. reflexivity.
Defined.

(** ** Writing, then reading *)

Lemma py_range_singleton (a : Z) : py_range a (a + 1) = [a].
Proof.
  unfold py_range. replace (a + 1 - a) with 1 by lia. reflexivity.
Qed.

(** X13: round trip: a value written at (row, col) in overwrite mode
    and read back from the saved workbook, with the range reduced to
    that cell and keys by column number, comes back as the one record
    [{col_<col>: str(value)}]. *)
Theorem write_then_read_back (files : Storage) (excel_file : string)
    (dest_filename : option string) (wb : Workbook)
    (cell_style : option dict) (name : string) (ws : Worksheet)
    (row col : Z) (v : pyval) :
  load_workbook files excel_file = Ok wb →
  name ≠ "" →
  get_sheet_by_name wb (Some name) = Ok ws →
  1 ≤ row → 1 ≤ col →
  style_accepted cell_style = true →
  ∃ ret dest wb',
    update_xl_content files excel_file dest_filename
      (Some [ {[ "cell_row" := PyInt row; "cell_col" := PyInt col;
                 "cell_value" := v ]} ])
      cell_style (Some name) "w" = (ret, [(dest, wb')])
    ∧ ∀ files',
        load_workbook files' dest = Ok wb' →
        read_xl_content files' dest false
          (Some {[ "start_row" := PyInt row; "end_row" := PyInt row;
                   "start_col" := PyInt col; "end_col" := PyInt col ]})
          (Some name)
        = Ok (0, Sheets
                  {[ "sheet_index_0"
                     := [ {[ "col_" +:+ py_str (PyInt col) := py_str v ]} ]
                  ]}).
Proof.
  intros Hload Hname Hws Hrow Hcol Hacc.
  set (entry := ({[ "cell_row" := PyInt row; "cell_col" := PyInt col;
                    "cell_value" := v ]} : dict)).
  assert (entry_int entry "cell_row" = Ok row) as Her by reflexivity.
  assert (entry_int entry "cell_col" = Ok col) as Hec by reflexivity.
  assert (entry !! "cell_value" = Some v) as Hev by reflexivity.
  destruct (update_sheet_overwrite wb [entry] entry cell_style (Some name)
              ws) as (ws' & Hupd & _ & HC); [done | reflexivity | | done |].
  { constructor; [|constructor]. unfold entry_addressed.
    rewrite Her, Hec, Hev. apply andb_true_iff. split; by apply Z.leb_le. }
  assert (stored_value ws' row col = v) as Hval.
  { destruct (HC row col v) as (cl & Hcl & Hv' & _).
    - cbn [last_value_at]. by rewrite bool_decide_eq_true_2.
    - unfold stored_value. by rewrite Hcl. }
  destruct (update_xl_content_saves files excel_file dest_filename
              (Some [entry]) cell_style (Some name) "w" wb _ Hload Hupd)
    as (ret & dest & Hret & _).
  exists ret, dest, (with_sheet wb (Some name) ws'). split; [done |].
  intros files' Hload'.
  rewrite (read_named_sheet files' dest false _ name
             (with_sheet wb (Some name) ws') ws' row col);
    [| done | done | by eapply get_with_sheet | reflexivity | reflexivity
     | done | done].
  assert (end_bound (Some ({[ "start_row" := PyInt row;
                              "end_row" := PyInt row;
                              "start_col" := PyInt col;
                              "end_col" := PyInt col ]} : dict)) "end_row"
          = row + 1) as -> by reflexivity.
  assert (end_bound (Some ({[ "start_row" := PyInt row;
                              "end_row" := PyInt row;
                              "start_col" := PyInt col;
                              "end_col" := PyInt col ]} : dict)) "end_col"
          = col + 1) as -> by reflexivity.
  rewrite !resolved_given by lia. rewrite !py_range_singleton.
  unfold sheet_table, row_record, column_key. cbn [fmap list_fmap foldl].
  rewrite Hval. by rewrite insert_empty.
Qed.

(** The value ["D333444"] written at (4, 1) of the sample sheet and read
    back from the saved file. *)
Lemma write_then_read_back_sample :
  ∃ ret dest wb',
    update_xl_content sample_files "SampleBook.xlsx" None
      (Some [ {[ "cell_row" := PyInt 4; "cell_col" := PyInt 1;
                 "cell_value" := PyStr "D333444" ]} ])
      None (Some "Employee") "w" = (ret, [(dest, wb')])
    ∧ read_xl_content (files_with dest wb') dest false
        (Some {[ "start_row" := PyInt 4; "end_row" := PyInt 4;
                 "start_col" := PyInt 1; "end_col" := PyInt 1 ]})
        (Some "Employee")
      = Ok (0, Sheets {[ "sheet_index_0" := [ {[ "col_1" := "D333444" ]} ] ]}).
Proof.
  destruct (write_then_read_back sample_files "SampleBook.xlsx" None
              sample_book None "Employee" employee_sheet 4 1
              (PyStr "D333444"))
    as (ret & dest & wb' & Hret & Hread);
    [reflexivity | discriminate | reflexivity | lia | lia | reflexivity |].
  exists ret, dest, wb'. split; [done |]. apply Hread.
  unfold files_with. simpl. by rewrite String.eqb_refl.
Defined.

(** ** Row 0 after the first entry *)

Lemma write_entry_row_below_one (cell_style : option dict) (entry : dict)
    (st : Z * Worksheet) (row : Z) :
  entry_int entry "cell_row" = Ok row → row < 1 →
  ∃ e, write_entry cell_style "w" entry st = Raise e.
Proof.
  intros Hrow Hlt. destruct st as [row_no ws]. unfold write_entry.
  change (String.eqb "w" "w") with true. cbv iota. rewrite Hrow.
  cbn [mbind result_bind].
  destruct (entry_int entry "cell_col") as [col|e1]; [|by exists e1].
  cbn [mbind result_bind]. rewrite cell_below_one by (by left).
  by exists ValueError.
Qed.

(** X14: row 0 means "append" in the first entry only: under mode
    ["w"], when the first entry names another row, an entry that names
    row 0 (or any row below 1) makes the update fail with status 1, and
    nothing is saved. *)
Theorem row_zero_in_later_entry_fails (files : Storage) (excel_file : string)
    (dest_filename : option string) (wb : Workbook) (updates : list dict)
    (first entry : dict) (cell_style : option dict)
    (sheet_name : option string) (r0 row : Z) :
  load_workbook files excel_file = Ok wb →
  updates !! 0%nat = Some first →
  entry_int first "cell_row" = Ok r0 → r0 ≠ 0 →
  entry ∈ updates →
  entry_int entry "cell_row" = Ok row → row < 1 →
  ∃ e,
    update_xl_content files excel_file dest_filename (Some updates)
      cell_style sheet_name "w"
    = (Ok (1, Message (Error_accessing_specified_excel_sheet sheet_name e)),
       []).
Proof.
  intros Hload Hfirst Hr0 Hne Hin Hrow Hlt.
  assert (∃ e, update_sheet wb (Some updates) cell_style sheet_name "w"
               = Raise e) as [e He].
  { unfold update_sheet.
    destruct (get_sheet_by_name wb sheet_name) as [ws|e1]; [|by exists e1].
    cbn [mbind result_bind]. rewrite (list_getitem_first _ _ Hfirst).
    cbn [mbind result_bind]. rewrite Hr0. cbn [mbind result_bind].
    assert ((r0 =? 0) = false) as -> by (by apply Z.eqb_neq).
    change (String.eqb "w" "w" && false) with false. cbv iota.
    change (String.eqb "w" "i") with false.
    change (String.eqb "w" "a") with false. cbv iota.
    cbn [mbind result_bind].
    destruct (for_raises updates (write_entry cell_style "w") (r0, ws) entry
                Hin) as [e ->].
    - intros st'. by apply (write_entry_row_below_one _ _ _ row).
    - by exists e. }
  exists e. unfold update_xl_content. by rewrite Hload, He.
Qed.

(** A batch whose second entry names row 0, on the sample sheet. *)
Lemma row_zero_in_later_entry_fails_sample :
  ∃ e,
    update_xl_content sample_files "SampleBook.xlsx" None
      (Some [update_entry 4 1 "D333444"; update_entry 0 2 "John Smith"])
      None (Some "Employee") "w"
    = (Ok (1, Message
                (Error_accessing_specified_excel_sheet (Some "Employee") e)),
       []).
Proof.
  apply (row_zero_in_later_entry_fails sample_files "SampleBook.xlsx" None
           sample_book _ (update_entry 4 1 "D333444")
           (update_entry 0 2 "John Smith") None (Some "Employee") 4 0);
    [reflexivity | reflexivity | reflexivity | lia
    | by right; left | reflexivity | lia].
Defined.

(** ** Insert mode *)

Lemma shift_key_inj (idx : Z) : Inj (=) (=) (shift_key idx).
Proof.
  intros [r c] [r' c']. unfold shift_key. simpl.
  destruct (idx =? 0) eqn:E0; simpl.
  - intros [= ? ?]. f_equal; lia.
  - destruct (r <? idx) eqn:E1, (r' <? idx) eqn:E2; intros [= ? ?];
      f_equal; lia.
Qed.

(** Creating the cells of a range keeps every stored value. *)
Lemma fill_cols_values (ws : Worksheet) (r : Z) (cols : list Z) :
  1 ≤ r → Forall (λ c, 1 ≤ c) cols →
  ∃ ws', for_ cols (λ c ws2, '(_, ws3) ← cell ws2 r c; Ok ws3) ws = Ok ws'
         ∧ ∀ r' c', stored_value ws' r' c' = stored_value ws r' c'.
Proof.
  intros Hr Hcols. revert ws.
  induction Hcols as [|c cols Hc Hcols IH]; intros ws; cbn [for_].
  - by exists ws.
  - destruct (cell_inserts ws r c Hr Hc) as (c0 & -> & Hv).
    cbn [mbind result_bind].
    destruct (IH (<[(r, c) := c0]> ws)) as (ws' & -> & Hsame).
    exists ws'. split; [done |]. intros r' c'. rewrite Hsame.
    unfold stored_value.
    destruct (decide ((r, c) = (r', c'))) as [[= <- <-] | Hne].
    + rewrite lookup_insert_eq. exact Hv.
    + by rewrite lookup_insert_ne.
Qed.

Lemma fill_loop_values (rows : list Z) (last_col : Z) (ws : Worksheet) :
  Forall (λ r, 1 ≤ r) rows →
  ∃ ws', for_ rows (λ r ws1,
           for_ (py_range 1 (last_col + 1)) (λ c ws2,
             '(_, ws3) ← cell ws2 r c; Ok ws3) ws1) ws = Ok ws'
         ∧ ∀ r c, stored_value ws' r c = stored_value ws r c.
Proof.
  intros Hrows. revert ws.
  induction Hrows as [|r rows Hr Hrows IH]; intros ws; cbn [for_].
  - by exists ws.
  - destruct (fill_cols_values ws r (py_range 1 (last_col + 1)) Hr)
      as (ws1 & -> & H1).
    { apply Forall_forall. intros c Hc. apply py_range_ge in Hc. lia. }
    cbn [mbind result_bind].
    destruct (IH ws1) as (ws' & -> & H2).
    exists ws'. split; [done |]. intros r' c'. by rewrite H2, H1.
Qed.

Lemma fill_rows_values (ws : Worksheet) (min_row : Z) :
  1 ≤ min_row →
  ∃ ws', fill_rows ws min_row = Ok ws'
         ∧ ∀ r c, stored_value ws' r c = stored_value ws r c.
Proof.
  intros Hmin. unfold fill_rows. apply fill_loop_values.
  apply Forall_forall. intros r Hr. apply py_range_ge in Hr. lia.
Qed.

(** Inserting a row at [idx] (at least 1): the rows above keep their
    values, row [idx] is empty, each row from [idx] on is found one row
    further down. *)
Lemma insert_rows_values (ws : Worksheet) (idx : Z) :
  1 ≤ idx →
  ∃ ws', insert_rows ws idx = Ok ws'
    ∧ (∀ r c, r < idx → stored_value ws' r c = stored_value ws r c)
    ∧ (∀ c, ws' !! (idx, c) = None)
    ∧ (∀ r c, idx < r → stored_value ws' r c = stored_value ws (r - 1) c).
Proof.
  intros Hidx. unfold insert_rows.
  assert ((idx =? 0) = false) as E0 by (apply Z.eqb_neq; lia).
  rewrite E0. cbv iota.
  destruct (fill_rows_values ws idx Hidx) as (ws1 & -> & Hsame).
  cbn [mbind result_bind]. eexists. split; [reflexivity |].
  assert (list_to_map
            ((λ '(r, c, x),
               if negb false && (r <? idx) then (r, c, x)
               else (r + 1, c, x)) <$> map_to_list ws1)
          = (kmap (shift_key idx) ws1 : Worksheet)) as ->.
  { unfold kmap. f_equal. apply list_fmap_ext. intros i [[r c] x] _.
    unfold prod_map, shift_key. simpl. rewrite E0. simpl.
    by destruct (r <? idx). }
  split_and!.
  - intros r c Hr. rewrite <- Hsame. unfold stored_value.
    replace (r, c) with (shift_key idx (r, c)) at 1.
    + rewrite lookup_kmap; [done | apply shift_key_inj].
    + unfold shift_key. simpl. rewrite E0. simpl.
      by destruct (r <? idx) eqn:E; [|lia].
  - intros c. apply lookup_kmap_None; [apply shift_key_inj |].
    intros [r' c'] Heq. exfalso. unfold shift_key in Heq. simpl in Heq.
    rewrite E0 in Heq. simpl in Heq.
    destruct (r' <? idx) eqn:E; injection Heq as ? ?; lia.
  - intros r c Hr. rewrite <- Hsame. unfold stored_value.
    replace (r, c) with (shift_key idx (r - 1, c)) at 1.
    + rewrite lookup_kmap; [done | apply shift_key_inj].
    + unfold shift_key. simpl. rewrite E0. simpl.
      destruct (r - 1 <? idx) eqn:E; [lia |]. f_equal. lia.
Qed.

(** X15: insert mode (["i"]) with a first entry that names row r (at
    least 1): the rows above r keep their values, every row from r on is
    found one row further down, and row r holds the values of the batch,
    each at its own column (all entries go to row r, whatever row the
    others name) and nothing in the other columns. *)
Theorem insert_shifts_rows_down (files : Storage) (excel_file : string)
    (dest_filename : option string) (wb : Workbook) (updates : list dict)
    (first : dict) (r0 : Z) (cell_style : option dict)
    (sheet_name : option string) (ws : Worksheet) :
  load_workbook files excel_file = Ok wb →
  get_sheet_by_name wb sheet_name = Ok ws →
  updates !! 0%nat = Some first → entry_int first "cell_row" = Ok r0 →
  1 ≤ r0 →
  Forall (λ e, entry_writable e = true) updates →
  style_accepted cell_style = true →
  ∃ ret dest wb' ws',
    update_xl_content files excel_file dest_filename (Some updates)
      cell_style sheet_name "i" = (ret, [(dest, wb')])
    ∧ get_sheet_by_name wb' sheet_name = Ok ws'
    ∧ (∀ r c, r < r0 → stored_value ws' r c = stored_value ws r c)
    ∧ (∀ r c, r0 < r → stored_value ws' r c = stored_value ws (r - 1) c)
    ∧ (∀ (i : nat) entry col v,
         updates !! i = Some entry → entry_int entry "cell_col" = Ok col →
         entry !! "cell_value" = Some v →
         (∀ (j : nat) e, (i < j)%nat → updates !! j = Some e →
                         entry_int e "cell_col" ≠ Ok col) →
         stored_value ws' r0 col = v)
    ∧ (∀ col, (∀ e, e ∈ updates → entry_int e "cell_col" ≠ Ok col) →
              stored_value ws' r0 col = PyNone).
Proof.
  intros Hload Hws Hfirst Hrow Hr0 Hall Hacc.
  destruct (insert_rows_values ws r0 Hr0) as (ws1 & Hins & Habove & Hrow0 & Hbelow).
  assert (∃ ws',
    update_sheet wb (Some updates) cell_style sheet_name "i"
    = Ok (with_sheet wb sheet_name ws')
    ∧ (∀ r c, r ≠ r0 → ws' !! (r, c) = ws1 !! (r, c))
    ∧ (∀ c, last_value updates c = None →
            ws' !! (r0, c) = ws1 !! (r0, c))
    ∧ (∀ c v, last_value updates c = Some v →
              ∃ cl, ws' !! (r0, c) = Some cl ∧ value cl = v
                    ∧ (dict_truthy cell_style = true →
                       color (font cl) = None)))
    as (ws' & Hupd & HA & HB & HC).
  { unfold update_sheet. rewrite Hws. cbn [mbind result_bind].
    rewrite (list_getitem_first _ _ Hfirst). cbn [mbind result_bind].
    rewrite Hrow. cbn [mbind result_bind].
    change (String.eqb "i" "w" && (r0 =? 0)) with false. cbv iota.
    change (String.eqb "i" "i") with true. cbv iota. rewrite Hins.
    cbn [mbind result_bind]. change (String.eqb "i" "a") with false.
    cbv iota.
    destruct (write_loop_fixed_row cell_style "i" updates r0 ws1)
      as (ws' & -> & HA & HB & HC); [done .. |].
    exists ws'. by split_and!. }
  destruct (update_xl_content_saves files excel_file dest_filename
              (Some updates) cell_style sheet_name "i" wb _ Hload Hupd)
    as (ret & dest & Hret & _).
  exists ret, dest, (with_sheet wb sheet_name ws'), ws'.
  split_and!; [done | by eapply get_with_sheet | | | |].
  - intros r c Hr. rewrite <- Habove by done. unfold stored_value.
    rewrite HA by lia. done.
  - intros r c Hr. rewrite <- Hbelow by done. unfold stored_value.
    rewrite HA by lia. done.
  - intros i entry col v Hi Hcol Hv Hlater.
    destruct (HC col v) as (cl & Hcl & Hval & _).
    { by apply (last_value_own updates i entry). }
    unfold stored_value. by rewrite Hcl.
  - intros col Hno. unfold stored_value. rewrite HB, Hrow0; [done |].
    clear -Hno. induction updates as [|e rest IH]; [done |]. simpl.
    rewrite IH by (intros; apply Hno; by right).
    rewrite bool_decide_eq_false_2; [done |]. apply Hno. by left.
Qed.

(** A row inserted at row 2 of the sample sheet: "John Smith" moves from
    row 2 to row 3, the new row 2 has the value in column 1 and nothing
    in column 2. *)
Lemma insert_shifts_rows_down_sample :
  ∃ ret dest wb' ws',
    update_xl_content sample_files "SampleBook.xlsx" None
      (Some [update_entry 2 1 "Mo Abou"]) None (Some "Employee") "i"
    = (ret, [(dest, wb')])
    ∧ get_sheet_by_name wb' (Some "Employee") = Ok ws'
    ∧ stored_value ws' 2 1 = PyStr "Mo Abou"
    ∧ stored_value ws' 2 2 = PyNone
    ∧ stored_value ws' 3 1 = PyStr "John Smith".
Proof.
  destruct (insert_shifts_rows_down sample_files "SampleBook.xlsx" None
              sample_book [update_entry 2 1 "Mo Abou"]
              (update_entry 2 1 "Mo Abou") 2 None (Some "Employee")
              employee_sheet)
    as (ret & dest & wb' & ws' & Hret & Hget & _ & Hbelow & Hown & Hblank);
    [reflexivity | reflexivity | reflexivity | reflexivity | lia
    | repeat constructor | reflexivity |].
  exists ret, dest, wb', ws'. split_and!; [done | done | | |].
  - apply (Hown 0%nat (update_entry 2 1 "Mo Abou")); try reflexivity.
    intros [|j] e Hj He; try lia; simpl in He; simplify_eq.
  - apply Hblank. intros e He.
    apply list_elem_of_singleton in He as ->. vm_compute. congruence.
  - rewrite Hbelow by lia. reflexivity.
Defined.

(** ** The entry points *)

(** X16: open_excel's [main] and the file it writes.  A run saves at
    most once, and only the workbook a write mode (["w"], ["a"], ["i"])
    with a sheet name has mutated without an error; and outside read
    mode [main] leaves through [exit_json] only after that save went
    through, with the empty dictionary as its result. *)
Theorem open_excel_success_means_saved (files : Storage)
    (params : open_params) (out : result exit)
    (saves : list (string * Workbook)) :
  open_excel_main files params = (out, saves) →
  (saves = []
   ∨ ∃ wb wb' dest,
       p_op params ∈ ["w"; "a"; "i"]
       ∧ str_truthy (p_sheet_name params) = true
       ∧ load_workbook files (p_src params) = Ok wb
       ∧ update_sheet wb (p_updates_matrix params) (p_cell_style params)
           (p_sheet_name params) (p_op params) = Ok wb'
       ∧ saves = [(dest, wb')])
  ∧ (∀ r, out = Ok (exit_json r) → p_op params ≠ "r" →
       r = Nulldict
       ∧ ∃ dest wb', saves = [(dest, wb')]
                     ∧ save_raises files dest wb' = None).
Proof.
  unfold open_excel_main.
  destruct (String.eqb (p_op params) "r") eqn:Er.
  { apply String.eqb_eq in Er. intros [= <- <-].
    split; [by left | by intros r _ Hop]. }
  destruct (String.eqb (p_op params) "w" || String.eqb (p_op params) "a"
            || String.eqb (p_op params) "i") eqn:Ew;
    [| intros [= <- <-]; split; [by left | by intros r Hr _]].
  destruct (str_truthy (p_sheet_name params)) eqn:Hname; simpl negb;
    cbv iota; [| intros [= <- <-]; split; [by left | by intros r Hr _]].
  assert (p_op params ∈ ["w"; "a"; "i"]) as Hop.
  { apply orb_true_iff in Ew as [Ew | Ew];
      [apply orb_true_iff in Ew as [Ew | Ew] |];
      apply String.eqb_eq in Ew; rewrite Ew; repeat constructor. }
  unfold update_xl_content.
  destruct (load_workbook files (p_src params)) as [wb | e] eqn:Hload.
  - destruct (update_sheet wb (p_updates_matrix params)
                (p_cell_style params) (p_sheet_name params) (p_op params))
      as [wb' | e] eqn:Hupd.
    + match goal with
      | |- context [save_raises files ?d wb'] =>
          destruct (save_raises files d wb') as [e|] eqn:Hsave;
          [destruct e |]; intros [= <- <-];
          (split; [right; exists wb, wb', d; by split_and! |]);
          intros r Hr _; simpl in Hr; simplify_eq;
          split; [done | by exists d, wb']
      end.
    + intros [= <- <-]. split; [by left | by intros r Hr _].
  - destruct e; intros [= <- <-]; (split; [by left | by intros r Hr _]).
Qed.

(** A value appended to the sample sheet through [main]: the run leaves
    through [exit_json] with the empty dictionary after one save, to the
    default file name. *)
Lemma open_excel_success_means_saved_sample :
  ∃ dest wb',
    open_excel_main sample_files
      {| p_src := "SampleBook.xlsx"; p_dest := None; p_op := "a";
         p_index_by_name := true; p_read_range := None;
         p_updates_matrix := Some [update_entry 0 1 "Mo Abou"];
         p_cell_style := None; p_sheet_name := Some "Employee" |}
    = (Ok (exit_json Nulldict), [(dest, wb')])
    ∧ dest = "SampleBook.xlsx_updated.xlsx"
    ∧ save_raises sample_files dest wb' = None.
Proof.
  eexists _, _. split; [vm_compute; reflexivity |].
  split; [reflexivity |].
  match goal with
  | |- save_raises _ ?d ?w = None =>
      destruct (open_excel_success_means_saved sample_files
                  {| p_src := "SampleBook.xlsx"; p_dest := None;
                     p_op := "a"; p_index_by_name := true;
                     p_read_range := None;
                     p_updates_matrix := Some [update_entry 0 1 "Mo Abou"];
                     p_cell_style := None;
                     p_sheet_name := Some "Employee" |}
                  (Ok (exit_json Nulldict)) [(d, w)])
        as [_ Hsaved]; [vm_compute; reflexivity |]
  end.
  destruct (Hsaved Nulldict) as (_ & dest & wb' & Heq & Hsave);
    [reflexivity | discriminate |].
  by simplify_eq.
Defined.

(** X17: search_excel's [main] always reports.  When loading the file
    either succeeds or raises [IOError], the run ends in [exit_json]
    with a list of matches or in [fail_json] with one of the two
    messages of the worker: no exception of the search itself (a sheet
    that is missing, a bound that is no integer, a position below 1)
    escapes. *)
Theorem search_excel_main_always_reports (files : Storage)
    (params : search_params) :
  (∀ e, load_workbook files (s_src params) = Raise e → e = IOError) →
  (∃ l, search_excel_main files params = Ok (exit_json (Matches l)))
  ∨ search_excel_main files params
    = Ok (fail_json
            (From_worker (Message (Error_accessing_excel_file
                                     (s_src params)))))
  ∨ ∃ e, search_excel_main files params
         = Ok (fail_json
                 (From_worker
                    (Message (Invalid_search_parameters_specified e)))).
Proof.
  intros Hload. unfold search_excel_main, search_xl_content.
  destruct (load_workbook files (s_src params)) as [wb | e] eqn:Hwb.
  - match goal with
    | |- context [for_ ?names ?body ?init] =>
        destruct (for_ names body init) as [[[? ?] l] | e] eqn:Hbody
    end.
    + left. exists l. reflexivity.
    + right. right. exists e. reflexivity.
  - rewrite (Hload e eq_refl). right. left. reflexivity.
Qed.

(** A search of the sample workbook from row 0: the [ValueError] of the
    cell access is reported through [fail_json]. *)
Lemma search_excel_main_always_reports_sample :
  search_excel_main sample_files
    {| s_src := "SampleBook.xlsx"; s_search_token := "Cole";
       s_search_range := Some {[ "start_row" := PyInt 0 ]};
       s_search_options := ""; s_sheet_name := Some "Employee" |}
  = Ok (fail_json
          (From_worker
             (Message (Invalid_search_parameters_specified ValueError)))).
Proof.
  destruct (search_excel_main_always_reports sample_files
              {| s_src := "SampleBook.xlsx"; s_search_token := "Cole";
                 s_search_range := Some {[ "start_row" := PyInt 0 ]};
                 s_search_options := ""; s_sheet_name := Some "Employee" |})
    as [[l Hl] | [Hio | [e He]]].
  - intros e. simpl. discriminate.
  - vm_compute in Hl. discriminate.
  - vm_compute in Hio. discriminate.
  - vm_compute in He. vm_compute. congruence.
Defined.

(** ** What an update leaves alone *)

Lemma with_sheet_names (wb : Workbook) (name : option string)
    (ws' : Worksheet) :
  get_sheet_names (with_sheet wb name ws') = get_sheet_names wb.
Proof.
  unfold get_sheet_names.
  induction wb as [|[title ws] wb IH]; simpl; [done |].
  case_bool_decide; [done |]. rewrite !fmap_cons. by rewrite IH.
Qed.

(** A mutation that goes through returns the workbook with one sheet
    replaced. *)
Lemma update_sheet_shape (wb wb' : Workbook)
    (updates_matrix : option (list dict)) (cell_style : option dict)
    (sheet_name : option string) (op : string) :
  update_sheet wb updates_matrix cell_style sheet_name op = Ok wb' →
  ∃ ws', wb' = with_sheet wb sheet_name ws'.
Proof.
  unfold update_sheet. intros H.
  repeat match type of H with
         | mbind _ ?m = Ok _ =>
             destruct m as [? | ?]; cbn [mbind result_bind] in H;
             [| discriminate]
         end.
  match type of H with
  | (let '(_, _) := ?p in _) = _ => destruct p as [? ws']
  end.
  exists ws'. by simplify_eq.
Qed.

(** X18: whatever an update saves, in any mode and for any batch and
    style, has the sheets of the loaded workbook under the same names in
    the same order, and every sheet but the named one as it was loaded. *)
Theorem update_touches_one_sheet (files : Storage) (excel_file : string)
    (dest_filename : option string) (updates_matrix : option (list dict))
    (cell_style : option dict) (sheet_name : option string) (op : string)
    (wb wb' : Workbook) (ret : result (Z * response))
    (saves : list (string * Workbook)) (dest : string) :
  load_workbook files excel_file = Ok wb →
  update_xl_content files excel_file dest_filename updates_matrix
    cell_style sheet_name op = (ret, saves) →
  (dest, wb') ∈ saves →
  get_sheet_names wb' = get_sheet_names wb
  ∧ ∀ other, other ≠ sheet_name →
      get_sheet_by_name wb' other = get_sheet_by_name wb other.
Proof.
  intros Hload. unfold update_xl_content. rewrite Hload.
  destruct (update_sheet wb updates_matrix cell_style sheet_name op)
    as [wb1 | e] eqn:Hupd.
  - apply update_sheet_shape in Hupd as [ws' ->].
    match goal with
    | |- context [save_raises files ?d ?w] =>
        destruct (save_raises files d w) as [[]|]
    end; intros [= <- <-] Hin; apply list_elem_of_singleton in Hin;
      simplify_eq;
      (split; [apply with_sheet_names
              | by intros; apply get_with_sheet_other]).
  - intros [= <- <-] Hin. by apply elem_of_nil in Hin.
Qed.

(** An insert into the sheet ["Employee"] of the sample workbook leaves
    the sheet ["Summary"] as it was. *)
Lemma update_touches_one_sheet_sample :
  ∃ dest wb',
    (update_xl_content sample_files "SampleBook.xlsx" None
       (Some [update_entry 2 1 "Mo Abou"]) (Some sample_style)
       (Some "Employee") "i").2 = [(dest, wb')]
    ∧ get_sheet_names wb' = ["Summary"; "Employee"]
    ∧ get_sheet_by_name wb' (Some "Summary") = Ok summary_sheet.
Proof.
  eexists _, _. split; [vm_compute; reflexivity |].
  match goal with
  | |- get_sheet_names ?w = _ ∧ _ =>
      destruct (update_touches_one_sheet sample_files "SampleBook.xlsx"
                  None (Some [update_entry 2 1 "Mo Abou"])
                  (Some sample_style) (Some "Employee") "i" sample_book w
                  (Ok (0, Nulldict))
                  [("SampleBook.xlsx_updated.xlsx", w)]
                  "SampleBook.xlsx_updated.xlsx")
        as [Hnames Hother];
        [reflexivity | vm_compute; reflexivity | by left |]
  end.
  split; [by rewrite Hnames |]. by rewrite Hother.
Defined.

(** ** Empty cells in a search *)

(** X19: the text of an empty cell is ["None"], so a search for the
    token ["None"] reports every position of the range that holds no
    cell, whatever the options. *)
Theorem search_for_None_reports_empty_cells (files : Storage)
    (excel_file : string) (search_range : option dict)
    (search_options : string) (name : string) (wb : Workbook)
    (ws : Worksheet) (sr sc row col : Z) :
  load_workbook files excel_file = Ok wb →
  name ≠ "" →
  get_sheet_by_name wb (Some name) = Ok ws →
  py_index (get_or search_range "start_row" (PyInt 1)) = Ok sr →
  py_index (get_or search_range "start_col" (PyInt 1)) = Ok sc →
  1 ≤ sr → 1 ≤ sc →
  sr ≤ row < resolved (end_bound search_range "end_row") (max_row ws) →
  sc ≤ col < resolved (end_bound search_range "end_col") (max_column ws) →
  ws !! (row, col) = None →
  ∃ l, search_xl_content files excel_file "None" search_range
         search_options (Some name) = Ok (0, Matches l)
       ∧ (row, col) ∈ l.
Proof.
  intros Hload Hname Hws Hsr Hsc Hsr1 Hsc1 Hrow Hcol Hnone.
  unfold search_xl_content. rewrite Hload.
  rewrite select_named by done. cbn [for_].
  rewrite (search_sheet_scan wb _ _ _ _ _ _ name ws sr sc) by done.
  cbn [mbind result_bind except_Exception]. eexists. split; [done |].
  rewrite app_nil_l. unfold sheet_hits. apply list_elem_of_bind.
  exists row. split; [| apply elem_of_seqZ; unfold resolved in Hrow; lia].
  apply list_elem_of_bind. exists col.
  split; [| apply elem_of_seqZ; unfold resolved in Hcol; lia].
  assert (cell_hit ws (contains "i" search_options)
            (contains "w" search_options) (contains "x" search_options)
            (if contains "i" search_options then lower "None" else "None")
            row col = true) as ->; [| by left].
  unfold cell_hit, stored_value. rewrite Hnone.
  by destruct (contains "i" search_options),
       (contains "w" search_options), (contains "x" search_options).
Qed.

(** The sample sheet ["Summary"] holds one cell, at (1, 1); searched up
    to column 2, the position (1, 2) is reported for the token
    ["None"]. *)
Lemma search_for_None_reports_empty_cells_sample :
  ∃ l, search_xl_content sample_files "SampleBook.xlsx" "None"
         (Some {[ "end_col" := PyInt 2 ]}) "w" (Some "Summary")
       = Ok (0, Matches l)
       ∧ (1, 2) ∈ l.
Proof.
  apply (search_for_None_reports_empty_cells sample_files "SampleBook.xlsx"
           (Some {[ "end_col" := PyInt 2 ]}) "w" "Summary" sample_book
           summary_sheet 1 1 1 2);
    try reflexivity; try discriminate; try lia; vm_compute; intuition congruence.
Defined.
